(** * PyMOL KVFinder-web Tools: the job record, the job store and the worker thread

    A shallow embedding of [Job] and [Worker] of
    [PyMOL-KVFinder-web-tools/__init__.py], with the properties of the
    background job tracking stated and proved over it.

    Conventions of the embedding.
    - A path is the list of its components: [os.path.join d n] is [d ++ [n]]
      and [os.path.basename] is the last component.  Job ids, base names and
      PyMOL object names are single components.
    - A text file is the list of the pieces written to it.  Lines of TOML are
      kept as tokens; the text produced by [toml.dump o] is the token
      [Dumped o], and [toml.load] interprets the tokens.
    - A Python method that mutates its object or the disk is a function from
      the state to the new state and either a value or the exception raised:
      what was written before an exception stays written. *)

From stdpp Require Import gmap strings list fin_maps.
From Stdlib Require Import Ascii String Lia.

Set Warnings "-register-all,-abstract-large-number,-clear-no-such-hyp".

Open Scope string_scope.
Open Scope list_scope.

(** ** Exceptions and the state-and-exception monad *)

Inductive exn :=
| FileExistsError
| FileNotFoundError
| NotADirectoryError
| IsADirectoryError
| OSError
| KeyError (key : string)
| TypeError
| TomlDecodeError
| OutOfFuel.

Inductive result (A : Type) :=
| Ok (a : A)
| Raise (e : exn).
Arguments Ok {A} a.
Arguments Raise {A} e.

Definition M (S A : Type) : Type := S -> S * result A.

Definition ret {S A} (a : A) : M S A := fun s => (s, Ok a).
Definition raise {S A} (e : exn) : M S A := fun s => (s, Raise e).
Definition bind {S A B} (m : M S A) (k : A -> M S B) : M S B :=
  fun s => match m s with
           | (s', Ok a) => k a s'
           | (s', Raise e) => (s', Raise e)
           end.
Definition lift_result {S A} (r : result A) : M S A := fun s => (s, r).
Definition gets {S A} (f : S -> A) : M S A := fun s => (s, Ok (f s)).
Definition modify {S} (f : S -> S) : M S unit := fun s => (f s, Ok tt).

(** [try: m except FileExistsError: pass] *)
Definition pass_FileExistsError {S} (m : M S unit) : M S unit :=
  fun s => match m s with
           | (s', Raise FileExistsError) => (s', Ok tt)
           | r => r
           end.

(** [try: m except Exception as e: print("Error occurred: ", e)].
    [OutOfFuel] is no exception of the program: it marks a loop of the model
    cut short, and nothing catches it. *)
Definition except_Exception {S} (m : M S unit) : M S unit :=
  fun s => match m s with
           | (s', Raise OutOfFuel) => (s', Raise OutOfFuel)
           | (s', Raise _) => (s', Ok tt)
           | r => r
           end.

Notation "'let*' x ':=' m 'in' k" := (bind m (fun x => k))
  (at level 10, x pattern, m at level 100, k at level 200).
Notation "m ';;' k" := (bind m (fun _ => k))
  (at level 100, k at level 200, right associativity).

(** [for x in l: body x] *)
Fixpoint for_each {S A} (l : list A) (body : A -> M S unit) : M S unit :=
  match l with
  | [] => ret tt
  | x :: l' => body x ;; for_each l' body
  end.

(** ** TOML values and the pieces of a text file *)

Inductive toml_value :=
| VNone
| VBool (b : bool)
| VStr (s : string)
| VPath (p : list string)
| VNum (repr : string)
| VTable (entries : list (string * toml_value)).

Definition dict := list (string * toml_value).

Inductive token :=
| Text (s : string)
| Comment (s : string)
| Blank
| KeyVal (key : string) (v : toml_value)
| Table (name : string)
| Dumped (o : dict).

(** ** The file system *)

Definition path := list string.

Inductive node :=
| File (content : list token)
| Dir (entries : gmap string node).

Fixpoint lookup_path (fs : node) (p : path) : option node :=
  match p with
  | [] => Some fs
  | x :: p' =>
      match fs with
      | Dir m => match m !! x with
                 | Some c => lookup_path c p'
                 | None => None
                 end
      | File _ => None
      end
  end.

(** Replace the node found at [p]; the tree is unchanged when [p] leads nowhere. *)
Fixpoint put (fs : node) (p : path) (n : node) : node :=
  match p with
  | [] => n
  | x :: p' =>
      match fs with
      | Dir m => match m !! x with
                 | Some c => Dir (<[x := put c p' n]> m)
                 | None => fs
                 end
      | File _ => fs
      end
  end.

Fixpoint split_last (p : path) : option (path * string) :=
  match p with
  | [] => None
  | x :: p' =>
      match split_last p' with
      | None => Some ([], x)
      | Some (d, n) => Some (x :: d, n)
      end
  end.

Fixpoint height (n : node) : nat :=
  match n with
  | File _ => 0
  | Dir m => S (map_fold (fun _ c acc => Nat.max (height c) acc) 0 m)
  end.

Module os.

Definition listdir (d : path) : M node (list string) := fun fs =>
  match lookup_path fs d with
  | Some (Dir m) => (fs, Ok (map_to_list m).*1)
  | Some (File _) => (fs, Raise NotADirectoryError)
  | None => (fs, Raise FileNotFoundError)
  end.

Definition exists_ (fs : node) (p : path) : bool :=
  match lookup_path fs p with Some _ => true | None => false end.

Definition isdir (fs : node) (p : path) : bool :=
  match lookup_path fs p with Some (Dir _) => true | _ => false end.

(** The directory that holds [p] and the name of [p] in it. *)
Definition parent (fs : node) (p : path) : result (path * string * gmap string node) :=
  match split_last p with
  | None => Raise IsADirectoryError
  | Some (d, x) =>
      match lookup_path fs d with
      | Some (Dir m) => Ok (d, x, m)
      | Some (File _) => Raise NotADirectoryError
      | None => Raise FileNotFoundError
      end
  end.

Definition mkdir (p : path) : M node unit := fun fs =>
  match parent fs p with
  | Raise IsADirectoryError => (fs, Raise FileExistsError)
  | Raise e => (fs, Raise e)
  | Ok (d, x, m) =>
      match m !! x with
      | Some _ => (fs, Raise FileExistsError)
      | None => (put fs d (Dir (<[x := Dir ∅]> m)), Ok tt)
      end
  end.

Definition remove (p : path) : M node unit := fun fs =>
  match parent fs p with
  | Raise e => (fs, Raise e)
  | Ok (d, x, m) =>
      match m !! x with
      | Some (File _) => (put fs d (Dir (delete x m)), Ok tt)
      | Some (Dir _) => (fs, Raise IsADirectoryError)
      | None => (fs, Raise FileNotFoundError)
      end
  end.

Definition rmdir (p : path) : M node unit := fun fs =>
  match parent fs p with
  | Raise e => (fs, Raise e)
  | Ok (d, x, m) =>
      match m !! x with
      | Some (Dir m') =>
          match map_to_list m' with
          | [] => (put fs d (Dir (delete x m)), Ok tt)
          | _ :: _ => (fs, Raise OSError)
          end
      | Some (File _) => (fs, Raise NotADirectoryError)
      | None => (fs, Raise FileNotFoundError)
      end
  end.

(** [open(p, "w")]: the file exists and is empty from here on. *)
Definition open_w (p : path) : M node unit := fun fs =>
  match parent fs p with
  | Raise e => (fs, Raise e)
  | Ok (d, x, m) =>
      match m !! x with
      | Some (Dir _) => (fs, Raise IsADirectoryError)
      | _ => (put fs d (Dir (<[x := File []]> m)), Ok tt)
      end
  end.

(** Closing a file opened for writing flushes what was written to it. *)
Definition close_w (p : path) (written : list token) : M node unit :=
  modify (fun fs => put fs p (File written)).

(** [with open(p, "r") as f: f.read()] *)
Definition read (p : path) : M node (list token) := fun fs =>
  match lookup_path fs p with
  | Some (File c) => (fs, Ok c)
  | Some (Dir _) => (fs, Raise IsADirectoryError)
  | None => (fs, Raise FileNotFoundError)
  end.

(** [with open(p, "w") as f: body]: [body] is the pieces it writes and how
    it ends; the file is closed, and so flushed, also when [body] raises. *)
Definition with_open_w (p : path) (body : list token * result unit) : M node unit :=
  open_w p ;;
  close_w p (fst body) ;;
  lift_result (snd body).

End os.

(** ** [Worker.erase_job_dir] *)

(** The recursion of the source on the directories below [d]; [fuel] bounds
    its depth, and [erase_job_dir] gives it more than the tree is deep. *)
Fixpoint erase_job_dir_rec (fuel : nat) (d : path) : M node unit :=
  match fuel with
  | 0 => raise OutOfFuel
  | S k =>
      let* names := os.listdir d in
      for_each names (fun f =>
        let f := d ++ [f] in
        let* is_dir := gets (fun fs => os.isdir fs f) in
        if is_dir then erase_job_dir_rec k f else os.remove f) ;;
      os.rmdir d
  end.

Definition erase_job_dir (d : path) : M node unit :=
  fun fs => erase_job_dir_rec (S (height fs)) d fs.

(** ** Strings *)

Definition newline : string := String "010"%char EmptyString.

Fixpoint is_prefix (p s : string) : bool :=
  match p, s with
  | EmptyString, _ => true
  | String a p', String b s' => if Ascii.eqb a b then is_prefix p' s' else false
  | String _ _, EmptyString => false
  end.

(** [sub in s] *)
Fixpoint contains (sub s : string) : bool :=
  is_prefix sub s ||
  match s with
  | EmptyString => false
  | String _ s' => contains sub s'
  end.

(** [s.replace(old, new)] for a non-empty [old]: occurrences are replaced
    from the left and do not overlap; [skip] is what is left to pass over of
    the occurrence just replaced. *)
Fixpoint replace_from (old new : string) (skip : nat) (s : string) : string :=
  match s with
  | EmptyString => EmptyString
  | String c s' =>
      match skip with
      | S n => replace_from old new n s'
      | 0 =>
          if is_prefix old s
          then new +:+ replace_from old new (String.length old - 1) s'
          else String c (replace_from old new 0 s')
      end
  end.

Definition str_replace (old new s : string) : string := replace_from old new 0 s.

(** [s.split("\n")] *)
Fixpoint split_lines (s : string) : list string :=
  match s with
  | EmptyString => [EmptyString]
  | String c s' =>
      if Ascii.eqb c "010"%char then EmptyString :: split_lines s'
      else match split_lines s' with
           | l :: ls => String c l :: ls
           | [] => [String c EmptyString]
           end
  end.

(** [os.path.basename] *)
Definition basename (p : path) : string := List.last p "".

(** ** Python dictionaries with string keys *)

Fixpoint dict_get (d : dict) (k : string) : option toml_value :=
  match d with
  | [] => None
  | (k', v) :: d' => if String.eqb k' k then Some v else dict_get d' k
  end.

(** [d[k] = v] keeps the place of a key that is there and appends a new one. *)
Fixpoint dict_set (d : dict) (k : string) (v : toml_value) : dict :=
  match d with
  | [] => [(k, v)]
  | (k', v') :: d' =>
      if String.eqb k' k then (k, v) :: d' else (k', v') :: dict_set d' k v
  end.

Definition dict_has (d : dict) (k : string) : bool :=
  match dict_get d k with Some _ => true | None => false end.

(** [d[k]] *)
Definition getitem (d : dict) (k : string) : result toml_value :=
  match dict_get d k with
  | Some v => Ok v
  | None => Raise (KeyError k)
  end.

Definition as_table (v : toml_value) : result dict :=
  match v with VTable t => Ok t | _ => Raise TypeError end.

Definition as_str (v : toml_value) : result string :=
  match v with VStr s => Ok s | _ => Raise TypeError end.

Definition as_path (v : toml_value) : result path :=
  match v with VPath p => Ok p | VStr s => Ok [s] | _ => Raise TypeError end.

(** Truth value of a Python object. *)
Definition truthy (v : toml_value) : bool :=
  match v with
  | VNone => false
  | VBool b => b
  | VStr s => negb (String.eqb s "")
  | VPath p => match p with [] => false | _ => true end
  | VNum r => negb (String.eqb r "0") && negb (String.eqb r "0.0")
  | VTable t => match t with [] => false | _ => true end
  end.

Definition bind_result {A B} (r : result A) (k : A -> result B) : result B :=
  match r with Ok a => k a | Raise e => Raise e end.

Notation "'let?' x ':=' r 'in' k" := (bind_result r (fun x => k))
  (at level 10, x pattern, r at level 100, k at level 200).

(** ** The [toml] library on tokens *)

(** [toml.dump] writes no entry whose value is [None]. *)
Fixpoint prune (v : toml_value) : toml_value :=
  match v with
  | VTable es =>
      VTable ((fix go (es : list (string * toml_value)) :=
                 match es with
                 | [] => []
                 | (k, VNone) :: es' => go es'
                 | (k, w) :: es' => (k, prune w) :: go es'
                 end) es)
  | _ => v
  end.

Definition is_table (v : toml_value) : bool :=
  match v with VTable _ => true | _ => false end.

Definition is_none (v : toml_value) : bool :=
  match v with VNone => true | _ => false end.

(** The document read so far and the table the next keys go to. *)
Definition reader : Type := dict * option string.

Definition read_key (r : reader) (k : string) (v : toml_value) : result reader :=
  let (top, cur) := r in
  match cur with
  | None =>
      if dict_has top k then Raise TomlDecodeError else Ok (top ++ [(k, v)], cur)
  | Some t =>
      let? tv := getitem top t in
      let? entries := as_table tv in
      if dict_has entries k then Raise TomlDecodeError
      else Ok (dict_set top t (VTable (entries ++ [(k, v)])), cur)
  end.

Definition read_table (r : reader) (name : string) (entries : dict) : result reader :=
  let (top, cur) := r in
  if dict_has top name then Raise TomlDecodeError
  else Ok (top ++ [(name, VTable entries)], Some name).

Fixpoint read_entries (r : reader) (es : dict) (tables : bool) : result reader :=
  match es with
  | [] => Ok r
  | (k, v) :: es' =>
      if is_none v then read_entries r es' tables
      else
        let? r' :=
          (if is_table v
           then (if tables
                 then (match prune v with
                       | VTable t => read_table r k t
                       | _ => Ok r
                       end)
                 else Ok r)
           else (if tables then Ok r else read_key r k v)) in
        read_entries r' es' tables
  end.

(** The text of [toml.dump o] has the plain keys of [o] first, then one
    section for each of its tables. *)
Definition read_dumped (r : reader) (o : dict) : result reader :=
  let? r' := read_entries r o false in
  read_entries r' o true.

Definition read_token (r : reader) (t : token) : result reader :=
  match t with
  | Text _ => Raise TomlDecodeError
  | Comment _ => Ok r
  | Blank => Ok r
  | KeyVal k v => read_key r k v
  | Table name => read_table r name []
  | Dumped o => read_dumped r o
  end.

Fixpoint read_tokens (r : reader) (ts : list token) : result reader :=
  match ts with
  | [] => Ok r
  | t :: ts' => let? r' := read_token r t in read_tokens r' ts'
  end.

Module toml.
(** [toml.load] and [toml.loads] *)
Definition load (ts : list token) : result dict :=
  let? r := read_tokens ([], None) ts in Ok (fst r).
End toml.

(** ** The machine: disk, home directory, standard output, PyMOL session *)

Record machine := {
  fs : node;
  (** [os.path.expanduser("~")] *)
  home : path;
  (** whether file descriptor 1 of the process is open *)
  stdout_open : bool;
  (** the objects loaded in PyMOL, with the PDB text [cmd.save] writes for each *)
  objects : gmap string string
}.

Definition set_fs (m : machine) (fs' : node) : machine :=
  {| fs := fs'; home := home m; stdout_open := stdout_open m; objects := objects m |}.

(** Run a file-system operation on the disk of the machine. *)
Definition on_disk {A} (op : M node A) : M machine A :=
  fun m => let (fs', r) := op (fs m) in (set_fs m fs', r).

(** [~/.KVFinder-web] *)
Definition jobs_dir (m : machine) : path := home m ++ [".KVFinder-web"].

(** ** The replies of the KVFinder-web service *)

Record results := {
  pdb_kv : string;
  report : list token;
  log : string
}.

(** The JSON of a reply: [{"status": ..., "output": {...}}]. *)
Record reply_json := {
  reply_status : string;
  reply_output : option results
}.

(** ** [class Job] *)

Record job := {
  status : string;
  pdb : option path;
  ligand : option path;
  output_directory : path;
  base_name : string;
  id_added_manually : bool;
  id : option string;
  (** [input["pdb"]], [input["pdb_ligand"]], [input["settings"]] *)
  input_pdb : option (list token);
  input_pdb_ligand : option (list token);
  settings : dict;
  output : option reply_json
}.

Definition set_status (j : job) (s : string) : job :=
  {| status := s; pdb := pdb j; ligand := ligand j;
     output_directory := output_directory j; base_name := base_name j;
     id_added_manually := id_added_manually j; id := id j;
     input_pdb := input_pdb j; input_pdb_ligand := input_pdb_ligand j;
     settings := settings j; output := output j |}.

Definition set_id (j : job) (i : option string) : job :=
  {| status := status j; pdb := pdb j; ligand := ligand j;
     output_directory := output_directory j; base_name := base_name j;
     id_added_manually := id_added_manually j; id := i;
     input_pdb := input_pdb j; input_pdb_ligand := input_pdb_ligand j;
     settings := settings j; output := output j |}.

Definition set_output (j : job) (o : option reply_json) : job :=
  {| status := status j; pdb := pdb j; ligand := ligand j;
     output_directory := output_directory j; base_name := base_name j;
     id_added_manually := id_added_manually j; id := id j;
     input_pdb := input_pdb j; input_pdb_ligand := input_pdb_ligand j;
     settings := settings j; output := o |}.

(** The value of an optional path in a dictionary or an f-string. *)
Definition path_value (p : option path) : toml_value :=
  match p with Some q => VPath q | None => VNone end.

(** [f"{p}"]: [None] is formatted as the text None. *)
Definition format_path (p : option path) : toml_value :=
  match p with Some q => VPath q | None => VStr "None" end.

(** [str(id)] *)
Definition str_id (i : option string) : string :=
  match i with Some s => s | None => "None" end.

Module Job.

(** [self.cavity], [self.report], [self.log]: [None] without an output,
    [self.output["output"][...]] with one. *)
Definition cavity (self : job) : result (option string) :=
  match output self with
  | None => Ok None
  | Some r => match reply_output r with
              | Some o => Ok (Some (pdb_kv o))
              | None => Raise (KeyError "output")
              end
  end.

Definition report (self : job) : result (option (list token)) :=
  match output self with
  | None => Ok None
  | Some r => match reply_output r with
              | Some o => Ok (Some (report o))
              | None => Raise (KeyError "output")
              end
  end.

Definition log (self : job) : result (option string) :=
  match output self with
  | None => Ok None
  | Some r => match reply_output r with
              | Some o => Ok (Some (log o))
              | None => Raise (KeyError "output")
              end
  end.

(** [cmd.save(fn, name, 0, "pdb")] *)
Definition cmd_save (fn : path) (name : string) : M machine unit :=
  let* text := gets (fun m => objects m !! name) in
  match text with
  | Some t => on_disk (os.with_open_w fn ([Text t], Ok tt))
  | None => raise (KeyError name)
  end.

(** The structure file of [upload]: the path of [name] in the output
    directory, saved from PyMOL when the file is missing and [name] is an
    object of the session. *)
Definition structure_file (output_directory : path) (name : string) : M machine path :=
  let fn := output_directory ++ [name +:+ ".pdb"] in
  let* present := gets (fun m => os.exists_ (fs m) fn) in
  let* loaded := gets (fun m => bool_decide (is_Some (objects m !! name))) in
  (if negb present then (if loaded then cmd_save fn name else ret tt) else ret tt) ;;
  ret fn.

(** [_add_pdb]: the text of the file, to be sent to the service. *)
Definition _add_pdb (pdb_fn : path) : M machine (list token) :=
  on_disk (os.read pdb_fn).

(** The structure named under [key] of [files], when there is one. *)
Definition upload_structure (files : dict) (key : string) (output_directory : path)
    (current : option path) : M machine (option path) :=
  match dict_get files key with
  | Some VNone => ret current
  | Some v =>
      let* name := lift_result (as_str v) in
      let* fn := structure_file output_directory name in
      ret (Some fn)
  | None => ret current
  end.

Definition upload_text (fn : option path) (current : option (list token))
    : M machine (option (list token)) :=
  match fn with
  | Some p => let* text := _add_pdb p in ret (Some text)
  | None => ret current
  end.

Definition upload (parameters : dict) (self : job) : M machine job :=
  let* status := lift_result (let? v := getitem parameters "status" in as_str v) in
  let id_added_manually :=
    match dict_get parameters "id_added_manually" with
    | Some v => if truthy v then true else id_added_manually self
    | None => id_added_manually self
    end in
  let* files := lift_result (let? v := getitem parameters "files" in as_table v) in
  let* output_directory := lift_result (let? v := getitem files "output" in as_path v) in
  let* base_name := lift_result (let? v := getitem files "base_name" in as_str v) in
  let* pdb := upload_structure files "pdb" output_directory (pdb self) in
  let* ligand := upload_structure files "ligand" output_directory (ligand self) in
  let* input_pdb := upload_text pdb (input_pdb self) in
  let* input_pdb_ligand := upload_text ligand (input_pdb_ligand self) in
  let* modes := lift_result (getitem parameters "modes") in
  let* step_size := lift_result (getitem parameters "step_size") in
  let* probes := lift_result (getitem parameters "probes") in
  let* cutoffs := lift_result (getitem parameters "cutoffs") in
  let* visiblebox := lift_result (getitem parameters "visiblebox") in
  let* internalbox := lift_result (getitem parameters "internalbox") in
  ret {| status := status; pdb := pdb; ligand := ligand;
         output_directory := output_directory; base_name := base_name;
         id_added_manually := id_added_manually; id := id self;
         input_pdb := input_pdb; input_pdb_ligand := input_pdb_ligand;
         settings := [("modes", modes); ("step_size", step_size);
                      ("probes", probes); ("cutoffs", cutoffs);
                      ("visiblebox", visiblebox); ("internalbox", internalbox)];
         output := output self |}.

(** [Job(parameters)]: the attributes [__init__] sets before [upload]; those
    left empty here are [None] in the source and assigned by [upload]. *)
Definition __init__ (parameters : dict) : M machine job :=
  upload parameters
    {| status := ""; pdb := None; ligand := None; output_directory := [];
       base_name := ""; id_added_manually := false; id := None;
       input_pdb := None; input_pdb_ligand := None; settings := [];
       output := None |}.

(** What [save] writes to [job.toml]. *)
Definition job_file (self : job) : list token :=
  [Comment "TOML configuration file for KVFinder-web job"; Blank;
   KeyVal "title" (VStr "KVFinder-web job file"); Blank;
   KeyVal "status" (VStr (status self)); Blank]
  ++ (if id_added_manually self then [KeyVal "id_added_manually" (VBool true); Blank] else [])
  ++ [Table "files"]
  ++ match pdb self with Some p => [KeyVal "pdb" (VPath p)] | None => [] end
  ++ match ligand self with Some p => [KeyVal "ligand" (VPath p)] | None => [] end
  ++ [KeyVal "output" (VPath (output_directory self));
      KeyVal "base_name" (VStr (base_name self));
      Blank;
      Dumped (settings self);
      Blank].

Definition job_dn (m : machine) (id : string) : path := jobs_dir m ++ [id].
Definition job_fn (m : machine) (id : string) : path := job_dn m id ++ ["job.toml"].

(** [save] up to and including [open(job_fn, "w")]. *)
Definition save_open (id : option string) : M machine path :=
  let* job_dn := gets (fun m => job_dn m (str_id id)) in
  pass_FileExistsError (on_disk (os.mkdir job_dn)) ;;
  let job_fn := job_dn ++ ["job.toml"] in
  on_disk (os.open_w job_fn) ;;
  ret job_fn.

(** The writes of the [with] block reach the file when it is closed. *)
Definition save (self : job) (id : option string) : M machine unit :=
  let* job_fn := save_open id in
  on_disk (os.close_w job_fn (job_file self)).

(** [job_info["files"][key] = os.path.basename(...).replace(".pdb", "")] *)
Definition fix_structure (files : dict) (key : string) : result dict :=
  match dict_get files key with
  | Some v =>
      let? p := as_path v in
      Ok (dict_set files key (VStr (str_replace ".pdb" "" (basename p))))
  | None => Ok files
  end.

Definition load (fn : path) : M machine job :=
  let* text := on_disk (os.read fn) in
  let* job_info := lift_result (toml.load text) in
  let* files := lift_result (let? v := getitem job_info "files" in as_table v) in
  let* files := lift_result (fix_structure files "pdb") in
  let* files := lift_result (fix_structure files "ligand") in
  let job_info := dict_set job_info "files" (VTable files) in
  let job_info :=
    match dict_get job_info "id_added_manually" with
    | Some v =>
        if truthy v then
          dict_set (dict_set (dict_set (dict_set (dict_set (dict_set job_info
            "modes" VNone) "step_size" VNone) "probes" VNone) "cutoffs" VNone)
            "visiblebox" VNone) "internalbox" VNone
        else job_info
    | None => job_info
    end in
  __init__ job_info.

(** The files of [export]. *)
Definition base_dir (self : job) : result path :=
  match id self with
  | Some i => Ok (output_directory self ++ [i])
  | None => Raise TypeError
  end.

Definition cavity_fn (base_dir : path) (self : job) : path :=
  base_dir ++ [base_name self +:+ ".KVFinder.output.pdb"].
Definition report_fn (base_dir : path) (self : job) : path :=
  base_dir ++ [base_name self +:+ ".KVFinder.results.toml"].
Definition log_fn (base_dir : path) : path :=
  base_dir ++ ["KVFinder.log"].
Definition parameter_fn (base_dir : path) (self : job) : path :=
  base_dir ++ [base_name self +:+ "_parameters.toml"].

(** [report["FILES_PATH"][key] = v] *)
Definition set_files_path (report : dict) (key : string) (v : toml_value) : result dict :=
  let? fp := getitem report "FILES_PATH" in
  let? t := as_table fp in
  Ok (dict_set report "FILES_PATH" (VTable (dict_set t key v))).

Definition log_line (self : job) (line : string) : list token :=
  if contains "Running parKVFinder for: " line
  then [Text ("Running parKVFinder for job ID: " +:+ str_id (id self) +:+ newline)]
  else if contains "Dictionary: " line then []
  else [Text (line +:+ newline)].

Definition parameters_file (self : job) : list token :=
  [Comment "TOML configuration file for KVFinder-web job."; Blank;
   KeyVal "title" (VStr "KVFinder-web parameters file"); Blank;
   Table "files";
   Comment "The path of the input PDB file.";
   KeyVal "pdb" (format_path (pdb self));
   Comment "The path for the ligand's PDB file.";
   match ligand self with
   | Some p => KeyVal "ligand" (VPath p)
   | None => KeyVal "ligand" (VStr "-")
   end;
   Blank;
   Table "settings";
   Comment "Settings for cavity detection."; Blank;
   Dumped [("settings", VTable (settings self))];
   Blank].

(** The files [export] writes into [base_dir]. *)
Definition export_files (base_dir : path) (self : job) : M machine unit :=
  (* Export cavity *)
  let cavity_fn := cavity_fn base_dir self in
  on_disk (os.with_open_w cavity_fn
    (match cavity self with
     | Ok (Some c) => ([Text c], Ok tt)
     | Ok None => ([], Raise TypeError)
     | Raise e => ([], Raise e)
     end)) ;;
  (* Export report *)
  let report_fn := report_fn base_dir self in
  let* text := lift_result (report self) in
  let* report := lift_result
    (match text with Some ts => toml.load ts | None => Raise TypeError end) in
  let* report := lift_result (set_files_path report "INPUT" (path_value (pdb self))) in
  let* report := lift_result (set_files_path report "LIGAND" (path_value (ligand self))) in
  let* report := lift_result (set_files_path report "OUTPUT" (VPath cavity_fn)) in
  on_disk (os.with_open_w report_fn
    ([Comment "TOML results file for parKVFinder software"; Blank; Dumped report], Ok tt)) ;;
  (* Export log *)
  on_disk (os.with_open_w (log_fn base_dir)
    (match log self with
     | Ok (Some l) => (List.concat (map (log_line self) (split_lines l)), Ok tt)
     | Ok None => ([], Raise TypeError)
     | Raise e => ([], Raise e)
     end)) ;;
  (* Export parameters *)
  if negb (id_added_manually self)
  then on_disk (os.with_open_w (parameter_fn base_dir self) (parameters_file self, Ok tt))
  else ret tt.

Definition export (self : job) : M machine unit :=
  (* Prepare base file *)
  let* base_dir := lift_result (base_dir self) in
  pass_FileExistsError (on_disk (os.mkdir base_dir)) ;;
  export_files base_dir self.

End Job.

(** ** Timers (msec) and the re-validation interval *)

Definition time_restart_job_checks : nat := 5000.
Definition time_server_down : nat := 60000.
Definition time_no_jobs : nat := 5000.
Definition time_between_jobs : nat := 2000.
Definition time_wait_status : nat := 5000.
Definition times_job_completed_no_checked : nat := 500.

(** ** What surrounds the worker thread *)

Inductive network_error :=
| NoError
| ContentNotFoundError
| ConnectionRefusedError
| TimeoutError
| UnknownNetworkError.

Record network_reply := {
  error : network_error;
  readAll : reply_json
}.

(** The service, the user and the dialog, each asked at a time of the clock
    of the worker (msec). *)
Record environment := {
  (** the reply to [GET server/job_id] *)
  service : nat -> string -> network_reply;
  (** whether the request of [_check_server_status] goes through *)
  probe : nat -> bool;
  (** whether the user closes the message box of an expired job at this
      time, which calls [wait_status(False)] *)
  acknowledged : nat -> bool;
  (** whether [dialog is None] *)
  dialog_closed : nat -> bool
}.

Inductive signal :=
| id_signal (job_id : string)
| server_down
| server_up
| server_status_signal (status : bool)
| available_jobs_signal (jobs : list string).

(** What the worker is seen doing, oldest first: signals, requests, waits,
    assignments of [self.wait], and for each completed job with its results on
    disk whether it was fetched anyway or left alone. *)
Inductive event :=
| Emit (s : signal)
| Get (job_id : string)
| Probe
| Sleep (ms : nat)
| SetWait (b : bool)
| Forced (job_id : string)
| Skipped (job_id : string).

#[global] Instance signal_eq_dec : EqDecision signal.
Proof. solve_decision. Defined.
#[global] Instance event_eq_dec : EqDecision event.
Proof. solve_decision. Defined.

(** ** [class Worker] *)

Record state := {
  computer : machine;
  (** attributes of the worker *)
  wait : bool;
  server_status : bool;
  job_info : option job;
  (** [self.reply] while its [finished] signal is still to come *)
  reply : option network_reply;
  (** locals of [run] *)
  counter : nat;
  flag : bool;
  (** observation *)
  clock : nat;
  trace : list event
}.

Definition set_computer (s : state) (m : machine) : state :=
  {| computer := m; wait := wait s; server_status := server_status s;
     job_info := job_info s; reply := reply s; counter := counter s;
     flag := flag s; clock := clock s; trace := trace s |}.
Definition set_wait (s : state) (b : bool) : state :=
  {| computer := computer s; wait := b; server_status := server_status s;
     job_info := job_info s; reply := reply s; counter := counter s;
     flag := flag s; clock := clock s; trace := trace s |}.
Definition set_server_status (s : state) (b : bool) : state :=
  {| computer := computer s; wait := wait s; server_status := b;
     job_info := job_info s; reply := reply s; counter := counter s;
     flag := flag s; clock := clock s; trace := trace s |}.
Definition set_job_info (s : state) (j : option job) : state :=
  {| computer := computer s; wait := wait s; server_status := server_status s;
     job_info := j; reply := reply s; counter := counter s;
     flag := flag s; clock := clock s; trace := trace s |}.
Definition set_reply (s : state) (r : option network_reply) : state :=
  {| computer := computer s; wait := wait s; server_status := server_status s;
     job_info := job_info s; reply := r; counter := counter s;
     flag := flag s; clock := clock s; trace := trace s |}.
Definition set_counter (s : state) (n : nat) : state :=
  {| computer := computer s; wait := wait s; server_status := server_status s;
     job_info := job_info s; reply := reply s; counter := n;
     flag := flag s; clock := clock s; trace := trace s |}.
Definition set_flag (s : state) (b : bool) : state :=
  {| computer := computer s; wait := wait s; server_status := server_status s;
     job_info := job_info s; reply := reply s; counter := counter s;
     flag := b; clock := clock s; trace := trace s |}.
Definition set_clock (s : state) (t : nat) : state :=
  {| computer := computer s; wait := wait s; server_status := server_status s;
     job_info := job_info s; reply := reply s; counter := counter s;
     flag := flag s; clock := t; trace := trace s |}.
Definition record (s : state) (e : event) : state :=
  {| computer := computer s; wait := wait s; server_status := server_status s;
     job_info := job_info s; reply := reply s; counter := counter s;
     flag := flag s; clock := clock s; trace := trace s ++ [e] |}.

(** Run a method of [Job], or a call of [os], on the machine of the worker. *)
Definition on_machine {A} (op : M machine A) : M state A :=
  fun s => let (m', r) := op (computer s) in (set_computer s m', r).

Definition emit (sig : signal) : M state unit :=
  modify (fun s => record s (Emit sig)).

(** [_get_jobs] *)
Definition _get_jobs : M machine (list string) :=
  let* d := gets jobs_dir in
  on_disk (os.listdir d).

(** An argument of [os.path.exists]: a path, or [True], which as an integer
    names file descriptor 1, the standard output. *)
Inductive path_or_True :=
| a_path (p : path)
| py_True.

Definition os_path_exists (m : machine) (x : path_or_True) : bool :=
  match x with
  | a_path p => os.exists_ (fs m) p
  | py_True => stdout_open m
  end.

Module Worker.
Section Worker.

Context (E : environment).

(** [_check_server_status(self.server)] *)
Definition _check_server_status : M state bool :=
  modify (fun s => record s Probe) ;;
  gets (fun s => probe E (clock s)).

(** The attribute [self.job_info] and its [id]. *)
Definition the_job : M state job := fun s =>
  match job_info s with
  | Some j => (s, Ok j)
  | None => (s, Raise TypeError)
  end.

Definition the_id (j : job) : M state string :=
  match id j with
  | Some i => ret i
  | None => raise TypeError
  end.

Definition _get_results (job_id : string) : M state unit :=
  modify (fun s => record s (Get job_id)) ;;
  modify (fun s => set_reply s (Some (service E (clock s) job_id))).

Definition _handle_get_response (r : network_reply) : M state unit :=
  match error r with
  | NoError =>
      let reply := readAll r in
      let* j := the_job in
      let j := set_status (set_output j (Some reply)) (reply_status reply) in
      modify (fun s => set_job_info s (Some j)) ;;
      on_machine (Job.save j (id j)) ;;
      (if String.eqb (status j) "completed"
       then except_Exception (on_machine (Job.export j))
       else ret tt) ;;
      emit server_up
  | ContentNotFoundError =>
      emit server_up ;;
      modify (fun s => record (set_wait s true) (SetWait true)) ;;
      let* j := the_job in
      let* i := the_id j in
      emit (id_signal i) ;;
      let* job_dn := gets (fun s => Job.job_dn (computer s) i) in
      except_Exception (
        on_machine (on_disk (erase_job_dir job_dn)) ;;
        let* jobs := on_machine _get_jobs in
        emit (available_jobs_signal jobs))
  | ConnectionRefusedError =>
      emit server_down
  | _ => ret tt
  end.

Definition _check_output_exists : M state bool :=
  let* j := the_job in
  let* base_dir := lift_result (Job.base_dir j) in
  let log := Job.log_fn base_dir in
  let report := Job.report_fn base_dir j in
  let cavity := Job.cavity_fn base_dir j in
  let parameters :=
    if negb (id_added_manually j) then a_path (Job.parameter_fn base_dir j) else py_True in
  let* log_exist := gets (fun s => os_path_exists (computer s) (a_path log)) in
  let* report_exist := gets (fun s => os_path_exists (computer s) (a_path report)) in
  let* cavity_exist := gets (fun s => os_path_exists (computer s) (a_path cavity)) in
  let* parameters_exist := gets (fun s => os_path_exists (computer s) parameters) in
  ret (log_exist && report_exist && cavity_exist && parameters_exist).

(** The slot [wait_status]. *)
Definition wait_status (status : bool) : M state unit :=
  modify (fun s => record (set_wait s status) (SetWait status)).

(** [QTimer.singleShot(ms, loop.quit); loop.exec()]: the event loop runs for
    [ms] msec.  The reply of a request sent before it arrives in that time
    and its [finished] signal runs [_handle_get_response]; a message box the
    user closes in that time sends [wait_status(False)]. *)
Definition event_loop (ms : nat) : M state unit :=
  let* r := gets reply in
  match r with
  | Some r =>
      modify (fun s => set_reply s None) ;;
      _handle_get_response r
  | None => ret tt
  end ;;
  let* t := gets clock in
  (if existsb (acknowledged E) (seq (S t) ms) then wait_status false else ret tt) ;;
  modify (fun s => record (set_clock s (clock s + ms)) (Sleep ms)).

(** [while self.wait: <wait time_wait_status>] *)
Fixpoint while_wait (fuel : nat) : M state unit :=
  match fuel with
  | 0 => raise OutOfFuel
  | S k =>
      let* w := gets wait in
      if w then event_loop time_wait_status ;; while_wait k else ret tt
  end.

(** [# Handle job status]: what is done for a job whose record has [status]. *)
Definition handle_status (job_id status : string) : M state unit :=
  if String.eqb status "queued" || String.eqb status "running" then
    _get_results job_id
  else if String.eqb status "completed" then
    let* output_exists := _check_output_exists in
    if negb output_exists then _get_results job_id
    else
      let* c := gets counter in
      (if Nat.eqb c times_job_completed_no_checked then
         modify (fun s => record s (Forced job_id)) ;;
         _get_results job_id ;;
         modify (fun s => set_counter s 0)
       else modify (fun s => record s (Skipped job_id))) ;;
      modify (fun s => set_flag s true)
  else ret tt.

(** The body of [for job_id in jobs]. *)
Definition check_job (jobs : list string) (job_id : string) : M state unit :=
  let* job_fn := gets (fun s => Job.job_fn (computer s) job_id) in
  let* j := on_machine (Job.load job_fn) in
  modify (fun s => set_job_info s (Some (set_id j (Some job_id)))) ;;
  handle_status job_id (status j) ;;
  if Nat.ltb 1 (List.length jobs) then event_loop time_between_jobs else ret tt.

(** The branch of [run] that checks the jobs: one pass over [jobs]. *)
Definition check_jobs (jobs : list string) : M state unit :=
  modify (fun s => set_flag s false) ;;
  for_each jobs (check_job jobs) ;;
  let* f := gets flag in
  (if f then modify (fun s => set_flag (set_counter s (counter s + 1)) false) else ret tt) ;;
  event_loop time_restart_job_checks.

(** [while not status: ...]: [status] is not assigned in the loop. *)
Fixpoint while_not_status (fuel : nat) (status : bool) : M state unit :=
  match fuel with
  | 0 => raise OutOfFuel
  | S k =>
      if negb status then
        emit (server_status_signal status) ;;
        event_loop time_server_down ;;
        while_not_status k status
      else ret tt
  end.

(** The branch of [run] that checks the service. *)
Definition check_service (fuel : nat) : M state unit :=
  let* status := _check_server_status in
  while_not_status fuel status ;;
  modify (fun s => set_server_status s status) ;;
  emit (server_status_signal status) ;;
  event_loop time_no_jobs.

(** One turn of [while True] in [run], after the wait for the user. *)
Definition discover (fuel : nat) : M state unit :=
  let* jobs := on_machine _get_jobs in
  emit (available_jobs_signal jobs) ;;
  let* up := gets server_status in
  if (match jobs with [] => false | _ => true end) && up
  then check_jobs jobs
  else check_service fuel.

Definition iteration (fuel : nat) : M state unit :=
  while_wait fuel ;;
  discover fuel.

(** [while True: ...; if dialog is None: self.terminate()] *)
Fixpoint while_True (fuel : nat) : M state unit :=
  match fuel with
  | 0 => raise OutOfFuel
  | S k =>
      iteration k ;;
      let* closed := gets (fun s => dialog_closed E (clock s)) in
      if closed then ret tt else while_True k
  end.

Definition run (fuel : nat) : M state unit :=
  modify (fun s => set_counter s 0) ;;
  while_True fuel.

End Worker.
End Worker.

(** The state in which the thread is started by [_start_worker_thread]. *)
Definition started (m : machine) (server_status : bool) : state :=
  {| computer := m; wait := false; server_status := server_status;
     job_info := None; reply := None; counter := 0; flag := false;
     clock := 0; trace := [] |}.

(** ** Reading the trace *)

Definition is_remote_call (e : event) : bool :=
  match e with Get _ => true | Probe => true | _ => false end.

(** The remote calls made while [self.wait] is set, [w] being its value
    before the first event. *)
Fixpoint calls_while_waiting (w : bool) (tr : list event) : nat :=
  match tr with
  | [] => 0
  | SetWait b :: tr' => calls_while_waiting b tr'
  | e :: tr' =>
      (if w && is_remote_call e then 1 else 0) + calls_while_waiting w tr'
  end.

Definition count_id_signal (job_id : string) (tr : list event) : nat :=
  List.length (filter (fun e => e = Emit (id_signal job_id)) tr).

Definition count_server_down (tr : list event) : nat :=
  List.length (filter (fun e => e = Emit server_down) tr).

(** The ids fetched, in the order of the requests. *)
Fixpoint fetched (tr : list event) : list string :=
  match tr with
  | [] => []
  | Get job_id :: tr' => job_id :: fetched tr'
  | _ :: tr' => fetched tr'
  end.

(** The ids fetched after the first [server_down]. *)
Fixpoint fetched_after_server_down (tr : list event) : list string :=
  match tr with
  | [] => []
  | Emit server_down :: tr' => fetched tr'
  | _ :: tr' => fetched_after_server_down tr'
  end.

Definition is_forced (e : event) : bool :=
  match e with Forced _ => true | _ => false end.
Definition is_skipped (e : event) : bool :=
  match e with Skipped _ => true | _ => false end.

(** From [s] to [s'] the locals [counter] and [flag] of [run] keep their
    values, and no completed job was decided on. *)
Definition quiet (s s' : state) : Prop :=
  counter s' = counter s /\ flag s' = flag s
  /\ exists new, trace s' = trace s ++ new
       /\ Forall (fun e => is_forced e = false /\ is_skipped e = false) new.

Definition keeps {A} (c : M state A) : Prop := forall s, quiet s (fst (c s)).

(** What holds during a pass over the jobs that started in [s0]: [flag] tells
    whether a completed job with its results on disk was met, and [counter]
    is back to zero exactly if one of them was fetched anyway, which takes a
    pass that started with the counter at the interval. *)
Definition pass_invariant (s0 s : state) : Prop :=
  exists new,
    trace s = trace s0 ++ new
    /\ flag s = existsb is_forced new || existsb is_skipped new
    /\ counter s = (if existsb is_forced new then 0 else counter s0)
    /\ (existsb is_forced new = true -> counter s0 = times_job_completed_no_checked).

Definition keeps_pass_invariant {A} (s0 : state) (c : M state A) : Prop :=
  forall s, pass_invariant s0 s -> pass_invariant s0 (fst (c s)).

(** ** A small machine for worked examples *)

(** The record of a manually added job, as [save] writes it. *)
Definition example_record (status : string) : list token :=
  [Comment "TOML configuration file for KVFinder-web job"; Blank;
   KeyVal "title" (VStr "KVFinder-web job file"); Blank;
   KeyVal "status" (VStr status); Blank;
   KeyVal "id_added_manually" (VBool true); Blank;
   Table "files";
   KeyVal "output" (VPath ["out"]);
   KeyVal "base_name" (VStr "output");
   Blank;
   Dumped [("modes", VNone); ("step_size", VNone); ("probes", VNone);
           ("cutoffs", VNone); ("visiblebox", VNone); ("internalbox", VNone)];
   Blank].

Definition example_jobs (status : string) : gmap string node :=
  {[ "A" := Dir {[ "job.toml" := File (example_record status) ]};
     "B" := Dir {[ "job.toml" := File (example_record status) ]} ]}.

Definition example_home (status : string) : gmap string node :=
  {[ ".KVFinder-web" := Dir (example_jobs status) ]}.

Definition example_root (status : string) : gmap string node :=
  {[ "home" := Dir (example_home status); "out" := Dir ∅ ]}.

Definition example_machine (status : string) : machine :=
  {| fs := Dir (example_root status); home := ["home"]; stdout_open := true;
     objects := ∅ |}.

(** The job read from such a record, as the worker holds it for id [A]. *)
Definition example_job (status : string) : job :=
  {| status := status; pdb := None; ligand := None;
     output_directory := ["out"]; base_name := "output";
     id_added_manually := true; id := Some "A";
     input_pdb := None; input_pdb_ligand := None;
     settings := [("modes", VNone); ("step_size", VNone); ("probes", VNone);
                  ("cutoffs", VNone); ("visiblebox", VNone); ("internalbox", VNone)];
     output := None |}.

(** ** Notions used in the proofs *)

(** The machine [m0] with the directory at [bd] holding the entries [mb]. *)
Definition in_dir (m0 : machine) (bd : path) (mb : gmap string node) : machine :=
  set_fs m0 (put (fs m0) bd (Dir mb)).

(** [c] changes at most the entries [names] of the directory at [bd]; run
    again where these entries are as it left them, it changes nothing and
    ends the same way. *)
Definition settles {A} (m0 : machine) (bd : path) (names : list string)
    (c : M machine A) : Prop :=
  forall mb, exists mb' r,
    c (in_dir m0 bd mb) = (in_dir m0 bd mb', r)
    /\ (forall n, n ∉ names -> mb' !! n = mb !! n)
    /\ (forall mb2, (forall n, n ∈ names -> mb2 !! n = mb' !! n) ->
          c (in_dir m0 bd mb2) = (in_dir m0 bd mb2, r)).

(** A service that knows no job, one that refuses every connection, and one
    where every job is completed; the user closes no message box. *)
Definition example_not_found : environment :=
  {| service := fun _ _ =>
       {| error := ContentNotFoundError;
          readAll := {| reply_status := ""; reply_output := None |} |};
     probe := fun _ => true;
     acknowledged := fun _ => false;
     dialog_closed := fun _ => false |}.

Definition example_refused : environment :=
  {| service := fun _ _ =>
       {| error := ConnectionRefusedError;
          readAll := {| reply_status := ""; reply_output := None |} |};
     probe := fun _ => true;
     acknowledged := fun _ => false;
     dialog_closed := fun _ => false |}.

(** A reply of the service for a completed job. *)
Definition example_results : results :=
  {| pdb_kv := "ATOM";
     report := [Table "FILES_PATH"; Table "PARAMETERS"; Table "RESULTS"];
     log := "Running parKVFinder for: job" +:+ newline +:+ "done" |}.

Definition example_completed : reply_json :=
  {| reply_status := "completed"; reply_output := Some example_results |}.

Definition example_done : environment :=
  {| service := fun _ _ => {| error := NoError; readAll := example_completed |};
     probe := fun _ => true;
     acknowledged := fun _ => false;
     dialog_closed := fun _ => false |}.


(** A user who closes the message box 3 seconds after the start. *)
Definition example_acknowledging : environment :=
  {| service := fun _ _ =>
       {| error := ContentNotFoundError;
          readAll := {| reply_status := ""; reply_output := None |} |};
     probe := fun _ => true;
     acknowledged := fun t => Nat.eqb t 3000;
     dialog_closed := fun _ => false |}.

(** ** A submission from the detection form, worked out *)

(** What [create_parameters] builds for the object [name] of PyMOL, with the
    output directory [out] and the default base name. *)
Definition form_parameters (name : string) : dict :=
  [("title", VStr "KVFinder-web job file");
   ("status", VStr "submitting");
   ("files", VTable [("pdb", VStr name);
                     ("output", VPath ["out"]);
                     ("base_name", VStr "output")]);
   ("modes", VTable [("whole_protein_mode", VBool true); ("box_mode", VBool false);
                     ("resolution_mode", VStr "Low"); ("surface_mode", VBool true);
                     ("kvp_mode", VBool false); ("ligand_mode", VBool false)]);
   ("step_size", VTable [("step_size", VNum "0.0")]);
   ("probes", VTable [("probe_in", VNum "1.4"); ("probe_out", VNum "4.0")]);
   ("cutoffs", VTable [("volume_cutoff", VNum "5.0"); ("ligand_cutoff", VNum "5.0");
                       ("removal_distance", VNum "2.4")]);
   ("visiblebox", VTable [("p1", VTable [("x", VNum "0.0"); ("y", VNum "0.0"); ("z", VNum "0.0")])]);
   ("internalbox", VTable [("p1", VTable [("x", VNum "4.0"); ("y", VNum "4.0"); ("z", VNum "4.0")])])].

(** A session in which the files [x.pdb] and [a.pdb] of the directory [out]
    were loaded as the objects [x] and [a.pdb]. *)
Definition form_machine : machine :=
  {| fs := Dir {[ "home" := Dir {[ ".KVFinder-web" := Dir ∅ ]};
                  "out" := Dir {[ "x.pdb" := File [Text "ATOM x"];
                                  "a.pdb" := File [Text "ATOM a"] ]} ]};
     home := ["home"];
     stdout_open := true;
     objects := {[ "x" := "ATOM x"; "a.pdb" := "ATOM a" ]} |}.

(** The record file after the job for [name] was created, queued and saved
    under [id], and the record file after that file was loaded and the job
    saved again. *)
Definition save_load_save (name id : string) (m : machine)
    : result (option node * option node) :=
  match Job.__init__ (form_parameters name) m with
  | (m1, Ok j) =>
      match Job.save (set_status j "queued") (Some id) m1 with
      | (m2, Ok _) =>
          match Job.load (Job.job_fn m2 id) m2 with
          | (m3, Ok j') =>
              match Job.save j' (Some id) m3 with
              | (m4, Ok _) =>
                  Ok (lookup_path (fs m2) (Job.job_fn m2 id),
                      lookup_path (fs m4) (Job.job_fn m4 id))
              | (_, Raise e) => Raise e
              end
          | (_, Raise e) => Raise e
          end
      | (_, Raise e) => Raise e
      end
  | (_, Raise e) => Raise e
  end.

(** ** The records that [upload] builds *)

(** The structure file [fn] of a record is the file of a name without [.pdb]
    in the output directory [od], and it is on the disk. *)
Definition structure_ok (fs : node) (od : path) (fn : option path) : Prop :=
  match fn with
  | None => True
  | Some p =>
      exists n c, p = od ++ [n +:+ ".pdb"] /\ contains ".pdb" n = false
                  /\ lookup_path fs p = Some (File c)
  end.

(** The settings of a record are the six entries [upload] makes: all [None]
    for a manually added job, all tables without [None] inside for another. *)
Definition settings_ok (manual : bool) (settings : dict) : Prop :=
  exists v1 v2 v3 v4 v5 v6,
    settings = [("modes", v1); ("step_size", v2); ("probes", v3);
                ("cutoffs", v4); ("visiblebox", v5); ("internalbox", v6)]
    /\ Forall (fun v => if manual then v = VNone
                        else is_table v = true /\ prune v = v)
         [v1; v2; v3; v4; v5; v6].

(** ** More machines for worked examples *)

(** A session in which the file [x.pdb] of the directory [out] was written
    before the object [x] was changed in PyMOL. *)
Definition stale_machine : machine :=
  {| fs := Dir {[ "home" := Dir {[ ".KVFinder-web" := Dir ∅ ]};
                  "out" := Dir {[ "x.pdb" := File [Text "ATOM old"] ]} ]};
     home := ["home"];
     stdout_open := true;
     objects := {[ "x" := "ATOM new" ]} |}.

(** A session with the object [x] and an empty output directory, and one
    with the same directory and no object. *)
Definition fresh_machine : machine :=
  {| fs := Dir {[ "home" := Dir {[ ".KVFinder-web" := Dir ∅ ]}; "out" := Dir ∅ ]};
     home := ["home"];
     stdout_open := true;
     objects := {[ "x" := "ATOM x" ]} |}.

Definition empty_machine : machine :=
  {| fs := Dir {[ "home" := Dir {[ ".KVFinder-web" := Dir ∅ ]}; "out" := Dir ∅ ]};
     home := ["home"];
     stdout_open := true;
     objects := ∅ |}.

(** ** The records that [toml.load] gives back as [save] wrote them

    [save] writes the status, the paths and the base name of a job between
    double quotes, as they are.  [toml.load] gives such a string back
    unchanged when it is plain: made of printable ASCII characters, without
    the double quote, which would end the string, and without the backslash,
    which starts an escape.  A name of a file or of a directory is moreover
    not empty and holds no slash, so that it is one component of a path. *)

Definition plain_char (c : ascii) : bool :=
  let n := nat_of_ascii c in
  Nat.leb 32 n && Nat.leb n 126 && negb (Nat.eqb n 34) && negb (Nat.eqb n 92).

Fixpoint plain_text (s : string) : bool :=
  match s with
  | EmptyString => true
  | String c s' => plain_char c && plain_text s'
  end.

Definition plain_name (s : string) : bool :=
  plain_text s && negb (contains "/" s) && negb (String.eqb s "").

Definition plain_path (p : path) : bool := forallb plain_name p.

Definition plain_record (j : job) : bool :=
  plain_text (status j)
  && plain_path (output_directory j)
  && plain_text (base_name j) && negb (contains "/" (base_name j))
  && match pdb j with Some p => plain_path p | None => true end
  && match ligand j with Some p => plain_path p | None => true end.

(** ** More notions used in the proofs *)

(** [c] works on the disk only: the home directory, the standard output and
    the objects of PyMOL are as before. *)
Definition disk_only {A} (c : M machine A) : Prop :=
  forall m, home (fst (c m)) = home m
            /\ stdout_open (fst (c m)) = stdout_open m
            /\ objects (fst (c m)) = objects m.

(** [c] leaves every file as it is, but for those at the paths [ps]. *)
Definition keeps_files_but {A} (ps : list path) (c : M machine A) : Prop :=
  forall m (q : path) t,
    lookup_path (fs m) q = Some (File t) -> q ∉ ps ->
    lookup_path (fs (fst (c m))) q = Some (File t).

(** From [s] to [s'] the worker has kept what [f] reads of its state, and
    what it was seen doing in between are events of the kind [Q]. *)
Definition along {B} (f : state -> B) (Q : event -> Prop) (s s' : state) : Prop :=
  f s' = f s /\ exists new, trace s' = trace s ++ new /\ Forall Q new.

Definition goes_along {A B} (f : state -> B) (Q : event -> Prop) (c : M state A) : Prop :=
  forall s, along f Q s (fst (c s)).

(** [f] reads neither the machine, [self.wait], [self.job_info], [self.reply],
    the locals of [run] nor the trace. *)
Definition ignores_the_rest {B} (f : state -> B) : Prop :=
  (forall s m, f (set_computer s m) = f s)
  /\ (forall s b, f (set_wait s b) = f s)
  /\ (forall s j, f (set_job_info s j) = f s)
  /\ (forall s r, f (set_reply s r) = f s)
  /\ (forall s n, f (set_counter s n) = f s)
  /\ (forall s b, f (set_flag s b) = f s)
  /\ (forall s e, f (record s e) = f s).

(** The events that are neither a request nor a wait. *)
Definition is_notice (e : event) : Prop :=
  match e with Get _ | Probe | Sleep _ => False | _ => True end.

(** The time and the flag [self.server_status]. *)
Definition clock_and_status (s : state) : nat * bool := (clock s, server_status s).

Definition count_probes (tr : list event) : nat :=
  List.length (filter (fun e => e = Probe) tr).

(** [c] ends with a value or an exception of the program, not with the mark
    of a loop of the model cut short. *)
Definition ends {S A} (c : M S A) : Prop := forall s, snd (c s) <> Raise OutOfFuel.

Definition ended {A} (r : result A) : Prop := r <> Raise OutOfFuel.

(** A machine where the directory of the job [B] holds no record file. *)
Definition broken_machine : machine :=
  {| fs := Dir {[ "home" := Dir {[ ".KVFinder-web" :=
                    Dir {[ "A" := Dir {[ "job.toml" := File (example_record "queued") ]};
                           "B" := Dir ∅ ]} ]};
                  "out" := Dir ∅ ]};
     home := ["home"]; stdout_open := true; objects := ∅ |}.

(** ** The form [Add ID] *)

(** The text of a line edit that holds a path: [None] is the empty text. *)
Definition text_value (t : option path) : toml_value :=
  match t with Some p => VPath p | None => VStr "" end.

Module Form.

Record form := {
  job_id : string;
  base_name : string;
  output_dir : option path;
  input_file : option path;
  ligand_file : option path
}.

(** [add_job_id]: whether the form is accepted; when it is not, a message
    box asks for the required fields and the form stays open. *)
Definition add_job_id (self : form) (m : machine) : bool :=
  negb (String.eqb (job_id self) "")
  && match output_dir self with Some d => os.isdir (fs m) d | None => false end
  && negb (String.eqb (base_name self) "").

Definition get_data (self : form) : dict :=
  [("id", VStr (job_id self));
   ("files", VTable [("base_name", VStr (base_name self));
                     ("output", text_value (output_dir self));
                     ("pdb", path_value (input_file self));
                     ("ligand", path_value (ligand_file self))])].

End Form.

(** ** The main window: adding a job by its id *)

Definition set_id_added_manually (j : job) (b : bool) : job :=
  {| status := status j; pdb := pdb j; ligand := ligand j;
     output_directory := output_directory j; base_name := base_name j;
     id_added_manually := b; id := id j;
     input_pdb := input_pdb j; input_pdb_ligand := input_pdb_ligand j;
     settings := settings j; output := output j |}.

(** The dialogs the window opens: [Message(msg, job_id, status)] and
    [QMessageBox.critical(self, title, text)]. *)
Inductive dialog_box :=
| Message (msg : string) (job_id : option string) (status : option string)
| Critical (title text : string).

Module PyMOLKVFinderWebTools.

Record window := {
  desktop : machine;
  (** [self.data] *)
  data : option dict;
  (** the items of the combo box [self.available_jobs] and its current text *)
  available_jobs : list string;
  currentText : string;
  (** the text of [self.vis_results_file_entry], [None] when it is empty *)
  vis_results_file_entry : option path;
  (** the current index of [self.results_tabs] *)
  results_tabs : nat;
  (** the dialogs shown, oldest first *)
  shown : list dialog_box;
  (** the ids requested from the service, oldest first *)
  requested : list string
}.

Definition set_desktop (w : window) (m : machine) : window :=
  {| desktop := m; data := data w; available_jobs := available_jobs w;
     currentText := currentText w; vis_results_file_entry := vis_results_file_entry w;
     results_tabs := results_tabs w; shown := shown w; requested := requested w |}.
Definition set_data (w : window) (d : option dict) : window :=
  {| desktop := desktop w; data := d; available_jobs := available_jobs w;
     currentText := currentText w; vis_results_file_entry := vis_results_file_entry w;
     results_tabs := results_tabs w; shown := shown w; requested := requested w |}.
Definition addItem (w : window) (item : string) : window :=
  {| desktop := desktop w; data := data w;
     available_jobs := available_jobs w ++ [item];
     currentText := currentText w; vis_results_file_entry := vis_results_file_entry w;
     results_tabs := results_tabs w; shown := shown w; requested := requested w |}.
Definition setText (w : window) (t : option path) : window :=
  {| desktop := desktop w; data := data w; available_jobs := available_jobs w;
     currentText := currentText w; vis_results_file_entry := t;
     results_tabs := results_tabs w; shown := shown w; requested := requested w |}.
Definition setCurrentIndex (w : window) (i : nat) : window :=
  {| desktop := desktop w; data := data w; available_jobs := available_jobs w;
     currentText := currentText w; vis_results_file_entry := vis_results_file_entry w;
     results_tabs := i; shown := shown w; requested := requested w |}.
Definition exec (w : window) (d : dialog_box) : window :=
  {| desktop := desktop w; data := data w; available_jobs := available_jobs w;
     currentText := currentText w; vis_results_file_entry := vis_results_file_entry w;
     results_tabs := results_tabs w; shown := shown w ++ [d]; requested := requested w |}.
Definition get (w : window) (job_id : string) : window :=
  {| desktop := desktop w; data := data w; available_jobs := available_jobs w;
     currentText := currentText w; vis_results_file_entry := vis_results_file_entry w;
     results_tabs := results_tabs w; shown := shown w;
     requested := requested w ++ [job_id] |}.

Definition on_desktop {A} (op : M machine A) : M window A :=
  fun w => let (m', r) := op (desktop w) in (set_desktop w m', r).

(** [self.data], which is [None] when no form is being handled. *)
Definition the_data : M window dict := fun w =>
  match data w with
  | Some d => (w, Ok d)
  | None => (w, Raise TypeError)
  end.

(** [_check_job_id]: the request for the id of the form, which is a text;
    its reply comes later, to [_handle_get_response]. *)
Definition _check_job_id (data : dict) : M window unit :=
  except_Exception (
    let* job_id := lift_result (let? v := getitem data "id" in as_str v) in
    modify (fun w => get w job_id)).

(** [add_id], for a user who presses OK on the form filled as [form] and
    closes it when it is not accepted. *)
Definition add_id (form : Form.form) : M window unit :=
  let* reply := gets (fun w => Form.add_job_id form (desktop w)) in
  if reply then
    modify (fun w => set_data w (Some (Form.get_data form))) ;;
    let* data := the_data in
    _check_job_id data
  else ret tt.

(** [if files[key] is not None:
       files[key] = os.path.basename(files[key]).replace(".pdb", "")] *)
Definition structure_name (files : dict) (key : string) : result dict :=
  let? v := getitem files key in
  if is_none v then Ok files
  else
    let? p := as_path v in
    Ok (dict_set files key (VStr (str_replace ".pdb" "" (basename p)))).

(** [_handle_get_response]: the reply to the request of [_check_job_id].
    The dictionary [parameters["files"]] is the dictionary [self.data["files"]]
    itself, so the names set in the one are set in the other. *)
Definition _handle_get_response (r : network_reply) : M window unit :=
  match error r with
  | NoError =>
      let reply := readAll r in
      let* data := the_data in
      let* files := lift_result (let? v := getitem data "files" in as_table v) in
      let* files := lift_result (structure_name files "pdb") in
      modify (fun w => set_data w (Some (dict_set data "files" (VTable files)))) ;;
      let* files := lift_result (structure_name files "ligand") in
      modify (fun w => set_data w (Some (dict_set data "files" (VTable files)))) ;;
      let parameters :=
        [("status", VStr (reply_status reply));
         ("id_added_manually", VBool true);
         ("files", VTable files);
         ("modes", VNone); ("step_size", VNone); ("probes", VNone);
         ("cutoffs", VNone); ("visiblebox", VNone); ("internalbox", VNone)] in
      (* Create job file *)
      let* job := on_desktop (Job.__init__ parameters) in
      let* job_id := lift_result (let? v := getitem data "id" in as_str v) in
      let job :=
        set_output
          (set_status (set_id_added_manually (set_id job (Some job_id)) true)
             (reply_status reply))
          (Some reply) in
      (* Save job *)
      on_desktop (Job.save job (id job)) ;;
      modify (fun w => exec w (Message "Job successfully added!" (id job)
                                 (Some (status job)))) ;;
      (* Include job to available jobs *)
      modify (fun w => addItem w job_id) ;;
      (* Export *)
      if String.eqb (status job) "completed"
      then except_Exception (on_desktop (Job.export job))
      else ret tt
  | ContentNotFoundError =>
      let* data := the_data in
      let* job_id := lift_result (let? v := getitem data "id" in as_str v) in
      modify (fun w => exec w (Critical "Job Submission"
        ("Job ID (" +:+ job_id +:+ ") was not found in KVFinder-web service!")))
  | ConnectionRefusedError =>
      modify (fun w => exec w (Critical "Job Submission"
        ("KVFinder-web service is Offline!" +:+ newline +:+ newline
         +:+ "Try again later!")))
  | _ => ret tt
  end ;;
  (* Clean data *)
  modify (fun w => set_data w None).

Section show_id.

(** [load_results], which reads [self.vis_results_file_entry] and fills the
    visualization tab. *)
Context (load_results : M window unit).

Definition show_id : M window unit :=
  let* job_id := gets currentText in
  let* job_fn := gets (fun w => Job.job_fn (desktop w) job_id) in
  let* text := on_desktop (on_disk (os.read job_fn)) in
  let* job_info := lift_result (toml.load text) in
  let* files := lift_result (let? v := getitem job_info "files" in as_table v) in
  let* output := lift_result (let? v := getitem files "output" in as_path v) in
  let* base_name := lift_result (let? v := getitem files "base_name" in as_str v) in
  let results_file := output ++ [job_id; base_name +:+ ".KVFinder.results.toml"] in
  modify (fun w => setText w (Some results_file)) ;;
  modify (fun w => setCurrentIndex w 1) ;;
  load_results.

End show_id.

End PyMOLKVFinderWebTools.

(** The window with the jobs [jobs] listed, none selected, and nothing to
    handle. *)
Definition opened (m : machine) (jobs : list string) : PyMOLKVFinderWebTools.window :=
  {| PyMOLKVFinderWebTools.desktop := m;
     PyMOLKVFinderWebTools.data := None;
     PyMOLKVFinderWebTools.available_jobs := jobs;
     PyMOLKVFinderWebTools.currentText := "";
     PyMOLKVFinderWebTools.vis_results_file_entry := None;
     PyMOLKVFinderWebTools.results_tabs := 0;
     PyMOLKVFinderWebTools.shown := [];
     PyMOLKVFinderWebTools.requested := [] |}.

(** The window with the jobs [jobs] listed and the job [current] selected. *)
Definition selected (m : machine) (jobs : list string) (current : string)
  : PyMOLKVFinderWebTools.window :=
  {| PyMOLKVFinderWebTools.desktop := m;
     PyMOLKVFinderWebTools.data := None;
     PyMOLKVFinderWebTools.available_jobs := jobs;
     PyMOLKVFinderWebTools.currentText := current;
     PyMOLKVFinderWebTools.vis_results_file_entry := None;
     PyMOLKVFinderWebTools.results_tabs := 0;
     PyMOLKVFinderWebTools.shown := [];
     PyMOLKVFinderWebTools.requested := [] |}.

(** A machine where the structure [x.pdb] is in the directory [data], not in
    the output directory [out], and is no object of PyMOL; and the form that
    names it for the job [J]. *)
Definition elsewhere_machine : machine :=
  {| fs := Dir {[ "home" := Dir {[ ".KVFinder-web" := Dir ∅ ]};
                  "data" := Dir {[ "x.pdb" := File [Text "ATOM x"] ]};
                  "out" := Dir ∅ ]};
     home := ["home"]; stdout_open := true; objects := ∅ |}.

Definition elsewhere_form : Form.form :=
  {| Form.job_id := "J"; Form.base_name := "output";
     Form.output_dir := Some ["out"];
     Form.input_file := Some ["data"; "x.pdb"];
     Form.ligand_file := None |}.

(** The form for the job [J] with no structure. *)
Definition plain_form : Form.form :=
  {| Form.job_id := "J"; Form.base_name := "output";
     Form.output_dir := Some ["out"];
     Form.input_file := None;
     Form.ligand_file := None |}.

(** The window after [add_id] with each of these forms, and the reply of the
    service for a job that is completed. *)
Definition plain_request : PyMOLKVFinderWebTools.window :=
  fst (PyMOLKVFinderWebTools.add_id plain_form (opened elsewhere_machine [])).

Definition elsewhere_request : PyMOLKVFinderWebTools.window :=
  fst (PyMOLKVFinderWebTools.add_id elsewhere_form (opened elsewhere_machine [])).

Definition completed_reply : network_reply :=
  {| error := NoError; readAll := example_completed |}.

(** The job that the detection form submits for the object [x], once it is
    queued. *)
Definition queued_job : job :=
  Eval vm_compute in
    match Job.__init__ (form_parameters "x") form_machine with
    | (_, Ok j) => set_status j "queued"
    | (_, Raise _) => example_job "queued"
    end.

(** The completed jobs fetched although their results are on disk. *)
Definition count_forced (tr : list event) : nat :=
  List.length (filter (fun e => is_forced e = true) tr).

(** During a pass that started in [s0]: at most one completed job was
    fetched although its results are on disk, and since then the counter is
    zero. *)
Definition one_forced (s0 s : state) : Prop :=
  exists new,
    trace s = trace s0 ++ new
    /\ (count_forced new = 0 \/ count_forced new = 1 /\ counter s = 0).

Definition keeps_one_forced {A} (s0 : state) (c : M state A) : Prop :=
  forall s, one_forced s0 s -> one_forced s0 (fst (c s)).

(** The machine on which the jobs [A] and [B] are completed and exported. *)
Definition exported_machine : machine :=
  fst (Job.export (set_id (set_output (example_job "completed") (Some example_completed))
                     (Some "B"))
         (fst (Job.export (set_output (example_job "completed") (Some example_completed))
                 (example_machine "completed")))).

(** * Properties *)

(** ** The monad *)

Lemma bind_ok {S A B} (m : M S A) (k : A -> M S B) s s' a :
  m s = (s', Ok a) -> bind m k s = k a s'.
Proof. intros H. unfold bind. by rewrite H. Qed.

Lemma bind_raise {S A B} (m : M S A) (k : A -> M S B) s s' e :
  m s = (s', Raise e) -> bind m k s = (s', Raise e).
Proof. intros H. unfold bind. by rewrite H. Qed.

(** ** Paths and the tree *)

Lemma split_last_snoc (d : path) (x : string) : split_last (d ++ [x]) = Some (d, x).
Proof.
  induction d as [|y d IH]; simpl; [done|]. by rewrite IH.
Qed.

Lemma lookup_path_app fs (p q : path) :
  lookup_path fs (p ++ q) =
  match lookup_path fs p with Some n => lookup_path n q | None => None end.
Proof.
  revert fs. induction p as [|x p IH]; intros fs; simpl; [done|].
  destruct fs as [c|m]; [done|]. destruct (m !! x); [apply IH|done].
Qed.

Lemma lookup_path_snoc fs (d : path) (x : string) (m : gmap string node) :
  lookup_path fs d = Some (Dir m) -> lookup_path fs (d ++ [x]) = m !! x.
Proof.
  intros H. rewrite lookup_path_app, H. simpl. by destruct (m !! x).
Qed.

Lemma lookup_put fs (p : path) n :
  is_Some (lookup_path fs p) -> lookup_path (put fs p n) p = Some n.
Proof.
  revert fs. induction p as [|x p IH]; intros fs [n0 H]; simpl in *; [done|].
  destruct fs as [c|m]; [done|]. destruct (m !! x) as [c|] eqn:Hx; [|done].
  simpl. rewrite lookup_insert_eq. apply IH. eauto.
Qed.

Lemma put_put fs (p : path) a b : put (put fs p a) p b = put fs p b.
Proof.
  revert fs. induction p as [|x p IH]; intros fs; simpl; [done|].
  destruct fs as [c|m]; [done|]. destruct (m !! x) as [c|] eqn:Hx; simpl.
  - rewrite lookup_insert_eq, insert_insert_eq. by rewrite IH.
  - by rewrite Hx.
Qed.

Lemma put_same fs (p : path) n : lookup_path fs p = Some n -> put fs p n = fs.
Proof.
  revert fs. induction p as [|x p IH]; intros fs H; simpl in *; [congruence|].
  destruct fs as [c|m]; [done|]. destruct (m !! x) as [c|] eqn:Hx; [|done].
  rewrite (IH _ H). by rewrite insert_id.
Qed.

Lemma put_snoc fs (d : path) (x : string) (m : gmap string node) n :
  lookup_path fs d = Some (Dir m) -> is_Some (m !! x) ->
  put fs (d ++ [x]) n = put fs d (Dir (<[x := n]> m)).
Proof.
  revert fs. induction d as [|y d IH]; intros fs H [c Hc]; simpl in *.
  - injection H as ->. by rewrite Hc.
  - destruct fs as [c0|m0]; [done|]. destruct (m0 !! y) as [c1|] eqn:Hy; [|done].
    by rewrite (IH _ H) by eauto.
Qed.

(** A path that is not below [p] sees nothing of a change at [p]. *)
Lemma lookup_put_other fs (d : path) (x y : string) (q : path) n :
  x <> y -> lookup_path (put fs (d ++ [x]) n) (d ++ y :: q) = lookup_path fs (d ++ y :: q).
Proof.
  revert fs. induction d as [|z d IH]; intros fs Hne; simpl.
  - destruct fs as [c|m]; [done|]. destruct (m !! x) as [c|] eqn:Hx; [|done].
    simpl. by rewrite lookup_insert_ne.
  - destruct fs as [c|m]; [done|]. destruct (m !! z) as [c|] eqn:Hz; simpl.
    + rewrite lookup_insert_eq. by apply IH.
    + by rewrite Hz.
Qed.

Lemma lookup_put_dir fs (d : path) (m m' : gmap string node) (y : string) (q : path) :
  lookup_path fs d = Some (Dir m) ->
  lookup_path (put fs d (Dir m')) (d ++ y :: q) =
  match m' !! y with Some c => lookup_path c q | None => None end.
Proof.
  intros H. rewrite lookup_path_app, lookup_put by eauto. done.
Qed.

Lemma height_child (m : gmap string node) (x : string) c :
  m !! x = Some c -> height c < height (Dir m).
Proof.
  simpl. revert x c.
  induction m as [|k v m Hk IH] using map_ind; intros x c H.
  - by rewrite lookup_empty in H.
  - rewrite map_fold_insert_L; [|intros; lia|done].
    destruct (decide (k = x)) as [->|Hne].
    + rewrite lookup_insert_eq in H. injection H as ->. lia.
    + rewrite lookup_insert_ne in H by done. specialize (IH _ _ H). lia.
Qed.

Lemma height_lookup fs (p : path) n :
  lookup_path fs p = Some n -> height n <= height fs.
Proof.
  revert fs. induction p as [|x p IH]; intros fs H; simpl in *.
  - injection H as ->. lia.
  - destruct fs as [c|m]; [done|]. destruct (m !! x) as [c|] eqn:Hx; [|done].
    specialize (IH _ H). pose proof (height_child _ _ _ Hx). lia.
Qed.

(** ** The calls of [os] on a directory that is there *)

Lemma parent_snoc fs (d : path) (x : string) (m : gmap string node) :
  lookup_path fs d = Some (Dir m) -> os.parent fs (d ++ [x]) = Ok (d, x, m).
Proof. intros H. unfold os.parent. by rewrite split_last_snoc, H. Qed.

Lemma remove_file fs (d : path) (x : string) (m : gmap string node) c :
  lookup_path fs d = Some (Dir m) -> m !! x = Some (File c) ->
  os.remove (d ++ [x]) fs = (put fs d (Dir (delete x m)), Ok tt).
Proof. intros H Hx. unfold os.remove. by rewrite (parent_snoc _ _ _ _ H), Hx. Qed.

Lemma rmdir_empty fs (d : path) (x : string) (m : gmap string node) :
  lookup_path fs d = Some (Dir m) -> m !! x = Some (Dir ∅) ->
  os.rmdir (d ++ [x]) fs = (put fs d (Dir (delete x m)), Ok tt).
Proof.
  intros H Hx. unfold os.rmdir. rewrite (parent_snoc _ _ _ _ H), Hx.
  by rewrite map_to_list_empty.
Qed.

Lemma with_open_w_dir fs (d : path) (x : string) (m : gmap string node) toks r :
  lookup_path fs d = Some (Dir m) ->
  os.with_open_w (d ++ [x]) (toks, r) fs =
  match m !! x with
  | Some (Dir _) => (fs, Raise IsADirectoryError)
  | _ => (put fs d (Dir (<[x := File toks]> m)), r)
  end.
Proof.
  intros H. unfold os.with_open_w, os.open_w, os.close_w, bind, modify, lift_result.
  rewrite (parent_snoc _ _ _ _ H).
  assert (Hw : put (put fs d (Dir (<[x:=File []]> m))) (d ++ [x]) (File toks)
               = put fs d (Dir (<[x := File toks]> m))).
  { rewrite (put_snoc _ d x (<[x:=File []]> m)).
    - by rewrite put_put, insert_insert_eq.
    - apply lookup_put. eauto.
    - rewrite lookup_insert_eq. eauto. }
  destruct (m !! x) as [[c|m']|]; simpl; by rewrite ?Hw.
Qed.

Lemma with_open_w_no_dir fs (d : path) (x : string) toks r n :
  lookup_path fs d = n -> (forall m, n <> Some (Dir m)) ->
  exists e, os.with_open_w (d ++ [x]) (toks, r) fs = (fs, Raise e).
Proof.
  intros H Hn. unfold os.with_open_w, os.open_w, bind, os.parent.
  rewrite split_last_snoc, H.
  destruct n as [[c|m]|]; [eauto| |eauto]. by destruct (Hn m).
Qed.

(** ** [erase_job_dir] removes a directory and all below it *)

Lemma erase_entries (k : nat) fs (dx : path)
    (IHk : forall fs (d : path) (x : string) (m mx : gmap string node),
        lookup_path fs d = Some (Dir m) -> m !! x = Some (Dir mx) ->
        height (Dir mx) <= k ->
        erase_job_dir_rec k (d ++ [x]) fs = (put fs d (Dir (delete x m)), Ok tt)) :
  is_Some (lookup_path fs dx) ->
  forall (l : list string) (mc : gmap string node),
    NoDup l ->
    (forall y, y ∈ l -> exists c, mc !! y = Some c /\ height c <= k) ->
    exists m',
      for_each l (fun f =>
          let f := dx ++ [f] in
          let* is_dir := gets (fun fs => os.isdir fs f) in
          if is_dir then erase_job_dir_rec k f else os.remove f)
        (put fs dx (Dir mc)) = (put fs dx (Dir m'), Ok tt)
      /\ forall z, m' !! z = if decide (z ∈ l) then None else mc !! z.
Proof.
  intros Hdx l. induction l as [|y l IH]; intros mc Hnd Hl.
  - exists mc. split; [done|]. intros z. case_decide as Hz; [|done].
    by apply elem_of_nil in Hz.
  - apply NoDup_cons in Hnd as [Hy Hnd].
    destruct (Hl y) as (c & Hc & Hh); [by left|].
    assert (Hcur : lookup_path (put fs dx (Dir mc)) dx = Some (Dir mc))
      by by apply lookup_put.
    assert (Hstep :
      (let* is_dir := gets (fun fs => os.isdir fs (dx ++ [y])) in
       if is_dir then erase_job_dir_rec k (dx ++ [y]) else os.remove (dx ++ [y]))
        (put fs dx (Dir mc)) = (put fs dx (Dir (delete y mc)), Ok tt)).
    { unfold bind, gets, os.isdir. rewrite (lookup_path_snoc _ _ _ _ Hcur), Hc.
      destruct c as [t|my].
      - rewrite (remove_file _ _ _ _ _ Hcur Hc). by rewrite put_put.
      - rewrite (IHk _ _ _ _ _ Hcur Hc Hh). by rewrite put_put. }
    destruct (IH (delete y mc) Hnd) as (m' & Hrun & Hm').
    { intros y' Hy'. destruct (Hl y') as (c' & Hc' & Hh'); [by right|].
      exists c'. split; [|done]. rewrite lookup_delete_ne; [done|].
      intros ->. done. }
    exists m'. split.
    + simpl. unfold bind at 1. simpl in Hstep. rewrite Hstep. apply Hrun.
    + intros z. rewrite Hm'. destruct (decide (z = y)) as [->|Hne].
      * rewrite lookup_delete_eq. rewrite (decide_True (P := y ∈ y :: l)) by (by left).
        by destruct (decide (y ∈ l)).
      * rewrite lookup_delete_ne by done. destruct (decide (z ∈ l)) as [Hz|Hz].
        -- by rewrite (decide_True (P := z ∈ y :: l)) by (by right).
        -- rewrite (decide_False (P := z ∈ y :: l)); [done|].
           by intros [?|?]%elem_of_cons.
Qed.

Lemma erase_job_dir_rec_ok (k : nat) :
  forall fs (d : path) (x : string) (m mx : gmap string node),
    lookup_path fs d = Some (Dir m) -> m !! x = Some (Dir mx) ->
    height (Dir mx) <= k ->
    erase_job_dir_rec k (d ++ [x]) fs = (put fs d (Dir (delete x m)), Ok tt).
Proof.
  induction k as [|k IHk]; intros fs d x m mx Hd Hx Hh; [simpl in Hh; lia|].
  assert (Hdx : lookup_path fs (d ++ [x]) = Some (Dir mx))
    by by rewrite (lookup_path_snoc _ _ _ _ Hd).
  cbn [erase_job_dir_rec].
  rewrite (bind_ok _ _ fs fs (map_to_list mx).*1)
    by (unfold os.listdir; by rewrite Hdx).
  destruct (erase_entries k fs (d ++ [x]) IHk (ltac:(eauto)) (map_to_list mx).*1 mx)
    as (m' & Hrun & Hm').
  { apply NoDup_fst_map_to_list. }
  { intros y Hy. apply list_elem_of_fmap in Hy as ([y' c] & -> & Hy).
    apply elem_of_map_to_list in Hy. exists c. split; [done|].
    pose proof (height_child _ _ _ Hy). lia. }
  rewrite (put_same _ _ _ Hdx) in Hrun.
  rewrite (bind_ok _ _ _ _ tt Hrun).
  assert (m' = ∅) as ->.
  { apply map_eq. intros z. rewrite Hm', lookup_empty. case_decide as Hz; [done|].
    destruct (mx !! z) as [c|] eqn:Hc; [|done]. exfalso. apply Hz.
    apply list_elem_of_fmap. exists (z, c). split; [done|].
    by apply elem_of_map_to_list. }
  rewrite (put_snoc _ _ _ _ _ Hd) by eauto.
  erewrite rmdir_empty; [|apply lookup_put; eauto|apply lookup_insert_eq].
  by rewrite put_put, delete_insert_eq.
Qed.

Lemma erase_job_dir_ok fs (d : path) (x : string) (m mx : gmap string node) :
  lookup_path fs d = Some (Dir m) -> m !! x = Some (Dir mx) ->
  erase_job_dir (d ++ [x]) fs = (put fs d (Dir (delete x m)), Ok tt).
Proof.
  intros Hd Hx. unfold erase_job_dir.
  apply (erase_job_dir_rec_ok _ _ _ _ _ mx Hd Hx).
  assert (lookup_path fs (d ++ [x]) = Some (Dir mx)) as H
    by by rewrite (lookup_path_snoc _ _ _ _ Hd).
  apply height_lookup in H. lia.
Qed.

Lemma erase_job_dir_missing fs (d : path) :
  lookup_path fs d = None -> erase_job_dir d fs = (fs, Raise FileNotFoundError).
Proof.
  intros H. unfold erase_job_dir. cbn [erase_job_dir_rec].
  apply bind_raise. unfold os.listdir. by rewrite H.
Qed.

(** ** C7: erasing a record *)

(** C7, as stated, fails: erasing the subdirectory of an id that has none
    raises [FileNotFoundError]. *)
Lemma erase_job_dir_raises_on_missing_id :
  snd (erase_job_dir ["home"; ".KVFinder-web"; "C"] (Dir (example_root "queued")))
  = Raise FileNotFoundError.
Proof. vm_compute. reflexivity. Qed.

(** C7, amended: [erase_job_dir] removes the subdirectory of a record that is
    there with all below it; for a subdirectory that is not there it raises
    [FileNotFoundError] and leaves the disk as it is, and the [try] of its
    caller turns that into a normal return. *)
Theorem erase_job_dir_removes_or_raises
    fs (d : path) (x : string) (m : gmap string node) :
  lookup_path fs d = Some (Dir m) ->
  (forall mx, m !! x = Some (Dir mx) ->
     erase_job_dir (d ++ [x]) fs = (put fs d (Dir (delete x m)), Ok tt)
     /\ (forall q, lookup_path (put fs d (Dir (delete x m))) (d ++ x :: q) = None)
     /\ os.listdir d (put fs d (Dir (delete x m)))
        = (put fs d (Dir (delete x m)), Ok (map_to_list (delete x m)).*1)
     /\ x ∉ (map_to_list (delete x m)).*1)
  /\ (m !! x = None ->
     erase_job_dir (d ++ [x]) fs = (fs, Raise FileNotFoundError)
     /\ except_Exception (erase_job_dir (d ++ [x])) fs = (fs, Ok tt)).
Proof.
  intros Hd. split.
  - intros mx Hx. split; [by apply (erase_job_dir_ok _ _ _ _ mx)|].
    split; [|split].
    + intros q. rewrite (lookup_put_dir _ _ m) by done.
      by rewrite lookup_delete_eq.
    + unfold os.listdir. rewrite lookup_put by eauto. done.
    + intros Hin. apply list_elem_of_fmap in Hin as ([y c] & Hy & Hin).
      simpl in Hy. subst y. apply elem_of_map_to_list in Hin.
      by rewrite lookup_delete_eq in Hin.
  - intros Hx.
    assert (H : erase_job_dir (d ++ [x]) fs = (fs, Raise FileNotFoundError)).
    { apply erase_job_dir_missing. by rewrite (lookup_path_snoc _ _ _ _ Hd). }
    split; [done|]. unfold except_Exception. by rewrite H.
Qed.

Lemma erase_job_dir_removes_or_raises_witness :
  lookup_path (Dir (example_root "queued")) ["home"; ".KVFinder-web"]
  = Some (Dir (example_jobs "queued"))
  /\ fst (erase_job_dir ["home"; ".KVFinder-web"; "A"] (Dir (example_root "queued")))
     = put (Dir (example_root "queued")) ["home"; ".KVFinder-web"]
         (Dir (delete "A" (example_jobs "queued"))).
Proof.
  assert (H : lookup_path (Dir (example_root "queued")) ["home"; ".KVFinder-web"]
              = Some (Dir (example_jobs "queued"))) by (vm_compute; reflexivity).
  split; [exact H|].
  destruct (erase_job_dir_removes_or_raises _ _ "A" _ H) as [Hthere _].
  destruct (Hthere {[ "job.toml" := File (example_record "queued") ]}) as [Hrun _].
  - vm_compute. reflexivity.
  - change (["home"; ".KVFinder-web"; "A"]) with (["home"; ".KVFinder-web"] ++ ["A"]).
    by rewrite Hrun.
Defined.

(** ** C6: how [save] overwrites the record file *)

Lemma split_last_Some (p d : path) (x : string) :
  split_last p = Some (d, x) -> p = d ++ [x].
Proof.
  revert d. induction p as [|y p IH]; intros d H; simpl in *; [done|].
  destruct (split_last p) as [[d' n]|] eqn:Hp.
  - injection H as <- <-. by rewrite (IH d').
  - injection H as <- <-. by destruct p as [|z p]; [|simpl in Hp; destruct (split_last p) as [[??]|]].
Qed.

Lemma open_w_empty (p : path) fs fs' :
  os.open_w p fs = (fs', Ok tt) -> lookup_path fs' p = Some (File []).
Proof.
  unfold os.open_w, os.parent. destruct (split_last p) as [[d x]|] eqn:Hp; [|done].
  apply split_last_Some in Hp as ->.
  destruct (lookup_path fs d) as [[c|m]|] eqn:Hd; [done| |done].
  assert (Hput : lookup_path (put fs d (Dir (<[x:=File []]> m))) (d ++ [x])
                 = Some (File [])).
  { rewrite (lookup_path_snoc _ _ _ (<[x:=File []]> m)).
    - apply lookup_insert_eq.
    - apply lookup_put. eauto. }
  destruct (m !! x) as [[c|m']|]; intros H; simplify_eq; done.
Qed.

Lemma save_open_ok (id : option string) m m' fn :
  Job.save_open id m = (m', Ok fn) ->
  fn = Job.job_fn m (str_id id) /\ home m' = home m
  /\ lookup_path (fs m') fn = Some (File []).
Proof.
  unfold Job.save_open, bind, gets, ret, pass_FileExistsError, on_disk.
  destruct (os.mkdir _ (fs m)) as [fs1 [[]|e]] eqn:Hmk; simpl.
  - destruct (os.open_w _ fs1) as [fs2 [[]|e]] eqn:Hop; simpl; [|done].
    intros H. simplify_eq. simpl. split; [done|]. split; [done|].
    by apply (open_w_empty _ _ _ Hop).
  - destruct e; simpl; try done.
    destruct (os.open_w _ fs1) as [fs2 [[]|e]] eqn:Hop; simpl; [|done].
    intros H. simplify_eq. simpl. split; [done|]. split; [done|].
    by apply (open_w_empty _ _ _ Hop).
Qed.

(** C6, as stated, fails: in the middle of a save, after [open(job_fn, "w")],
    the record file is there under its final name and empty; it holds neither
    the record it held before nor the record being saved. *)
Lemma save_shows_truncated_record :
  lookup_path (fs (example_machine "queued")) ["home"; ".KVFinder-web"; "A"; "job.toml"]
  = Some (File (example_record "queued"))
  /\ lookup_path (fs (fst (Job.save_open (Some "A") (example_machine "queued"))))
       ["home"; ".KVFinder-web"; "A"; "job.toml"] = Some (File [])
  /\ snd (Job.save_open (Some "A") (example_machine "queued"))
     = Ok ["home"; ".KVFinder-web"; "A"; "job.toml"]
  /\ [] <> example_record "queued"
  /\ [] <> Job.job_file (example_job "completed").
Proof. vm_compute. repeat split; discriminate. Qed.

(** C6, amended: [save] opens the record file under its final name, which
    leaves it empty, and writes it in place; a save that completes leaves the
    whole record in it. *)
Theorem save_writes_in_place (self : job) (id : option string) m m' :
  Job.save self id m = (m', Ok tt) ->
  lookup_path (fs m') (Job.job_fn m (str_id id)) = Some (File (Job.job_file self))
  /\ exists m1, Job.save_open id m = (m1, Ok (Job.job_fn m (str_id id)))
       /\ lookup_path (fs m1) (Job.job_fn m (str_id id)) = Some (File []).
Proof.
  unfold Job.save. unfold bind at 1.
  destruct (Job.save_open id m) as [m1 [fn|e]] eqn:Hop; [|done].
  destruct (save_open_ok _ _ _ _ Hop) as (-> & Hh & Hempty).
  unfold on_disk, os.close_w, modify. intros H. simplify_eq. simpl. split.
  - apply lookup_put. eauto.
  - exists m1. done.
Qed.

Lemma save_writes_in_place_witness :
  snd (Job.save (example_job "completed") (Some "A") (example_machine "queued")) = Ok tt
  /\ lookup_path
       (fs (fst (Job.save (example_job "completed") (Some "A") (example_machine "queued"))))
       ["home"; ".KVFinder-web"; "A"; "job.toml"]
     = Some (File (Job.job_file (example_job "completed"))).
Proof.
  split; [vm_compute; reflexivity|].
  apply (save_writes_in_place (example_job "completed") (Some "A")
           (example_machine "queued")
           (fst (Job.save (example_job "completed") (Some "A") (example_machine "queued")))).
  vm_compute. reflexivity.
Defined.

(** ** The files written by [export] *)

Lemma string_app_inj_l (s a b : string) : s +:+ a = s +:+ b -> a = b.
Proof. induction s as [|c s IH]; simpl; intros H; [done|]. injection H as H. auto. Qed.

Lemma string_app_length (s t : string) :
  String.length (s +:+ t) = String.length s + String.length t.
Proof. induction s as [|c s IH]; simpl; [done|]. by rewrite IH. Qed.

Lemma export_names_distinct (b : string) :
  b +:+ ".KVFinder.output.pdb" <> b +:+ ".KVFinder.results.toml"
  /\ b +:+ ".KVFinder.output.pdb" <> "KVFinder.log"
  /\ b +:+ ".KVFinder.output.pdb" <> b +:+ "_parameters.toml"
  /\ b +:+ ".KVFinder.results.toml" <> "KVFinder.log"
  /\ b +:+ ".KVFinder.results.toml" <> b +:+ "_parameters.toml"
  /\ "KVFinder.log" <> b +:+ "_parameters.toml".
Proof.
  repeat split; intros H;
    try (apply string_app_inj_l in H; discriminate);
    apply (f_equal String.length) in H; rewrite string_app_length in H;
    simpl in H; lia.
Qed.

Lemma set_fs_same m : set_fs m (fs m) = m.
Proof. by destruct m. Qed.

(** A write into a directory, on a machine whose directory [bd] holds [mb]. *)
Lemma write_at m0 (bd : path) (mb0 mb : gmap string node) (name : string) toks r :
  lookup_path (fs m0) bd = Some (Dir mb0) ->
  on_disk (os.with_open_w (bd ++ [name]) (toks, r))
    (set_fs m0 (put (fs m0) bd (Dir mb)))
  = match mb !! name with
    | Some (Dir _) => (set_fs m0 (put (fs m0) bd (Dir mb)), Raise IsADirectoryError)
    | _ => (set_fs m0 (put (fs m0) bd (Dir (<[name := File toks]> mb))), r)
    end.
Proof.
  intros H. unfold on_disk. simpl.
  rewrite (with_open_w_dir _ bd name mb) by (apply lookup_put; eauto).
  destruct (mb !! name) as [[c|md]|]; simpl; unfold set_fs; simpl;
    by rewrite ?put_put.
Qed.

Lemma settles_lift_result {A} m0 (bd : path) (r : result A) :
  settles m0 bd [] (lift_result r).
Proof. intros mb. exists mb, r. unfold lift_result. by repeat split. Qed.

Lemma settles_ret {A} m0 (bd : path) (a : A) : settles m0 bd [] (ret a).
Proof. intros mb. exists mb, (Ok a). unfold ret. by repeat split. Qed.

Lemma settles_write m0 (bd : path) (mb0 : gmap string node) (name : string) toks r :
  lookup_path (fs m0) bd = Some (Dir mb0) ->
  settles m0 bd [name] (on_disk (os.with_open_w (bd ++ [name]) (toks, r))).
Proof.
  intros Hbd mb. unfold in_dir. rewrite (write_at _ _ _ _ _ _ _ Hbd).
  destruct (mb !! name) as [[c|md]|] eqn:Hn.
  - exists (<[name := File toks]> mb), r. split; [done|]. split.
    + intros n Hne. rewrite lookup_insert_ne; [done|]. set_solver.
    + intros mb2 H2. rewrite (write_at _ _ _ _ _ _ _ Hbd).
      specialize (H2 name (ltac:(set_solver))). rewrite lookup_insert_eq in H2.
      rewrite H2. by rewrite insert_id.
  - exists mb, (Raise IsADirectoryError). split; [done|]. split; [done|].
    intros mb2 H2. rewrite (write_at _ _ _ _ _ _ _ Hbd).
    specialize (H2 name (ltac:(set_solver))). by rewrite H2, Hn.
  - exists (<[name := File toks]> mb), r. split; [done|]. split.
    + intros n Hne. rewrite lookup_insert_ne; [done|]. set_solver.
    + intros mb2 H2. rewrite (write_at _ _ _ _ _ _ _ Hbd).
      specialize (H2 name (ltac:(set_solver))). rewrite lookup_insert_eq in H2.
      rewrite H2. by rewrite insert_id.
Qed.

Lemma settles_bind {A B} m0 (bd : path) (n1 n2 : list string)
    (c : M machine A) (k : A -> M machine B) :
  (forall n, n ∈ n1 -> n ∉ n2) ->
  settles m0 bd n1 c -> (forall a, settles m0 bd n2 (k a)) ->
  settles m0 bd (n1 ++ n2) (bind c k).
Proof.
  intros Hdisj Hc Hk mb.
  destruct (Hc mb) as (mb1 & r1 & Hrun1 & Hframe1 & Hagain1).
  destruct r1 as [a|e].
  - destruct (Hk a mb1) as (mb' & r & Hrun2 & Hframe2 & Hagain2).
    exists mb', r. split; [|split].
    + unfold bind. by rewrite Hrun1.
    + intros n Hn. rewrite Hframe2, Hframe1; [done| |]; set_solver.
    + intros mb2 H2. unfold bind. rewrite Hagain1.
      * apply Hagain2. intros n Hn. apply H2. set_solver.
      * intros n Hn. rewrite H2 by set_solver. apply Hframe2. by apply Hdisj.
  - exists mb1, (Raise e). split; [|split].
    + unfold bind. by rewrite Hrun1.
    + intros n Hn. apply Hframe1. set_solver.
    + intros mb2 H2. unfold bind. rewrite Hagain1; [done|].
      intros n Hn. apply H2. set_solver.
Qed.

Lemma export_files_settles (self : job) m0 (bd : path) (mb0 : gmap string node) :
  lookup_path (fs m0) bd = Some (Dir mb0) ->
  settles m0 bd
    ([base_name self +:+ ".KVFinder.output.pdb"]
     ++ [] ++ [] ++ [] ++ [] ++ []
     ++ [base_name self +:+ ".KVFinder.results.toml"]
     ++ ["KVFinder.log"]
     ++ (if id_added_manually self then [] else [base_name self +:+ "_parameters.toml"]))
    (Job.export_files bd self).
Proof.
  intros Hbd.
  destruct (export_names_distinct (base_name self)) as (N1 & N2 & N3 & N4 & N5 & N6).
  unfold Job.export_files, Job.cavity_fn, Job.report_fn, Job.log_fn, Job.parameter_fn.
  apply settles_bind.
  { destruct (id_added_manually self); set_solver. }
  { destruct (match Job.cavity self with
       | Ok (Some c) => ([Text c], Ok ())
       | Ok None => ([], Raise TypeError)
       | Raise e => ([], Raise e)
       end) as [toks r]. by apply (settles_write _ _ mb0). }
  intros _.
  do 5 (apply settles_bind; [set_solver|apply settles_lift_result|intros ?]).
  apply settles_bind.
  { destruct (id_added_manually self); set_solver. }
  { by apply (settles_write _ _ mb0). }
  intros _. apply settles_bind.
  { destruct (id_added_manually self); set_solver. }
  { destruct (match Job.log self with
       | Ok (Some l) => (List.concat (map (Job.log_line self) (split_lines l)), Ok ())
       | Ok None => ([], Raise TypeError)
       | Raise e => ([], Raise e)
       end) as [toks r]. by apply (settles_write _ _ mb0). }
  intros _. destruct (id_added_manually self); simpl.
  - apply settles_ret.
  - by apply (settles_write _ _ mb0).
Qed.

Lemma bind_inv {S A B} (c : M S A) (k : A -> M S B) s s' b :
  bind c k s = (s', Ok b) -> exists a s1, c s = (s1, Ok a) /\ k a s1 = (s', Ok b).
Proof.
  unfold bind. destruct (c s) as [s1 [a|e]]; [|done]. intros H. by exists a, s1.
Qed.

Lemma with_open_w_ok (p : path) toks r fs fs' :
  os.with_open_w p (toks, r) fs = (fs', Ok tt) ->
  lookup_path fs' p = Some (File toks).
Proof.
  unfold os.with_open_w. intros H.
  apply bind_inv in H as ([] & fs1 & Hop & H).
  apply bind_inv in H as ([] & fs2 & Hcl & H).
  unfold lift_result in H. unfold os.close_w, modify in Hcl. simplify_eq.
  apply lookup_put. rewrite (open_w_empty _ _ _ Hop). eauto.
Qed.

(** [os.mkdir] under [except FileExistsError: pass]: either it raises and the
    disk is as before, or the directory is there afterwards, and what is
    below it is what was there before. *)
Lemma mkdir_pass m (od : path) (i : string) :
  (exists e, pass_FileExistsError (on_disk (os.mkdir (od ++ [i]))) m = (m, Raise e))
  \/ (exists m1 c,
        pass_FileExistsError (on_disk (os.mkdir (od ++ [i]))) m = (m1, Ok tt)
        /\ lookup_path (fs m1) (od ++ [i]) = Some c
        /\ forall n q, lookup_path (fs m1) ((od ++ [i]) ++ n :: q)
                       = lookup_path (fs m) ((od ++ [i]) ++ n :: q)).
Proof.
  unfold pass_FileExistsError, on_disk, os.mkdir, os.parent.
  rewrite split_last_snoc.
  destruct (lookup_path (fs m) od) as [[t|mp]|] eqn:Hod.
  - left. eexists. by rewrite set_fs_same.
  - destruct (mp !! i) as [c|] eqn:Hi.
    + right. exists m, c. rewrite set_fs_same. split; [done|]. split; [|done].
      by rewrite (lookup_path_snoc _ _ _ _ Hod).
    + right. eexists _, (Dir ∅). split; [done|]. simpl.
      assert (Hnew : lookup_path (put (fs m) od (Dir (<[i:=Dir ∅]> mp))) (od ++ [i])
                     = Some (Dir ∅)).
      { rewrite (lookup_path_snoc _ _ _ (<[i:=Dir ∅]> mp)) by (apply lookup_put; eauto).
        apply lookup_insert_eq. }
      split; [done|]. intros n q.
      rewrite lookup_path_app, Hnew. simpl. rewrite lookup_empty.
      rewrite lookup_path_app, (lookup_path_snoc _ _ _ _ Hod), Hi. done.
  - left. eexists. by rewrite set_fs_same.
Qed.

Lemma mkdir_pass_existing m (od : path) (i : string) c :
  lookup_path (fs m) (od ++ [i]) = Some c ->
  pass_FileExistsError (on_disk (os.mkdir (od ++ [i]))) m = (m, Ok tt).
Proof.
  intros H. unfold pass_FileExistsError, on_disk, os.mkdir, os.parent.
  rewrite split_last_snoc. rewrite lookup_path_app in H.
  destruct (lookup_path (fs m) od) as [[t|mp]|] eqn:Hod; simpl in H; try done.
  destruct (mp !! i); [|done]. by rewrite set_fs_same.
Qed.

Lemma export_files_no_dir (bd : path) (self : job) m :
  (forall mb, lookup_path (fs m) bd <> Some (Dir mb)) ->
  exists e, Job.export_files bd self m = (m, Raise e).
Proof.
  intros H. unfold Job.export_files, Job.cavity_fn. unfold bind at 1, on_disk.
  destruct (match Job.cavity self with
            | Ok (Some c) => ([Text c], Ok ())
            | Ok None => ([], Raise TypeError)
            | Raise e => ([], Raise e)
            end) as [toks r].
  destruct (with_open_w_no_dir (fs m) bd (base_name self +:+ ".KVFinder.output.pdb")
              toks r _ eq_refl H) as [e He].
  rewrite He. exists e. by rewrite set_fs_same.
Qed.

Lemma in_dir_same m (bd : path) (mb : gmap string node) :
  lookup_path (fs m) bd = Some (Dir mb) -> in_dir m bd mb = m.
Proof. intros H. unfold in_dir. by rewrite (put_same _ _ _ H), set_fs_same. Qed.

Lemma lookup_in_dir m (bd : path) (mb0 mb : gmap string node) :
  lookup_path (fs m) bd = Some (Dir mb0) ->
  lookup_path (fs (in_dir m bd mb)) bd = Some (Dir mb).
Proof. intros H. simpl. apply lookup_put. eauto. Qed.

(** ** C4: exporting twice *)

(** C4: a second [export] of the same job leaves every file as the first one
    left it, and ends as the first one ended. *)
Theorem export_idempotent (self : job) (m : machine) :
  Job.export self (fst (Job.export self m)) = Job.export self m.
Proof.
  unfold Job.export. destruct (Job.base_dir self) as [bd|e] eqn:Hbd; [|done].
  unfold Job.base_dir in Hbd. destruct (id self) as [i|]; [|done].
  injection Hbd as <-.
  unfold bind at 2 4, lift_result. unfold bind at 2 4.
  destruct (mkdir_pass m (output_directory self) i) as [[e He]|(m1 & c & Hmk & Hc & _)].
  { rewrite He. simpl. unfold bind, lift_result. by rewrite He. }
  rewrite Hmk.
  assert (Hfiles : exists m' r,
    Job.export_files (output_directory self ++ [i]) self m1 = (m', r)
    /\ is_Some (lookup_path (fs m') (output_directory self ++ [i]))
    /\ Job.export_files (output_directory self ++ [i]) self m' = (m', r)).
  { destruct c as [t|mb].
    - destruct (export_files_no_dir (output_directory self ++ [i]) self m1) as [e He].
      { intros mb. by rewrite Hc. }
      exists m1, (Raise e). rewrite Hc. eauto.
    - destruct (export_files_settles self m1 _ _ Hc mb) as (mb' & r & Hrun & _ & Hagain).
      rewrite (in_dir_same _ _ _ Hc) in Hrun.
      exists (in_dir m1 (output_directory self ++ [i]) mb'), r.
      split; [done|]. split.
      + rewrite (lookup_in_dir _ _ _ _ Hc). eauto.
      + by apply Hagain. }
  destruct Hfiles as (m' & r & Hrun & [c' Hc'] & Hagain).
  rewrite Hrun. simpl. unfold bind, lift_result.
  by rewrite Hmk, Hrun, (mkdir_pass_existing _ _ _ _ Hc'), Hagain.
Qed.

(** ** C9: the parameters file of a manually added job *)

(** C9: [export] of a manually added job leaves the path of the parameters
    file as it was, whatever the output; and an [export] of a job that was
    not added manually, when it completes, has written the parameters file. *)
Theorem export_parameters_file (self : job) (m : machine) (bd : path) :
  Job.base_dir self = Ok bd ->
  (id_added_manually self = true ->
     lookup_path (fs (fst (Job.export self m))) (Job.parameter_fn bd self)
     = lookup_path (fs m) (Job.parameter_fn bd self))
  /\ (id_added_manually self = false ->
      snd (Job.export self m) = Ok tt ->
      lookup_path (fs (fst (Job.export self m))) (Job.parameter_fn bd self)
      = Some (File (Job.parameters_file self))).
Proof.
  intros Hbd. unfold Job.export. rewrite Hbd.
  unfold Job.base_dir in Hbd. destruct (id self) as [i|]; [|done].
  injection Hbd as <-. split.
  - intros Hman. unfold bind at 1, lift_result. unfold bind at 1.
    destruct (mkdir_pass m (output_directory self) i)
      as [[e He]|(m1 & c & Hmk & Hc & Hbelow)].
    { by rewrite He. }
    rewrite Hmk. unfold Job.parameter_fn. rewrite <- Hbelow.
    destruct c as [t|mb].
    + destruct (export_files_no_dir (output_directory self ++ [i]) self m1) as [e He].
      { intros mb. by rewrite Hc. }
      by rewrite He.
    + destruct (export_files_settles self m1 _ _ Hc mb) as (mb' & r & Hrun & Hframe & _).
      rewrite (in_dir_same _ _ _ Hc) in Hrun. rewrite Hrun. simpl.
      rewrite (lookup_path_snoc _ _ _ mb') by (apply lookup_put; eauto).
      rewrite (lookup_path_snoc _ _ _ _ Hc). apply Hframe.
      destruct (export_names_distinct (base_name self)) as (N1 & N2 & N3 & N4 & N5 & N6).
      rewrite Hman. set_solver.
  - intros Hman Hok.
    destruct (bind _ _ m) as [m' r] eqn:Hrun. simpl in *. subst r.
    apply bind_inv in Hrun as (bd' & m0 & Hb & Hrun).
    unfold lift_result in Hb. injection Hb as <- <-.
    apply bind_inv in Hrun as ([] & m1 & _ & Hrun).
    unfold Job.export_files in Hrun. rewrite Hman in Hrun. simpl in Hrun.
    do 8 (apply bind_inv in Hrun as (? & ? & _ & Hrun)).
    unfold on_disk in Hrun.
    destruct (os.with_open_w _ _ (fs _)) as [fs' r] eqn:Hw.
    injection Hrun as <- ->. simpl. by apply (with_open_w_ok _ _ _ _ _ Hw).
Qed.

Lemma export_parameters_file_witness :
  Job.base_dir (set_output (example_job "completed") (Some example_completed))
  = Ok ["out"; "A"]
  /\ lookup_path
       (fs (fst (Job.export (set_output (example_job "completed") (Some example_completed))
                   (example_machine "completed"))))
       ["out"; "A"; "output_parameters.toml"]
     = lookup_path (fs (example_machine "completed"))
         ["out"; "A"; "output_parameters.toml"].
Proof.
  split; [reflexivity|].
  apply (export_parameters_file
           (set_output (example_job "completed") (Some example_completed))
           (example_machine "completed") ["out"; "A"]); reflexivity.
Defined.

(** ** C10: the existence check for a manually added job *)




(** ** C1: a job that the service no longer knows *)

Lemma count_id_signal_app (job_id : string) (tr1 tr2 : list event) :
  count_id_signal job_id (tr1 ++ tr2)
  = count_id_signal job_id tr1 + count_id_signal job_id tr2.
Proof. unfold count_id_signal. by rewrite filter_app, length_app. Qed.

Lemma count_id_signal_one (job_id : string) (e : event) :
  count_id_signal job_id [e] = if decide (e = Emit (id_signal job_id)) then 1 else 0.
Proof.
  unfold count_id_signal. rewrite filter_cons, filter_nil.
  by destruct (decide (e = Emit (id_signal job_id))).
Qed.

Lemma get_jobs_ok (m : machine) (mm : gmap string node) :
  lookup_path (fs m) (jobs_dir m) = Some (Dir mm) ->
  _get_jobs m = (m, Ok (map_to_list mm).*1).
Proof.
  intros H. unfold _get_jobs, bind, gets, on_disk, os.listdir.
  by rewrite H, set_fs_same.
Qed.

(** The not-found branch of [_handle_get_response] for a record that is there. *)
Lemma handle_not_found (r : network_reply) (s : state) (j : job)
    (job_id : string) (m md : gmap string node) :
  error r = ContentNotFoundError ->
  job_info s = Some j -> id j = Some job_id ->
  lookup_path (fs (computer s)) (jobs_dir (computer s)) = Some (Dir m) ->
  m !! job_id = Some (Dir md) ->
  Worker._handle_get_response r s
  = (record
       (set_computer
          (record (record (set_wait (record s (Emit server_up)) true) (SetWait true))
             (Emit (id_signal job_id)))
          (set_fs (computer s)
             (put (fs (computer s)) (jobs_dir (computer s)) (Dir (delete job_id m)))))
       (Emit (available_jobs_signal (map_to_list (delete job_id m)).*1)),
     Ok tt).
Proof.
  intros Herr Hj Hid Hdir Hsub.
  unfold Worker._handle_get_response. rewrite Herr.
  unfold emit, Worker.the_job, Worker.the_id, bind, modify, gets, ret. simpl.
  rewrite Hj, Hid. simpl.
  unfold except_Exception, on_machine, on_disk, bind. simpl.
  unfold Job.job_dn.
  rewrite (erase_job_dir_ok _ _ _ _ _ Hdir Hsub). simpl.
  rewrite (get_jobs_ok _ (delete job_id m)) by (simpl; apply lookup_put; eauto).
  done.
Qed.

(** C1: when the fetch of a tracked id is answered not-found, the handling of
    that reply, in the event loop that follows the request, erases the record
    of the id from [~/.KVFinder-web] and emits [id_signal] for that id once,
    and for no other id. *)
Theorem not_found_erases_record_and_notifies_once
    (E : environment) (s : state) (j : job) (job_id : string) (ms : nat)
    (m md : gmap string node) :
  job_info s = Some j -> id j = Some job_id ->
  error (service E (clock s) job_id) = ContentNotFoundError ->
  lookup_path (fs (computer s)) (jobs_dir (computer s)) = Some (Dir m) ->
  m !! job_id = Some (Dir md) ->
  exists s',
    (Worker._get_results E job_id ;; Worker.event_loop E ms) s = (s', Ok tt)
    /\ lookup_path (fs (computer s')) (Job.job_dn (computer s') job_id) = None
    /\ (exists jobs, _get_jobs (computer s') = (computer s', Ok jobs) /\ job_id ∉ jobs)
    /\ count_id_signal job_id (trace s') = count_id_signal job_id (trace s) + 1
    /\ (forall other, other <> job_id ->
          count_id_signal other (trace s') = count_id_signal other (trace s)).
Proof.
  intros Hj Hid Herr Hdir Hsub.
  unfold Worker._get_results, Worker.event_loop.
  unfold bind at 1 2 3 4, modify, gets. simpl.
  unfold bind at 1. simpl.
  erewrite (handle_not_found _ _ j job_id m md); [|done..].
  unfold bind, gets, ret, Worker.wait_status, modify. simpl.
  assert (Hgone : lookup_path
            (put (fs (computer s)) (jobs_dir (computer s)) (Dir (delete job_id m)))
            (Job.job_dn (computer s) job_id) = None).
  { unfold Job.job_dn. rewrite (lookup_path_snoc _ _ _ (delete job_id m))
      by (apply lookup_put; eauto). apply lookup_delete_eq. }
  assert (Hjobs : exists jobs,
    _get_jobs (set_fs (computer s)
                 (put (fs (computer s)) (jobs_dir (computer s)) (Dir (delete job_id m))))
    = (set_fs (computer s)
         (put (fs (computer s)) (jobs_dir (computer s)) (Dir (delete job_id m))),
       Ok jobs) /\ job_id ∉ jobs).
  { eexists. split.
    - apply (get_jobs_ok _ (delete job_id m)). simpl. apply lookup_put. eauto.
    - intros Hin. apply list_elem_of_fmap in Hin as ([y c] & Hy & Hin).
      simpl in Hy. subst y. apply elem_of_map_to_list in Hin.
      by rewrite lookup_delete_eq in Hin. }
  destruct (existsb (acknowledged E) (seq (S (clock s)) ms)); simpl;
    (eexists; split; [reflexivity|]); simpl;
    (split; [exact Hgone|]); (split; [exact Hjobs|]);
    (split; [|intros other Hne]);
    rewrite !count_id_signal_app, !count_id_signal_one;
    repeat case_decide; simplify_eq; lia.
Qed.


Lemma not_found_erases_record_and_notifies_once_witness :
  exists s',
    (Worker._get_results example_not_found "A" ;;
     Worker.event_loop example_not_found time_between_jobs)
      (set_job_info (started (example_machine "queued") true)
         (Some (example_job "queued")))
    = (s', Ok tt)
    /\ lookup_path (fs (computer s')) (Job.job_dn (computer s') "A") = None
    /\ (exists jobs, _get_jobs (computer s') = (computer s', Ok jobs) /\ "A" ∉ jobs)
    /\ count_id_signal "A" (trace s') = 0 + 1
    /\ (forall other, other <> "A" -> count_id_signal other (trace s') = 0).
Proof.
  apply (not_found_erases_record_and_notifies_once example_not_found
           (set_job_info (started (example_machine "queued") true)
              (Some (example_job "queued")))
           (example_job "queued") "A" time_between_jobs
           (example_jobs "queued")
           {[ "job.toml" := File (example_record "queued") ]});
    vm_compute; reflexivity.
Defined.

(** The same in a turn of [run]: both records are erased, each id is
    signalled once. *)
Example not_found_in_a_pass :
  trace (fst (Worker.iteration example_not_found 1 (started (example_machine "queued") true)))
  = [Emit (available_jobs_signal ["A"; "B"]);
     Get "A"; Emit server_up; SetWait true; Emit (id_signal "A");
     Emit (available_jobs_signal ["B"]); Sleep 2000;
     Get "B"; Emit server_up; SetWait true; Emit (id_signal "B");
     Emit (available_jobs_signal []); Sleep 2000;
     Sleep 5000].
Proof. vm_compute. reflexivity. Qed.

(** ** C2: the wait for the user *)

(** C2, as stated, fails: the not-found reply for [A] sets [self.wait] in the
    middle of the pass, and [B] is fetched all the same. *)
Lemma fetch_while_wait_is_set :
  calls_while_waiting false
    (trace (fst (Worker.iteration example_not_found 1
                   (started (example_machine "queued") true))))
  = 1.
Proof. vm_compute. reflexivity. Qed.

Lemma no_acknowledgement (E : environment) (c ms T : nat) :
  (forall t, c < t -> t < T -> acknowledged E t = false) ->
  c + ms < T -> existsb (acknowledged E) (seq (S c) ms) = false.
Proof.
  intros Hnone HT. destruct (existsb _ _) eqn:Hex; [|done].
  apply existsb_exists in Hex as (t & Hin & Ht). apply in_seq in Hin.
  rewrite Hnone in Ht by lia. done.
Qed.

Lemma an_acknowledgement (E : environment) (c ms T : nat) :
  acknowledged E T = true -> c < T -> T <= c + ms ->
  existsb (acknowledged E) (seq (S c) ms) = true.
Proof.
  intros Hack Hlo Hhi. apply existsb_exists. exists T. split; [|done].
  apply in_seq. lia.
Qed.

Lemma calls_while_waiting_none (w : bool) (tr : list event) :
  Forall (fun e => is_remote_call e = false) tr -> calls_while_waiting w tr = 0.
Proof.
  intros H. revert w. induction H as [|e tr He _ IH]; intros w; [done|].
  destruct e; simpl in *; try done; rewrite ?andb_false_r; apply IH.
Qed.

(** The event loop when no reply is awaited. *)
Lemma event_loop_idle (E : environment) (ms : nat) (s : state) :
  reply s = None ->
  Worker.event_loop E ms s
  = (if existsb (acknowledged E) (seq (S (clock s)) ms)
     then record (set_clock (record (set_wait s false) (SetWait false)) (clock s + ms))
            (Sleep ms)
     else record (set_clock s (clock s + ms)) (Sleep ms),
     Ok tt).
Proof.
  intros Hr. unfold Worker.event_loop, bind, gets, ret, Worker.wait_status, modify.
  rewrite Hr. by destruct (existsb _ _).
Qed.

Lemma while_wait_unfold (E : environment) (fuel : nat) (s : state) :
  Worker.while_wait E (S fuel) s
  = if wait s
    then (Worker.event_loop E time_wait_status ;; Worker.while_wait E fuel) s
    else (s, Ok tt).
Proof.
  cbn [Worker.while_wait]. unfold bind at 1, gets. by destruct (wait s).
Qed.

(** C2, amended: in its wait loop the worker makes no remote call; when the
    user acknowledges at time [T] the loop ends at the end of the wait
    interval in which [T] falls, less than [time_wait_status] after [T], with
    the flag cleared, and the turn of [run] goes on to list the jobs. *)
Theorem while_wait_is_silent_and_resumes (E : environment) (fuel T : nat) :
  forall s,
    wait s = true -> reply s = None ->
    clock s < T -> acknowledged E T = true ->
    (forall t, clock s < t -> t < T -> acknowledged E t = false) ->
    T <= clock s + fuel * time_wait_status ->
    exists s' new,
      Worker.while_wait E (S fuel) s = (s', Ok tt)
      /\ Worker.iteration E (S fuel) s = Worker.discover E (S fuel) s'
      /\ wait s' = false
      /\ T <= clock s' /\ clock s' < T + time_wait_status
      /\ trace s' = trace s ++ new
      /\ Forall (fun e => is_remote_call e = false) new
      /\ calls_while_waiting true new = 0
      /\ computer s' = computer s.
Proof.
  assert (Hiter : forall s s', Worker.while_wait E (S fuel) s = (s', Ok tt) ->
            Worker.iteration E (S fuel) s = Worker.discover E (S fuel) s').
  { intros s s' H. unfold Worker.iteration. by rewrite (bind_ok _ _ _ _ _ H). }
  cut (forall s,
    wait s = true -> reply s = None ->
    clock s < T -> acknowledged E T = true ->
    (forall t, clock s < t -> t < T -> acknowledged E t = false) ->
    T <= clock s + fuel * time_wait_status ->
    exists s' new,
      Worker.while_wait E (S fuel) s = (s', Ok tt)
      /\ wait s' = false
      /\ T <= clock s' /\ clock s' < T + time_wait_status
      /\ trace s' = trace s ++ new
      /\ Forall (fun e => is_remote_call e = false) new
      /\ computer s' = computer s).
  { intros H s Hw Hr Hc Hack Hnone Hfuel.
    destruct (H s Hw Hr Hc Hack Hnone Hfuel) as (s' & new & H1 & H2 & H3 & H4 & H5 & H6 & H7).
    exists s', new. repeat split; try done; [by apply Hiter|].
    by apply calls_while_waiting_none. }
  clear Hiter. induction fuel as [|fuel IH]; intros s Hw Hr Hc Hack Hnone Hfuel.
  { cbn [Nat.mul] in Hfuel. lia. }
  rewrite while_wait_unfold, Hw. unfold bind at 1.
  rewrite (event_loop_idle E _ s Hr).
  destruct (decide (T <= clock s + time_wait_status)) as [Hin|Hout].
  - rewrite (an_acknowledgement E _ _ T Hack Hc Hin).
    rewrite while_wait_unfold. cbn [wait record set_clock set_wait].
    eexists _, [SetWait false; Sleep time_wait_status].
    split; [reflexivity|]. cbn [wait clock trace computer record set_clock set_wait].
    repeat split; try done; try lia.
    + by rewrite <- app_assoc.
    + by repeat constructor.
  - rewrite (no_acknowledgement E _ _ T Hnone) by lia.
    destruct (IH (record (set_clock s (clock s + time_wait_status)) (Sleep time_wait_status)))
      as (s' & new & Hrun & Hw' & Hlo & Hhi & Htr & Hquiet & Hcomp);
      cbn [wait reply clock trace computer record set_clock]; try done.
    + lia.
    + intros t Ht1 Ht2. apply Hnone; lia.
    + lia.
    + exists s', (Sleep time_wait_status :: new).
      cbn [wait reply clock trace computer record set_clock] in *.
      repeat split; try done. by rewrite Htr, <- app_assoc.
      by constructor.
Qed.

Lemma while_wait_is_silent_and_resumes_witness :
  exists s' new,
    Worker.while_wait example_acknowledging 2
      (set_wait (started (example_machine "queued") true) true) = (s', Ok tt)
    /\ Worker.iteration example_acknowledging 2
         (set_wait (started (example_machine "queued") true) true)
       = Worker.discover example_acknowledging 2 s'
    /\ wait s' = false
    /\ 3000 <= clock s' /\ clock s' < 3000 + time_wait_status
    /\ trace s' = [] ++ new
    /\ Forall (fun e => is_remote_call e = false) new
    /\ calls_while_waiting true new = 0
    /\ computer s' = example_machine "queued".
Proof.
  apply (while_wait_is_silent_and_resumes example_acknowledging 1 3000
           (set_wait (started (example_machine "queued") true) true)).
  - reflexivity.
  - reflexivity.
  - apply Nat.ltb_lt. vm_compute. reflexivity.
  - vm_compute. reflexivity.
  - intros t _ Ht. apply Nat.eqb_neq. lia.
  - apply Nat.leb_le. vm_compute. reflexivity.
Defined.

(** ** What leaves the locals of [run] alone *)

Lemma quiet_refl (s : state) : quiet s s.
Proof. repeat split. exists []. by rewrite app_nil_r. Qed.

Lemma quiet_trans (s1 s2 s3 : state) : quiet s1 s2 -> quiet s2 s3 -> quiet s1 s3.
Proof.
  intros (Hc1 & Hf1 & n1 & Ht1 & Hn1) (Hc2 & Hf2 & n2 & Ht2 & Hn2).
  split; [congruence|]. split; [congruence|]. exists (n1 ++ n2). split.
  - by rewrite Ht2, Ht1, app_assoc.
  - by apply Forall_app.
Qed.

Lemma quiet_fields (s s' : state) :
  counter s' = counter s -> flag s' = flag s -> trace s' = trace s -> quiet s s'.
Proof.
  intros Hc Hf Ht. split; [done|]. split; [done|]. exists [].
  by rewrite Ht, app_nil_r.
Qed.

Lemma keeps_ret {A} (a : A) : keeps (ret a).
Proof. intros s. apply quiet_refl. Qed.

Lemma keeps_raise {A} (e : exn) : keeps (@raise state A e).
Proof. intros s. apply quiet_refl. Qed.

Lemma keeps_gets {A} (f : state -> A) : keeps (gets f).
Proof. intros s. apply quiet_refl. Qed.

Lemma keeps_lift_result {A} (r : result A) : keeps (@lift_result state A r).
Proof. intros s. apply quiet_refl. Qed.

Lemma keeps_bind {A B} (c : M state A) (k : A -> M state B) :
  keeps c -> (forall a, keeps (k a)) -> keeps (bind c k).
Proof.
  intros Hc Hk s. unfold bind. specialize (Hc s).
  destruct (c s) as [s1 [a|e]]; simpl in *; [|done].
  apply (quiet_trans _ s1); [done|]. apply Hk.
Qed.

Lemma keeps_except (c : M state unit) : keeps c -> keeps (except_Exception c).
Proof.
  intros Hc s. unfold except_Exception. specialize (Hc s).
  by destruct (c s) as [s1 [a|[]]].
Qed.

Lemma keeps_on_machine {A} (op : M machine A) : keeps (on_machine op).
Proof.
  intros s. unfold on_machine. destruct (op (computer s)) as [m' r]. simpl.
  repeat split. exists []. by rewrite app_nil_r.
Qed.

Lemma keeps_modify (f : state -> state) : (forall s, quiet s (f s)) -> keeps (modify f).
Proof. intros H s. apply H. Qed.

Lemma quiet_record (s s' : state) (e : event) :
  is_forced e = false -> is_skipped e = false ->
  counter s' = counter s -> flag s' = flag s -> trace s' = trace s ->
  quiet s (record s' e).
Proof.
  intros Hf Hs Hc Hfl Ht. split; [done|]. split; [done|].
  exists [e]. simpl. rewrite Ht. split; [done|]. by repeat constructor.
Qed.

Lemma keeps_emit (sig : signal) : keeps (emit sig).
Proof. apply keeps_modify. intros s. by apply quiet_record. Qed.

Lemma keeps_the_job : keeps Worker.the_job.
Proof. intros s. unfold Worker.the_job. destruct (job_info s); apply quiet_refl. Qed.

Lemma keeps_the_id (j : job) : keeps (Worker.the_id j).
Proof. unfold Worker.the_id. destruct (id j); [apply keeps_ret|apply keeps_raise]. Qed.

Lemma keeps_handle_get_response (r : network_reply) :
  keeps (Worker._handle_get_response r).
Proof.
  unfold Worker._handle_get_response. destruct (error r).
  - apply keeps_bind; [apply keeps_the_job|intros j].
    apply keeps_bind; [apply keeps_modify; intros s; by apply quiet_fields|intros _].
    apply keeps_bind; [apply keeps_on_machine|intros _].
    apply keeps_bind; [|intros _; apply keeps_emit].
    destruct (String.eqb _ _); [|apply keeps_ret].
    apply keeps_except, keeps_on_machine.
  - apply keeps_bind; [apply keeps_emit|intros _].
    apply keeps_bind; [apply keeps_modify; intros s; by apply quiet_record|intros _].
    apply keeps_bind; [apply keeps_the_job|intros j].
    apply keeps_bind; [apply keeps_the_id|intros i].
    apply keeps_bind; [apply keeps_emit|intros _].
    apply keeps_bind; [apply keeps_gets|intros dn].
    apply keeps_except.
    apply keeps_bind; [apply keeps_on_machine|intros _].
    apply keeps_bind; [apply keeps_on_machine|intros jobs].
    apply keeps_emit.
  - apply keeps_emit.
  - apply keeps_ret.
  - apply keeps_ret.
Qed.

Lemma keeps_event_loop (E : environment) (ms : nat) : keeps (Worker.event_loop E ms).
Proof.
  unfold Worker.event_loop.
  apply keeps_bind; [apply keeps_gets|intros r].
  apply keeps_bind.
  { destruct r as [r|]; [|apply keeps_ret].
    apply keeps_bind; [apply keeps_modify; intros s; by apply quiet_fields|intros _].
    apply keeps_handle_get_response. }
  intros _. apply keeps_bind; [apply keeps_gets|intros t].
  apply keeps_bind.
  { destruct (existsb _ _); [|apply keeps_ret].
    apply keeps_modify. intros s. by apply quiet_record. }
  intros _. apply keeps_modify. intros s. by apply quiet_record.
Qed.

Lemma keeps_get_results (E : environment) (job_id : string) :
  keeps (Worker._get_results E job_id).
Proof.
  unfold Worker._get_results.
  apply keeps_bind; [apply keeps_modify; intros s; by apply quiet_record|intros _].
  apply keeps_modify. intros s. by apply quiet_fields.
Qed.

Lemma keeps_check_output_exists : keeps Worker._check_output_exists.
Proof.
  unfold Worker._check_output_exists.
  apply keeps_bind; [apply keeps_the_job|intros j].
  apply keeps_bind; [apply keeps_lift_result|intros bd].
  do 4 (apply keeps_bind; [apply keeps_gets|intros ?]).
  apply keeps_ret.
Qed.

(** ** C3: the counter of passes without re-validation *)

Lemma existsb_quiet (f : event -> bool) (new : list event) :
  Forall (fun e => f e = false) new -> existsb f new = false.
Proof. induction 1 as [|e l He _ IH]; simpl; [done|]. by rewrite He, IH. Qed.

Lemma quiet_keeps_pass_invariant {A} (s0 : state) (c : M state A) :
  keeps c -> keeps_pass_invariant s0 c.
Proof.
  intros Hc s (new & Ht & Hf & Hcn & Hn).
  destruct (Hc s) as (Hc' & Hf' & q & Hq & Hmarks).
  exists (new ++ q). rewrite !existsb_app.
  rewrite (existsb_quiet is_forced q), (existsb_quiet is_skipped q), !orb_false_r.
  - rewrite Hq, Ht, Hc', Hf'. by rewrite app_assoc.
  - eapply Forall_impl; [exact Hmarks|]. by intros e [_ ?].
  - eapply Forall_impl; [exact Hmarks|]. by intros e [? _].
Qed.

Lemma pass_invariant_bind {A B} (s0 : state) (c : M state A) (k : A -> M state B) :
  keeps_pass_invariant s0 c -> (forall a, keeps_pass_invariant s0 (k a)) ->
  keeps_pass_invariant s0 (bind c k).
Proof.
  intros Hc Hk s Hs. unfold bind. specialize (Hc s Hs).
  destruct (c s) as [s1 [a|e]]; simpl in *; [|done]. by apply Hk.
Qed.

Lemma pass_invariant_for_each {A} (s0 : state) (l : list A) (body : A -> M state unit) :
  (forall x, keeps_pass_invariant s0 (body x)) ->
  keeps_pass_invariant s0 (for_each l body).
Proof.
  intros Hbody. induction l as [|x l IH]; simpl.
  - by intros s Hs.
  - apply pass_invariant_bind; [apply Hbody|]. by intros _.
Qed.

Lemma check_output_exists_state (s : state) : fst (Worker._check_output_exists s) = s.
Proof.
  unfold Worker._check_output_exists, Worker.the_job, bind, lift_result, gets, ret.
  destruct (job_info s) as [j|]; [|done]. by destruct (Job.base_dir j).
Qed.

Lemma interval_not_zero : times_job_completed_no_checked <> 0.
Proof. unfold times_job_completed_no_checked. lia. Qed.

Lemma pass_invariant_handle_status (E : environment) (s0 : state) (job_id status : string) :
  keeps_pass_invariant s0 (Worker.handle_status E job_id status).
Proof.
  unfold Worker.handle_status.
  destruct (String.eqb status "queued" || String.eqb status "running").
  { apply quiet_keeps_pass_invariant, keeps_get_results. }
  destruct (String.eqb status "completed");
    [|apply quiet_keeps_pass_invariant, keeps_ret].
  intros s Hs. unfold bind at 1.
  pose proof (check_output_exists_state s) as Hsame.
  destruct (Worker._check_output_exists s) as [s1 [exists_|e]]; simpl in Hsame; subst s1;
    [|done].
  destruct exists_; simpl;
    [|by apply (quiet_keeps_pass_invariant s0 _ (keeps_get_results E job_id))].
  destruct Hs as (new & Ht & Hf & Hc & Hn).
  unfold bind, gets, modify, Worker._get_results. simpl.
  destruct (Nat.eqb (counter s) times_job_completed_no_checked) eqn:Hint; simpl.
  - apply Nat.eqb_eq in Hint.
    exists (new ++ [Forced job_id; Get job_id]). rewrite !existsb_app. simpl.
    rewrite !orb_true_r. rewrite Ht, <- !app_assoc. simpl.
    repeat split; try done. intros _.
    destruct (existsb is_forced new); [|congruence].
    pose proof interval_not_zero. congruence.
  - exists (new ++ [Skipped job_id]). rewrite !existsb_app. simpl.
    rewrite !orb_true_r, !orb_false_r. rewrite Ht, <- app_assoc. by repeat split.
Qed.

Lemma pass_invariant_check_job (E : environment) (s0 : state)
    (jobs : list string) (job_id : string) :
  keeps_pass_invariant s0 (Worker.check_job E jobs job_id).
Proof.
  unfold Worker.check_job.
  apply pass_invariant_bind; [apply quiet_keeps_pass_invariant, keeps_gets|intros fn].
  apply pass_invariant_bind; [apply quiet_keeps_pass_invariant, keeps_on_machine|intros j].
  apply pass_invariant_bind.
  { apply quiet_keeps_pass_invariant, keeps_modify. intros s. by apply quiet_fields. }
  intros _. apply pass_invariant_bind; [apply pass_invariant_handle_status|intros _].
  destruct (Nat.ltb _ _); apply quiet_keeps_pass_invariant;
    [apply keeps_event_loop|apply keeps_ret].
Qed.

(** C3, as stated, fails: a pass that starts with the counter at the interval
    fetches the completed job it finds with its results on disk, and ends with
    the counter at one, not zero. *)
Lemma counter_is_one_after_forced_revalidation :
  existsb is_forced
    (trace (fst (Worker.iteration example_done 1
       (set_counter
          (started (fst (Job.export
                           (set_output (example_job "completed") (Some example_completed))
                           (example_machine "completed"))) true)
          times_job_completed_no_checked))))
  = true
  /\ snd (Worker.iteration example_done 1
       (set_counter
          (started (fst (Job.export
                           (set_output (example_job "completed") (Some example_completed))
                           (example_machine "completed"))) true)
          times_job_completed_no_checked))
     = Ok tt
  /\ counter (fst (Worker.iteration example_done 1
       (set_counter
          (started (fst (Job.export
                           (set_output (example_job "completed") (Some example_completed))
                           (example_machine "completed"))) true)
          times_job_completed_no_checked)))
     = 1.
Proof. vm_compute. repeat split; reflexivity. Qed.

(** C3, amended: over a full pass the counter goes to one if a completed job
    with its results on disk was fetched anyway, which happens only in a pass
    that starts with the counter at the interval; it grows by one if some such
    job was met and none was fetched; it stays as it is if none was met. *)
Theorem pass_counter (E : environment) (jobs : list string) (s s' : state) :
  Worker.check_jobs E jobs s = (s', Ok tt) ->
  exists new,
    trace s' = trace s ++ new
    /\ counter s' = (if existsb is_forced new then 1
                     else if existsb is_skipped new then counter s + 1
                     else counter s)
    /\ (existsb is_forced new = true -> counter s = times_job_completed_no_checked).
Proof.
  unfold Worker.check_jobs. intros Hrun.
  apply bind_inv in Hrun as ([] & s1 & H1 & Hrun).
  unfold modify in H1. injection H1 as <-.
  apply bind_inv in Hrun as ([] & s2 & H2 & Hrun).
  apply bind_inv in Hrun as (f & s2' & Hf & Hrun).
  unfold gets in Hf. injection Hf as <- <-.
  apply bind_inv in Hrun as ([] & s3 & H3 & Hrun).
  assert (Hinv : pass_invariant (set_flag s false) s2).
  { replace s2 with (fst (for_each jobs (Worker.check_job E jobs) (set_flag s false)))
      by by rewrite H2.
    apply pass_invariant_for_each; [intros x; apply pass_invariant_check_job|].
    exists []. simpl. rewrite app_nil_r. by repeat split. }
  destruct Hinv as (new & Ht & Hfl & Hc & Hn). simpl in Ht, Hc, Hn.
  destruct (keeps_event_loop E time_restart_job_checks s3) as (Hc' & _ & q & Hq & Hmarks).
  rewrite Hrun in Hc', Hq. simpl in Hc', Hq.
  exists (new ++ q). rewrite !existsb_app.
  rewrite (existsb_quiet is_forced q), (existsb_quiet is_skipped q), !orb_false_r.
  2: { eapply Forall_impl; [exact Hmarks|]. by intros e [_ ?]. }
  2: { eapply Forall_impl; [exact Hmarks|]. by intros e [? _]. }
  rewrite Hc', Hq. split; [|split; [|done]].
  - rewrite Hfl in H3.
    destruct (existsb is_forced new), (existsb is_skipped new); simpl in H3;
      unfold modify, ret in H3; injection H3 as <-; simpl; by rewrite Ht, app_assoc.
  - rewrite Hfl in H3.
    destruct (existsb is_forced new), (existsb is_skipped new); simpl in H3;
      unfold modify, ret in H3; injection H3 as <-; simpl; rewrite Hc; lia.
Qed.

Lemma pass_counter_witness :
  exists new,
    trace (fst (Worker.check_jobs example_done ["A"; "B"]
       (set_counter
          (started (fst (Job.export
                           (set_output (example_job "completed") (Some example_completed))
                           (example_machine "completed"))) true)
          7)))
    = [] ++ new
    /\ counter (fst (Worker.check_jobs example_done ["A"; "B"]
       (set_counter
          (started (fst (Job.export
                           (set_output (example_job "completed") (Some example_completed))
                           (example_machine "completed"))) true)
          7)))
       = (if existsb is_forced new then 1
          else if existsb is_skipped new then 7 + 1 else 7)
    /\ (existsb is_forced new = true -> 7 = times_job_completed_no_checked).
Proof.
  apply (pass_counter example_done ["A"; "B"]
           (set_counter
              (started (fst (Job.export
                               (set_output (example_job "completed") (Some example_completed))
                               (example_machine "completed"))) true)
              7)).
  vm_compute. reflexivity.
Defined.

(** A pass at counter 7 over [A], whose results are on disk, and [B], whose
    results are not: [A] is left alone, [B] is fetched, the counter goes to 8. *)
Example pass_with_a_skipped_job :
  trace (fst (Worker.check_jobs example_done ["A"; "B"]
       (set_counter
          (started (fst (Job.export
                           (set_output (example_job "completed") (Some example_completed))
                           (example_machine "completed"))) true)
          7)))
  = [Skipped "A"; Sleep 2000; Get "B"; Emit server_up; Sleep 2000; Sleep 5000]
  /\ counter (fst (Worker.check_jobs example_done ["A"; "B"]
       (set_counter
          (started (fst (Job.export
                           (set_output (example_job "completed") (Some example_completed))
                           (example_machine "completed"))) true)
          7)))
     = 8.
Proof. vm_compute. split; reflexivity. Qed.

(** ** C8: a refused connection *)

(** C8, as stated, fails: after the refused fetch of [A] and the
    [server_down] signal, [B] is fetched in the same pass. *)
Lemma fetch_after_server_down :
  fetched_after_server_down
    (trace (fst (Worker.iteration example_refused 1
                   (started (example_machine "queued") true))))
  = ["B"].
Proof. vm_compute. reflexivity. Qed.

Lemma set_computer_same (s : state) : set_computer s (computer s) = s.
Proof. by destruct s. Qed.

Lemma handle_refused (r : network_reply) (s : state) :
  error r = ConnectionRefusedError ->
  Worker._handle_get_response r s = (record s (Emit server_down), Ok tt).
Proof. intros H. unfold Worker._handle_get_response. by rewrite H. Qed.

Lemma count_server_down_app (tr1 tr2 : list event) :
  count_server_down (tr1 ++ tr2) = count_server_down tr1 + count_server_down tr2.
Proof. unfold count_server_down. by rewrite filter_app, length_app. Qed.

Lemma fetched_app (tr1 tr2 : list event) :
  fetched (tr1 ++ tr2) = fetched tr1 ++ fetched tr2.
Proof.
  induction tr1 as [|e tr1 IH]; simpl; [done|]. destruct e; simpl; by rewrite ?IH.
Qed.

(** The event loop when the reply awaited is a refused connection. *)
Lemma event_loop_refused (E : environment) (ms : nat) (s : state) (r : network_reply) :
  reply s = Some r -> error r = ConnectionRefusedError ->
  Worker.event_loop E ms s
  = (if existsb (acknowledged E) (seq (S (clock s)) ms)
     then record
            (set_clock
               (record (set_wait (record (set_reply s None) (Emit server_down)) false)
                  (SetWait false))
               (clock s + ms))
            (Sleep ms)
     else record (set_clock (record (set_reply s None) (Emit server_down)) (clock s + ms))
            (Sleep ms),
     Ok tt).
Proof.
  intros Hr Herr. unfold Worker.event_loop. unfold bind at 1, gets. rewrite Hr.
  unfold bind at 1. unfold bind at 1, modify. rewrite (handle_refused _ _ Herr).
  unfold bind, gets, ret, Worker.wait_status, modify.
  cbn [clock record set_reply].
  by destruct (existsb _ _).
Qed.

(** One job of a pass over several, its record queued or running, when the
    service refuses the connection. *)
Lemma check_job_refused (E : environment) (jobs : list string) (job_id : string)
    (s : state) (j : job) :
  (forall t i, error (service E t i) = ConnectionRefusedError) ->
  1 < List.length jobs -> reply s = None ->
  Job.load (Job.job_fn (computer s) job_id) (computer s) = (computer s, Ok j) ->
  status j = "queued" \/ status j = "running" ->
  exists s' new,
    Worker.check_job E jobs job_id s = (s', Ok tt)
    /\ computer s' = computer s /\ reply s' = None
    /\ server_status s' = server_status s
    /\ trace s' = trace s ++ new
    /\ fetched new = [job_id] /\ count_server_down new = 1.
Proof.
  intros Hdown Hlen Hrep Hload Hst.
  unfold Worker.check_job. unfold bind at 1, gets.
  unfold bind at 1, on_machine. rewrite Hload, set_computer_same.
  unfold bind at 1, modify. unfold bind at 1.
  assert (Hget : Worker.handle_status E job_id (status j) = Worker._get_results E job_id).
  { unfold Worker.handle_status. by destruct Hst as [-> | ->]. }
  rewrite Hget. unfold Worker._get_results, bind at 1, modify.
  apply Nat.ltb_lt in Hlen. rewrite Hlen.
  rewrite (event_loop_refused E _ _ (service E (clock s) job_id)) by (done || apply Hdown).
  cbn [clock record set_reply set_job_info].
  destruct (existsb (acknowledged E) (seq (S (clock s)) time_between_jobs)).
  - eexists _, [Get job_id; Emit server_down; SetWait false; Sleep time_between_jobs].
    split; [reflexivity|].
    cbn [computer reply server_status trace record set_clock set_wait set_reply set_job_info].
    repeat split; try done. by rewrite <- !app_assoc.
  - eexists _, [Get job_id; Emit server_down; Sleep time_between_jobs].
    split; [reflexivity|].
    cbn [computer reply server_status trace record set_clock set_wait set_reply set_job_info].
    repeat split; try done. by rewrite <- !app_assoc.
Qed.

(** C8, amended: a refused connection makes the handler emit [server_down]
    and nothing else; [self.server_status] stays as it is and the pass goes
    on: when the service refuses every connection, each id of the pass whose
    record is queued or running is fetched, and each fetch is answered by one
    [server_down]. *)
Theorem refused_connection_only_notifies (E : environment) (jobs : list string) :
  (forall t i, error (service E t i) = ConnectionRefusedError) ->
  1 < List.length jobs ->
  (forall r s, error r = ConnectionRefusedError ->
     Worker._handle_get_response r s = (record s (Emit server_down), Ok tt))
  /\ forall (l : list string) (s : state),
       reply s = None ->
       (forall i, i ∈ l -> exists j,
          Job.load (Job.job_fn (computer s) i) (computer s) = (computer s, Ok j)
          /\ (status j = "queued" \/ status j = "running")) ->
       exists s' new,
         for_each l (Worker.check_job E jobs) s = (s', Ok tt)
         /\ server_status s' = server_status s
         /\ trace s' = trace s ++ new
         /\ fetched new = l
         /\ count_server_down new = List.length l.
Proof.
  intros Hdown Hlen. split; [apply handle_refused|].
  induction l as [|i l IH]; intros s Hrep Hload.
  - exists s, []. simpl. by rewrite app_nil_r.
  - destruct (Hload i) as (j & Hj & Hst); [by left|].
    destruct (check_job_refused E jobs i s j Hdown Hlen Hrep Hj Hst)
      as (s1 & n1 & Hrun1 & Hcomp & Hrep1 & Hup1 & Ht1 & Hf1 & Hc1).
    destruct (IH s1 Hrep1) as (s' & n2 & Hrun2 & Hup2 & Ht2 & Hf2 & Hc2).
    { intros i' Hi'. rewrite Hcomp. apply Hload. by right. }
    exists s', (n1 ++ n2). simpl. rewrite (bind_ok _ _ _ _ _ Hrun1).
    split; [done|]. split; [congruence|]. split; [by rewrite Ht2, Ht1, app_assoc|].
    rewrite fetched_app, count_server_down_app, Hf1, Hf2, Hc1, Hc2. done.
Qed.

Lemma refused_connection_only_notifies_witness :
  exists s' new,
    for_each ["A"; "B"] (Worker.check_job example_refused ["A"; "B"])
      (started (example_machine "queued") true) = (s', Ok tt)
    /\ server_status s' = true
    /\ trace s' = [] ++ new
    /\ fetched new = ["A"; "B"]
    /\ count_server_down new = 2.
Proof.
  apply (proj2 (refused_connection_only_notifies example_refused ["A"; "B"]
                  (fun _ _ => eq_refl) (ltac:(simpl; lia)))
           ["A"; "B"] (started (example_machine "queued") true) eq_refl).
  intros i Hi. exists (set_id (example_job "queued") None). split.
  - apply list_elem_of_In in Hi. simpl in Hi.
    destruct Hi as [<-|[<-|[]]]; vm_compute; reflexivity.
  - left. reflexivity.
Defined.

(** ** Saving, loading and saving again: names without [.pdb] *)

Lemma is_prefix_cons (a b : ascii) (p s : string) :
  is_prefix (String a p) (String b s) = if Ascii.eqb a b then is_prefix p s else false.
Proof. reflexivity. Qed.

Lemma is_prefix_pdb_app (s : string) :
  s <> "" -> is_prefix ".pdb" s = false -> is_prefix ".pdb" (s +:+ ".pdb") = false.
Proof.
  intros Hne H.
  destruct s as [|a s]; [done|].
  change (String a s +:+ ".pdb") with (String a (s +:+ ".pdb")).
  rewrite is_prefix_cons in *. destruct (Ascii.eqb "." a); [|done].
  destruct s as [|b s]; [reflexivity|].
  change (String b s +:+ ".pdb") with (String b (s +:+ ".pdb")).
  rewrite is_prefix_cons in *. destruct (Ascii.eqb "p" b); [|done].
  destruct s as [|c s]; [reflexivity|].
  change (String c s +:+ ".pdb") with (String c (s +:+ ".pdb")).
  rewrite is_prefix_cons in *. destruct (Ascii.eqb "d" c); [|done].
  destruct s as [|d s]; [reflexivity|].
  change (String d s +:+ ".pdb") with (String d (s +:+ ".pdb")).
  rewrite is_prefix_cons in *. by destruct (Ascii.eqb "b" d).
Qed.

Lemma str_replace_pdb (n : string) :
  contains ".pdb" n = false -> str_replace ".pdb" "" (n +:+ ".pdb") = n.
Proof.
  unfold str_replace. induction n as [|c n IH]; intros H; [done|].
  cbn [contains] in H. apply orb_false_iff in H as [Hp Hc].
  change (String c n +:+ ".pdb") with (String c (n +:+ ".pdb")).
  cbn [replace_from].
  change (String c (n +:+ ".pdb")) with (String c n +:+ ".pdb").
  rewrite is_prefix_pdb_app by done.
  by rewrite IH.
Qed.

Lemma is_table_inv (v : toml_value) : is_table v = true -> exists t, v = VTable t.
Proof. destruct v; try done. eauto. Qed.

(** What [toml.load] reads from the record file of a job. *)
Lemma load_job_file (j : job) :
  settings_ok (id_added_manually j) (settings j) ->
  toml.load (Job.job_file j)
  = Ok ([("title", VStr "KVFinder-web job file"); ("status", VStr (status j))]
        ++ (if id_added_manually j then [("id_added_manually", VBool true)] else [])
        ++ [("files",
             VTable (match pdb j with Some p => [("pdb", VPath p)] | None => [] end
                     ++ match ligand j with Some p => [("ligand", VPath p)] | None => [] end
                     ++ [("output", VPath (output_directory j));
                         ("base_name", VStr (base_name j))]))]
        ++ (if id_added_manually j then [] else settings j)).
Proof.
  intros (v1 & v2 & v3 & v4 & v5 & v6 & Hs & Hv).
  destruct j as [st p l od bn man i ip il se o]. cbn [id_added_manually settings] in *.
  subst se. unfold Job.job_file.
  cbn [status pdb ligand output_directory base_name id_added_manually settings].
  destruct man.
  - repeat match goal with H : Forall _ (_ :: _) |- _ => apply Forall_cons in H as [? H] end.
    subst. destruct p, l; reflexivity.
  - repeat match goal with
           | H : Forall _ (_ :: _) |- _ => apply Forall_cons in H as [[? ?] H]
           end.
    repeat match goal with
           | H : is_table ?v = true |- _ =>
               apply is_table_inv in H as [? ->]
           end.
    unfold toml.load.
    destruct p, l; cbn -[prune];
      repeat match goal with H : prune _ = _ |- _ => rewrite H; clear H end;
      reflexivity.
Qed.

Lemma basename_snoc (d : path) (x : string) : basename (d ++ [x]) = x.
Proof. unfold basename. apply last_last. Qed.

Lemma structure_file_present (od : path) (n : string) (m : machine) c :
  lookup_path (fs m) (od ++ [n +:+ ".pdb"]) = Some (File c) ->
  Job.structure_file od n m = (m, Ok (od ++ [n +:+ ".pdb"])).
Proof.
  intros H. unfold Job.structure_file, bind, gets, ret, os.exists_. by rewrite H.
Qed.

Lemma add_pdb_present (p : path) (m : machine) c :
  lookup_path (fs m) p = Some (File c) -> Job._add_pdb p m = (m, Ok c).
Proof.
  intros H. unfold Job._add_pdb, on_disk, os.read. by rewrite H, set_fs_same.
Qed.

Lemma save_home (self : job) (id : option string) m m' r :
  Job.save self id m = (m', r) -> home m' = home m.
Proof.
  unfold Job.save, Job.save_open, bind, gets, ret, pass_FileExistsError, on_disk,
    os.close_w, modify.
  destruct (os.mkdir _ (fs m)) as [fs1 [[]|e]]; simpl.
  - destruct (os.open_w _ fs1) as [fs2 [[]|e]]; simpl; intros H; by simplify_eq.
  - destruct e; simpl; try (intros H; by simplify_eq).
    destruct (os.open_w _ fs1) as [fs2 [[]|e]]; simpl; intros H; by simplify_eq.
Qed.

(** Saving a job over the record file that holds it already changes nothing. *)
Lemma save_again (self : job) (id : string) (m : machine) :
  lookup_path (fs m) (Job.job_fn m id) = Some (File (Job.job_file self)) ->
  Job.save self (Some id) m = (m, Ok tt).
Proof.
  intros Hfile. unfold Job.job_fn in Hfile.
  assert (exists mj, lookup_path (fs m) (Job.job_dn m id) = Some (Dir mj)
                     /\ mj !! "job.toml" = Some (File (Job.job_file self))) as (mj & Hdn & Hj).
  { rewrite lookup_path_app in Hfile.
    destruct (lookup_path (fs m) (Job.job_dn m id)) as [[c|mj]|]; simpl in Hfile; try done.
    exists mj. split; [done|]. by destruct (mj !! "job.toml"). }
  unfold Job.save, Job.save_open. unfold bind at 1 2, gets. simpl.
  unfold bind at 1. unfold Job.job_dn in *.
  rewrite (mkdir_pass_existing _ _ _ _ Hdn).
  unfold bind, ret, on_disk, os.open_w, os.close_w, modify.
  rewrite (parent_snoc _ _ _ _ Hdn), Hj. simpl.
  rewrite (put_snoc _ (jobs_dir m ++ [id]) "job.toml" (<["job.toml":=File []]> mj)).
  - rewrite put_put, insert_insert_eq, (insert_id mj _ _ Hj).
    rewrite (put_same _ _ _ Hdn). by destruct m.
  - apply lookup_put. eauto.
  - rewrite lookup_insert_eq. eauto.
Qed.

(** After a save that completes, the record file holds the record. *)
Lemma save_record_file (self : job) (id : option string) m m' :
  Job.save self id m = (m', Ok tt) ->
  lookup_path (fs m') (Job.job_fn m (str_id id)) = Some (File (Job.job_file self)).
Proof.
  unfold Job.save. unfold bind at 1.
  destruct (Job.save_open id m) as [m1 [fn|e]] eqn:Hop; [|done].
  destruct (save_open_ok _ _ _ _ Hop) as (-> & Hh & Hempty).
  unfold on_disk, os.close_w, modify. intros H. simplify_eq. simpl.
  apply lookup_put. eauto.
Qed.

(** X21: Saving, loading and saving again writes the same record file for a
    record as [upload] builds it from names that do not contain [.pdb], when
    the strings of the record are plain, so that [toml.load] reads them back
    as [save] wrote them. *)
Lemma save_load_save_same (j : job) (id : string) (m m1 : machine) :
  plain_record j = true ->
  Job.save j (Some id) m = (m1, Ok tt) ->
  structure_ok (fs m1) (output_directory j) (pdb j) ->
  structure_ok (fs m1) (output_directory j) (ligand j) ->
  settings_ok (id_added_manually j) (settings j) ->
  exists j',
    Job.load (Job.job_fn m1 id) m1 = (m1, Ok j')
    /\ Job.job_file j' = Job.job_file j
    /\ Job.save j' (Some id) m1 = (m1, Ok tt).
Proof.
  intros _ Hsave Hp Hl Hset.
  pose proof (save_record_file _ _ _ _ Hsave) as Hfile.
  assert (Hfn : Job.job_fn m1 id = Job.job_fn m id).
  { unfold Job.job_fn, Job.job_dn, jobs_dir. by rewrite (save_home _ _ _ _ _ Hsave). }
  simpl in Hfile. rewrite <- Hfn in Hfile.
  cut (exists j', Job.load (Job.job_fn m1 id) m1 = (m1, Ok j')
                  /\ Job.job_file j' = Job.job_file j).
  { intros (j' & Hload & Hsame). exists j'. split; [done|]. split; [done|].
    apply save_again. by rewrite Hsame. }
  unfold Job.load. unfold bind at 1, on_disk, os.read. rewrite Hfile, set_fs_same.
  unfold bind at 1, lift_result. rewrite (load_job_file j Hset).
  destruct Hset as (v1 & v2 & v3 & v4 & v5 & v6 & Hs & Hv).
  destruct j as [st p l od bn man i ip il se o].
  cbn [status pdb ligand output_directory base_name id_added_manually settings] in *.
  subst se.
  assert (Hnone : man = true -> v1 = VNone /\ v2 = VNone /\ v3 = VNone
                                 /\ v4 = VNone /\ v5 = VNone /\ v6 = VNone).
  { intros ->.
    repeat match goal with H : Forall _ (_ :: _) |- _ => apply Forall_cons in H as [? H] end.
    done. }
  destruct p as [p|], l as [l|];
    try destruct Hp as (n & c & -> & Hn & Hpf);
    try destruct Hl as (n' & c' & -> & Hn' & Hlf);
    destruct man;
    try (destruct Hnone as (-> & -> & -> & -> & -> & ->); [done|]);
    cbn -[str_replace basename Job.structure_file Job._add_pdb];
    rewrite ?basename_snoc, ?str_replace_pdb by done;
    cbn -[str_replace basename Job.structure_file Job._add_pdb];
    repeat (unfold bind, lift_result, ret, Job.upload_text;
            first [ rewrite (structure_file_present _ _ _ _ Hpf)
                  | rewrite (structure_file_present _ _ _ _ Hlf)
                  | rewrite (add_pdb_present _ _ _ Hpf)
                  | rewrite (add_pdb_present _ _ _ Hlf) ];
            cbn -[str_replace basename Job.structure_file Job._add_pdb]);
    (eexists; split; reflexivity).
Qed.

(** ** C5: saving, loading and saving again *)

(** For the object [x] the second save writes the record the first one wrote. *)
Example round_trip_of_a_plain_name :
  exists f, save_load_save "x" "42" form_machine = Ok (Some f, Some f).
Proof. eexists. vm_compute. reflexivity. Qed.

(** C5 fails on the code for an object whose name contains [.pdb]: [load]
    strips every [.pdb] from the file name, the job read back points to
    another structure file, and the second save writes another record. *)
Theorem round_trip_fails_for_name_with_pdb :
  str_replace ".pdb" "" "a.pdb.pdb" = "a"
  /\ exists f1 f2,
       save_load_save "a.pdb" "42" form_machine = Ok (Some (File f1), Some (File f2))
       /\ In (KeyVal "pdb" (VPath ["out"; "a.pdb.pdb"])) f1
       /\ In (KeyVal "pdb" (VPath ["out"; "a.pdb"])) f2
       /\ f1 <> f2.
Proof.
  split; [reflexivity|]. eexists _, _. split; [vm_compute; reflexivity|].
  split; [|split].
  - simpl. tauto.
  - simpl. tauto.
  - discriminate.
Qed.

(** When the directory holds no file with the stripped name, [load] of the
    saved record raises. *)
Example load_raises_for_name_with_pdb :
  save_load_save "a.pdb" "42"
    {| fs := Dir {[ "home" := Dir {[ ".KVFinder-web" := Dir ∅ ]}; "out" := Dir ∅ ]};
       home := ["home"]; stdout_open := true;
       objects := {[ "a.pdb" := "ATOM a" ]} |}
  = Raise FileNotFoundError.
Proof. vm_compute. reflexivity. Qed.

(** * Further properties of the job store, the records and the worker *)

(** ** Listing a directory *)

Lemma elem_of_listing (m : gmap string node) (i : string) :
  i ∈ (map_to_list m).*1 <-> is_Some (m !! i).
Proof.
  split.
  - intros Hin. apply list_elem_of_fmap in Hin as ([y c] & -> & Hin).
    apply elem_of_map_to_list in Hin. eauto.
  - intros [c Hc]. apply list_elem_of_fmap. exists (i, c). split; [done|].
    by apply elem_of_map_to_list.
Qed.

(** ** What [save] leaves on the disk *)

Lemma mkdir_pass_ok (d : path) (x : string) (m m2 : machine) :
  pass_FileExistsError (on_disk (os.mkdir (d ++ [x]))) m = (m2, Ok tt) ->
  exists mm,
    lookup_path (fs m) d = Some (Dir mm)
    /\ (mm !! x = None /\ m2 = set_fs m (put (fs m) d (Dir (<[x := Dir ∅]> mm)))
        \/ is_Some (mm !! x) /\ m2 = m).
Proof.
  unfold pass_FileExistsError, on_disk, os.mkdir, os.parent.
  rewrite split_last_snoc.
  destruct (lookup_path (fs m) d) as [[c|mm]|] eqn:Hd; [done| |done].
  intros H. exists mm. split; [done|].
  destruct (mm !! x) as [c|] eqn:Hx.
  - right. split; [eauto|]. rewrite set_fs_same in H. by simplify_eq.
  - left. split; [done|]. by simplify_eq.
Qed.

Lemma open_w_ok (d : path) (x : string) fs fs' :
  os.open_w (d ++ [x]) fs = (fs', Ok tt) ->
  exists md,
    lookup_path fs d = Some (Dir md)
    /\ (forall md', md !! x <> Some (Dir md'))
    /\ fs' = put fs d (Dir (<[x := File []]> md)).
Proof.
  unfold os.open_w, os.parent. rewrite split_last_snoc.
  destruct (lookup_path fs d) as [[c|md]|] eqn:Hd; [done| |done].
  intros H. exists md. split; [done|].
  destruct (md !! x) as [[c|md']|] eqn:Hx; [|done|]; split; try done; by simplify_eq.
Qed.

(** A save that completes found [~/.KVFinder-web] a directory and the
    subdirectory of the id absent or a directory; it leaves the disk as it
    was but for the record file. *)
Lemma save_result (self : job) (id : string) (m m' : machine) :
  Job.save self (Some id) m = (m', Ok tt) ->
  exists mm md0,
    lookup_path (fs m) (jobs_dir m) = Some (Dir mm)
    /\ (mm !! id = None /\ md0 = ∅ \/ mm !! id = Some (Dir md0))
    /\ m' = set_fs m (put (fs m) (jobs_dir m)
               (Dir (<[id := Dir (<["job.toml" := File (Job.job_file self)]> md0)]> mm))).
Proof.
  unfold Job.save. intros H.
  apply bind_inv in H as (fn & m3 & Hop & Hcl).
  unfold Job.save_open in Hop.
  apply bind_inv in Hop as (jd & m1 & Hjd & Hop).
  unfold gets in Hjd. injection Hjd as <- <-. cbn [str_id] in Hop.
  apply bind_inv in Hop as ([] & m2 & Hmk & Hop).
  apply bind_inv in Hop as ([] & m3' & Hop & Hret).
  unfold ret in Hret. injection Hret as <- <-.
  unfold Job.job_dn in *.
  apply mkdir_pass_ok in Hmk as (mm & Hmm & Hmk).
  exists mm.
  unfold on_disk in Hop. destruct (os.open_w _ (fs m2)) as [fs3 r] eqn:Hopen.
  injection Hop as <- ->.
  apply open_w_ok in Hopen as (md & Hmd & Hnd & ->).
  unfold on_disk, os.close_w, modify in Hcl. cbn [fs set_fs] in Hcl.
  injection Hcl as <-.
  assert (Hwr : forall F,
    is_Some (lookup_path F (jobs_dir m ++ [id])) ->
    put (put F (jobs_dir m ++ [id]) (Dir (<["job.toml":=File []]> md)))
      ((jobs_dir m ++ [id]) ++ ["job.toml"]) (File (Job.job_file self))
    = put F (jobs_dir m ++ [id]) (Dir (<["job.toml":=File (Job.job_file self)]> md))).
  { intros F HF.
    rewrite (put_snoc _ (jobs_dir m ++ [id]) "job.toml" (<["job.toml":=File []]> md))
      by (try apply lookup_put; rewrite ?lookup_insert_eq; eauto).
    by rewrite put_put, insert_insert_eq. }
  destruct Hmk as [[Hid ->]|[[c Hid] ->]]; cbn [fs set_fs] in *.
  - rewrite (lookup_path_snoc _ _ _ (<[id:=Dir ∅]> mm)) in Hmd
      by (apply lookup_put; eauto).
    rewrite lookup_insert_eq in Hmd. injection Hmd as <-.
    exists ∅. split; [done|]. split; [by left|].
    unfold set_fs. cbn [fs home stdout_open objects]. f_equal.
    rewrite Hwr.
    + rewrite (put_snoc _ (jobs_dir m) id (<[id:=Dir ∅]> mm))
        by (try apply lookup_put; rewrite ?lookup_insert_eq; eauto).
      by rewrite put_put, insert_insert_eq.
    + rewrite (lookup_path_snoc _ _ _ (<[id:=Dir ∅]> mm)) by (apply lookup_put; eauto).
      rewrite lookup_insert_eq. eauto.
  - rewrite (lookup_path_snoc _ _ _ _ Hmm), Hid in Hmd. injection Hmd as ->.
    exists md. split; [done|]. split; [by right|].
    unfold set_fs. cbn [fs home stdout_open objects]. f_equal.
    rewrite Hwr.
    + by rewrite (put_snoc _ (jobs_dir m) id mm) by eauto.
    + rewrite (lookup_path_snoc _ _ _ _ Hmm), Hid. eauto.
Qed.

(** X1: [save] registers the job: once it has completed, [_get_jobs] lists the id
    beside the ids it listed before, and no other. *)
Theorem save_registers_the_job (self : job) (id : string) (m m' : machine) :
  Job.save self (Some id) m = (m', Ok tt) ->
  exists before after,
    _get_jobs m = (m, Ok before)
    /\ _get_jobs m' = (m', Ok after)
    /\ forall i, i ∈ after <-> i = id \/ i ∈ before.
Proof.
  intros Hsave. destruct (save_result _ _ _ _ Hsave) as (mm & md0 & Hmm & _ & ->).
  eexists _, _. split; [by apply get_jobs_ok|]. split.
  - apply get_jobs_ok. cbn [fs set_fs jobs_dir home]. apply lookup_put. eauto.
  - intros i. rewrite !elem_of_listing. destruct (decide (i = id)) as [->|Hne].
    + rewrite lookup_insert_eq. split; eauto.
    + rewrite lookup_insert_ne by done. split; [eauto|]. by intros [?|?].
Qed.

Lemma save_registers_the_job_witness :
  exists before after,
    _get_jobs (example_machine "queued") = (example_machine "queued", Ok before)
    /\ _get_jobs (fst (Job.save (example_job "running") (Some "C") (example_machine "queued")))
       = (fst (Job.save (example_job "running") (Some "C") (example_machine "queued")),
          Ok after)
    /\ forall i, i ∈ after <-> i = "C" \/ i ∈ before.
Proof.
  apply (save_registers_the_job (example_job "running") "C" (example_machine "queued")).
  vm_compute. reflexivity.
Defined.

(** X2: [save] writes the record file and nothing else: the directories of the
    other jobs, and the other files in the directory of this one, are as they
    were. *)
Theorem save_keeps_the_other_files (self : job) (id : string) (m m' : machine) :
  Job.save self (Some id) m = (m', Ok tt) ->
  lookup_path (fs m') (Job.job_fn m id) = Some (File (Job.job_file self))
  /\ (forall other q, other <> id ->
        lookup_path (fs m') (jobs_dir m ++ other :: q)
        = lookup_path (fs m) (jobs_dir m ++ other :: q))
  /\ (forall n q, n <> "job.toml" ->
        lookup_path (fs m') (Job.job_dn m id ++ n :: q)
        = lookup_path (fs m) (Job.job_dn m id ++ n :: q)).
Proof.
  intros Hsave. split; [apply (save_record_file _ _ _ _ Hsave)|].
  destruct (save_result _ _ _ _ Hsave) as (mm & md0 & Hmm & Hid & ->).
  cbn [fs set_fs]. split.
  - intros other q Hne. rewrite (lookup_put_dir _ _ _ _ _ _ Hmm).
    rewrite lookup_insert_ne by done.
    by rewrite lookup_path_app, Hmm.
  - intros n q Hne. unfold Job.job_dn. rewrite <- !app_assoc. cbn [app].
    rewrite (lookup_put_dir _ _ _ _ _ _ Hmm), lookup_insert_eq.
    rewrite lookup_path_app, Hmm. cbn [lookup_path].
    rewrite lookup_insert_ne by done.
    destruct Hid as [[-> ->]| ->]; [by rewrite lookup_empty|done].
Qed.

Lemma save_keeps_the_other_files_witness :
  lookup_path
    (fs (fst (Job.save (example_job "running") (Some "A") (example_machine "queued"))))
    ["home"; ".KVFinder-web"; "A"; "job.toml"]
  = Some (File (Job.job_file (example_job "running")))
  /\ lookup_path
       (fs (fst (Job.save (example_job "running") (Some "A") (example_machine "queued"))))
       ["home"; ".KVFinder-web"; "B"; "job.toml"]
     = Some (File (example_record "queued")).
Proof.
  destruct (save_keeps_the_other_files (example_job "running") "A"
              (example_machine "queued")
              (fst (Job.save (example_job "running") (Some "A") (example_machine "queued"))))
    as (Hrec & Hother & _).
  - vm_compute. reflexivity.
  - split; [exact Hrec|].
    change ["home"; ".KVFinder-web"; "B"; "job.toml"]
      with (jobs_dir (example_machine "queued") ++ "B" :: ["job.toml"]).
    rewrite Hother by done. vm_compute. reflexivity.
Defined.

(** ** Without the directory [~/.KVFinder-web] *)

(** X3: When the home directory holds no [.KVFinder-web], [_get_jobs] and [save]
    raise [FileNotFoundError] and leave the disk as it is; [run] does not
    catch it: the first turn of the worker ends with that exception, before
    any signal and any request. *)
Theorem run_without_jobs_dir (E : environment) (fuel : nat) (m : machine) (up : bool)
    (mh : gmap string node) :
  lookup_path (fs m) (home m) = Some (Dir mh) ->
  mh !! ".KVFinder-web" = None ->
  _get_jobs m = (m, Raise FileNotFoundError)
  /\ (forall self id, Job.save self id m = (m, Raise FileNotFoundError))
  /\ Worker.run E (S (S fuel)) (started m up) = (started m up, Raise FileNotFoundError).
Proof.
  intros Hh Hj.
  assert (Hjd : lookup_path (fs m) (jobs_dir m) = None).
  { unfold jobs_dir. by rewrite (lookup_path_snoc _ _ _ _ Hh). }
  assert (Hget : _get_jobs m = (m, Raise FileNotFoundError)).
  { unfold _get_jobs, bind, gets, on_disk, os.listdir. by rewrite Hjd, set_fs_same. }
  split; [done|]. split.
  - intros self id. unfold Job.save, Job.save_open. unfold bind at 1 2, gets.
    unfold bind at 1. unfold Job.job_dn, pass_FileExistsError, on_disk, os.mkdir, os.parent.
    by rewrite split_last_snoc, Hjd, set_fs_same.
  - unfold Worker.run, bind, modify. cbn [Worker.while_True].
    unfold Worker.iteration. unfold bind at 1 2. rewrite while_wait_unfold.
    cbn [started wait set_counter]. unfold Worker.discover. unfold bind at 1 2.
    unfold on_machine. change (computer (set_counter (started m up) 0)) with m.
    by rewrite Hget.
Qed.

Lemma run_without_jobs_dir_witness :
  snd (Worker.run example_done 2
         (started {| fs := Dir {[ "home" := Dir ∅ ]}; home := ["home"];
                     stdout_open := true; objects := ∅ |} true))
  = Raise FileNotFoundError.
Proof.
  destruct (run_without_jobs_dir example_done 0
              {| fs := Dir {[ "home" := Dir ∅ ]}; home := ["home"];
                 stdout_open := true; objects := ∅ |} true ∅) as (_ & _ & ->);
    reflexivity.
Defined.

(** ** The job that [upload] and [load] build *)

Lemma dict_get_set_eq (d : dict) (k : string) (v : toml_value) :
  dict_get (dict_set d k v) k = Some v.
Proof.
  induction d as [|[k' v'] d IH]; simpl.
  - by rewrite String.eqb_refl.
  - destruct (String.eqb k' k) eqn:Hk; simpl.
    + by rewrite String.eqb_refl.
    + by rewrite Hk.
Qed.

Lemma dict_get_set_ne (d : dict) (k k' : string) (v : toml_value) :
  k <> k' -> dict_get (dict_set d k v) k' = dict_get d k'.
Proof.
  intros Hne. induction d as [|[k0 v0] d IH]; simpl.
  - by apply String.eqb_neq in Hne as ->.
  - destruct (String.eqb k0 k) eqn:Hk; simpl.
    + apply String.eqb_eq in Hk as ->. by apply String.eqb_neq in Hne as ->.
    + by rewrite IH.
Qed.

Lemma lift_result_inv {S A} (r : result A) (s s' : S) (a : A) :
  lift_result r s = (s', Ok a) -> r = Ok a /\ s' = s.
Proof. unfold lift_result. intros H. by simplify_eq. Qed.

Lemma getitem_inv (d : dict) (k : string) (v : toml_value) :
  getitem d k = Ok v -> dict_get d k = Some v.
Proof. unfold getitem. destruct (dict_get d k); intros H; by simplify_eq. Qed.

Lemma bind_result_inv {A B} (r : result A) (k : A -> result B) (b : B) :
  bind_result r k = Ok b -> exists a, r = Ok a /\ k a = Ok b.
Proof. destruct r as [a|e]; simpl; [eauto|done]. Qed.

Lemma get_str_inv (d : dict) (k x : string) :
  (let? v := getitem d k in as_str v) = Ok x -> dict_get d k = Some (VStr x).
Proof.
  intros H. apply bind_result_inv in H as (v & Hv & Hx).
  apply getitem_inv in Hv. destruct v; simpl in Hx; by simplify_eq.
Qed.

Lemma get_table_inv (d : dict) (k : string) (t : dict) :
  (let? v := getitem d k in as_table v) = Ok t -> dict_get d k = Some (VTable t).
Proof.
  intros H. apply bind_result_inv in H as (v & Hv & Hx).
  apply getitem_inv in Hv. destruct v; simpl in Hx; by simplify_eq.
Qed.

Lemma get_path_inv (d : dict) (k : string) (p : path) :
  (let? v := getitem d k in as_path v) = Ok p ->
  exists v, dict_get d k = Some v /\ as_path v = Ok p.
Proof.
  intros H. apply bind_result_inv in H as (v & Hv & Hx).
  apply getitem_inv in Hv. eauto.
Qed.

(** What a call of [upload] that returns has read in [parameters], and the
    steps it has made on the machine. *)
Lemma upload_inv (parameters : dict) (self : job) (m m' : machine) (j : job) :
  Job.upload parameters self m = (m', Ok j) ->
  dict_get parameters "status" = Some (VStr (status j))
  /\ id_added_manually j
     = match dict_get parameters "id_added_manually" with
       | Some v => if truthy v then true else id_added_manually self
       | None => id_added_manually self
       end
  /\ (exists v1 v2 v3 v4 v5 v6,
        dict_get parameters "modes" = Some v1
        /\ dict_get parameters "step_size" = Some v2
        /\ dict_get parameters "probes" = Some v3
        /\ dict_get parameters "cutoffs" = Some v4
        /\ dict_get parameters "visiblebox" = Some v5
        /\ dict_get parameters "internalbox" = Some v6
        /\ settings j = [("modes", v1); ("step_size", v2); ("probes", v3);
                         ("cutoffs", v4); ("visiblebox", v5); ("internalbox", v6)])
  /\ id j = id self /\ output j = output self
  /\ exists files v m1 m2 m3,
       dict_get parameters "files" = Some (VTable files)
       /\ dict_get files "output" = Some v /\ as_path v = Ok (output_directory j)
       /\ dict_get files "base_name" = Some (VStr (base_name j))
       /\ Job.upload_structure files "pdb" (output_directory j) (pdb self) m
          = (m1, Ok (pdb j))
       /\ Job.upload_structure files "ligand" (output_directory j) (ligand self) m1
          = (m2, Ok (ligand j))
       /\ Job.upload_text (pdb j) (input_pdb self) m2 = (m3, Ok (input_pdb j))
       /\ Job.upload_text (ligand j) (input_pdb_ligand self) m3
          = (m', Ok (input_pdb_ligand j)).
Proof.
  unfold Job.upload. intros H.
  repeat (apply bind_inv in H as (? & ? & ? & H)).
  repeat match goal with
         | H : lift_result _ _ = _ |- _ => apply lift_result_inv in H as [H ->]
         end.
  unfold ret in H. injection H as <- <-. cbn [status id_added_manually settings id output
    output_directory base_name pdb ligand input_pdb input_pdb_ligand].
  repeat match goal with
         | H : getitem _ _ = Ok _ |- _ => apply getitem_inv in H
         | H : (let? v := getitem _ _ in as_str v) = Ok _ |- _ => apply get_str_inv in H
         | H : (let? v := getitem _ _ in as_table v) = Ok _ |- _ =>
             apply get_table_inv in H
         | H : (let? v := getitem _ _ in as_path v) = Ok _ |- _ =>
             apply get_path_inv in H as (? & ? & ?)
         end.
  split; [done|]. split; [done|]. split; [by eexists _, _, _, _, _, _|].
  split; [done|]. split; [done|]. by eexists _, _, _, _, _.
Qed.

(** X4: A job that [load] returns as manually added has no settings: the six
    entries are [None], whatever the record file holds. *)
Theorem loaded_manual_job_has_no_settings (fn : path) (m m' : machine) (j : job) :
  Job.load fn m = (m', Ok j) ->
  id_added_manually j = true ->
  settings j = [("modes", VNone); ("step_size", VNone); ("probes", VNone);
                ("cutoffs", VNone); ("visiblebox", VNone); ("internalbox", VNone)].
Proof.
  unfold Job.load. intros H Hman.
  do 5 (apply bind_inv in H as (? & ? & ? & H)).
  unfold Job.__init__ in H. apply upload_inv in H as (_ & Hm & Hs & _).
  rewrite Hman in Hm. cbn [id_added_manually] in Hm.
  destruct Hs as (v1 & v2 & v3 & v4 & v5 & v6 & G1 & G2 & G3 & G4 & G5 & G6 & ->).
  destruct (dict_get (dict_set _ "files" _) "id_added_manually") as [v|] eqn:Hv;
    [destruct (truthy v) eqn:Ht|].
  - repeat first [ rewrite dict_get_set_eq in G1 | rewrite dict_get_set_ne in G1 by done ].
    repeat first [ rewrite dict_get_set_eq in G2 | rewrite dict_get_set_ne in G2 by done ].
    repeat first [ rewrite dict_get_set_eq in G3 | rewrite dict_get_set_ne in G3 by done ].
    repeat first [ rewrite dict_get_set_eq in G4 | rewrite dict_get_set_ne in G4 by done ].
    repeat first [ rewrite dict_get_set_eq in G5 | rewrite dict_get_set_ne in G5 by done ].
    repeat first [ rewrite dict_get_set_eq in G6 | rewrite dict_get_set_ne in G6 by done ].
    by simplify_eq.
  - by rewrite Hv, Ht in Hm.
  - by rewrite Hv in Hm.
Qed.

Lemma loaded_manual_job_has_no_settings_witness :
  exists j,
    snd (Job.load ["home"; ".KVFinder-web"; "A"; "job.toml"] (example_machine "queued"))
    = Ok j
    /\ settings j = [("modes", VNone); ("step_size", VNone); ("probes", VNone);
                     ("cutoffs", VNone); ("visiblebox", VNone); ("internalbox", VNone)].
Proof.
  eexists. split; [vm_compute; reflexivity|].
  eapply (loaded_manual_job_has_no_settings
            ["home"; ".KVFinder-web"; "A"; "job.toml"] (example_machine "queued")).
  - vm_compute. reflexivity.
  - reflexivity.
Defined.

(** ** Files that stay as they are *)

(** A file at [q] stays when the node at [p] is replaced, if it is in the new
    node wherever [q] is below [p]. *)
Lemma lookup_put_file (p : path) : forall fs n (q : path) c,
  lookup_path fs q = Some (File c) ->
  (forall r, q = p ++ r -> lookup_path n r = Some (File c)) ->
  lookup_path (put fs p n) q = Some (File c).
Proof.
  induction p as [|x p IH]; intros fs n q c Hq Hn; simpl.
  - by apply Hn.
  - destruct fs as [t|m]; [done|]. destruct (m !! x) as [c0|] eqn:Hx; [|done].
    destruct q as [|y q]; [done|]. simpl in *.
    destruct (decide (y = x)) as [->|Hne].
    + rewrite lookup_insert_eq. rewrite Hx in Hq. apply IH; [done|].
      intros r ->. by apply Hn.
    + by rewrite lookup_insert_ne.
Qed.

Lemma lookup_below_file fs (p : path) t (y : string) (r : path) :
  lookup_path fs p = Some (File t) -> lookup_path fs (p ++ y :: r) = None.
Proof. intros H. by rewrite lookup_path_app, H. Qed.

(** [open(p, "w")] and the writes that follow leave every other file as it is. *)
Lemma with_open_w_keeps_file (p q : path) (body : list token * result unit) fs c :
  lookup_path fs q = Some (File c) -> p <> q ->
  lookup_path (fst (os.with_open_w p body fs)) q = Some (File c).
Proof.
  intros Hq Hne. unfold os.with_open_w, bind.
  destruct (os.open_w p fs) as [fs1 [[]|e]] eqn:Hop.
  - assert (Hq1 : lookup_path fs1 q = Some (File c)).
    { unfold os.open_w, os.parent in Hop.
      destruct (split_last p) as [[d x]|] eqn:Hp; [|done].
      apply split_last_Some in Hp as ->.
      destruct (lookup_path fs d) as [[t|m]|] eqn:Hd; [done| |done].
      assert (Hkeep : lookup_path (put fs d (Dir (<[x:=File []]> m))) q = Some (File c)
                      \/ exists md, m !! x = Some (Dir md)).
      { destruct (m !! x) as [[t|md]|] eqn:Hx; [| right; eauto |].
        - left. apply lookup_put_file; [done|]. intros r ->.
          rewrite lookup_path_app, Hd in Hq. destruct r as [|y r]; [done|].
          simpl in *. destruct (decide (y = x)) as [->|Hy].
          + rewrite Hx in Hq. destruct r; [done|]. done.
          + by rewrite lookup_insert_ne.
        - left. apply lookup_put_file; [done|]. intros r ->.
          rewrite lookup_path_app, Hd in Hq. destruct r as [|y r]; [done|].
          simpl in *. destruct (decide (y = x)) as [->|Hy].
          + by rewrite Hx in Hq.
          + by rewrite lookup_insert_ne. }
      destruct Hkeep as [Hkeep|[md Hmd]].
      - destruct (m !! x) as [[t|md]|]; by simplify_eq.
      - rewrite Hmd in Hop. by simplify_eq. }
    unfold os.close_w, modify, lift_result. simpl.
    apply lookup_put_file; [done|]. intros r ->.
    destruct r as [|y r]; [by rewrite app_nil_r in Hne|].
    by rewrite (lookup_below_file _ _ _ _ _ (open_w_empty _ _ _ Hop)) in Hq1.
  - simpl. unfold os.open_w in Hop. destruct (os.parent fs p) as [[[d x] m]|e']; [|by simplify_eq].
    destruct (m !! x) as [[t|md]|]; by simplify_eq.
Qed.

(** [os.mkdir] leaves every file as it is. *)
Lemma mkdir_keeps_file (p q : path) fs c :
  lookup_path fs q = Some (File c) ->
  lookup_path (fst (os.mkdir p fs)) q = Some (File c).
Proof.
  intros Hq. unfold os.mkdir, os.parent.
  destruct (split_last p) as [[d x]|] eqn:Hp; [|done].
  apply split_last_Some in Hp as ->.
  destruct (lookup_path fs d) as [[t|m]|] eqn:Hd; [done| |done].
  destruct (m !! x) as [c0|] eqn:Hx; [done|]. simpl.
  apply lookup_put_file; [done|]. intros r ->.
  rewrite lookup_path_app, Hd in Hq. destruct r as [|y r]; [done|].
  simpl in *. destruct (decide (y = x)) as [->|Hy].
  - by rewrite Hx in Hq.
  - by rewrite lookup_insert_ne.
Qed.

(** ** The structure that [upload] sends *)

Lemma on_disk_fst {A} (op : M node A) (m : machine) :
  fs (fst (on_disk op m)) = fst (op (fs m)).
Proof. unfold on_disk. by destruct (op (fs m)). Qed.

Lemma structure_file_keeps_file (od : path) (n : string) (m : machine) (q : path) c :
  lookup_path (fs m) q = Some (File c) ->
  lookup_path (fs (fst (Job.structure_file od n m))) q = Some (File c).
Proof.
  intros Hq. unfold Job.structure_file, bind, gets, ret, os.exists_.
  destruct (lookup_path (fs m) (od ++ [n +:+ ".pdb"])) as [c0|] eqn:Hfn; simpl; [done|].
  destruct (bool_decide _); simpl; [|done].
  unfold Job.cmd_save, bind, gets. destruct (objects m !! n) as [t|]; simpl; [|done].
  assert (Hkeep : lookup_path (fs (fst (on_disk
            (os.with_open_w (od ++ [n +:+ ".pdb"]) ([Text t], Ok ())) m))) q
          = Some (File c)).
  { rewrite on_disk_fst. apply with_open_w_keeps_file; [done|].
    intros Heq. rewrite Heq in Hfn. congruence. }
  by destruct (on_disk _ m) as [m1 [[]|e]].
Qed.

Lemma upload_structure_keeps_file (files : dict) (key : string) (od : path)
    (current : option path) (m : machine) (q : path) c :
  lookup_path (fs m) q = Some (File c) ->
  lookup_path (fs (fst (Job.upload_structure files key od current m))) q = Some (File c).
Proof.
  intros Hq. unfold Job.upload_structure.
  destruct (dict_get files key) as [v|]; [|done].
  assert (Hgen : lookup_path (fs (fst
      ((let* name := lift_result (as_str v) in
        let* fn := Job.structure_file od name in ret (Some fn)) m))) q = Some (File c)).
  { unfold bind, lift_result, ret. destruct (as_str v) as [name|e]; [|done].
    pose proof (structure_file_keeps_file od name m q c Hq) as Hk.
    by destruct (Job.structure_file od name m) as [m1 [fn|e]]. }
  by destruct v.
Qed.

Lemma upload_text_fs (fn : option path) (current : option (list token)) (m : machine) :
  fs (fst (Job.upload_text fn current m)) = fs m.
Proof.
  unfold Job.upload_text. destruct fn as [p|]; [|done].
  unfold bind, Job._add_pdb, on_disk, os.read, ret.
  by destruct (lookup_path (fs m) p) as [[t|md]|].
Qed.

(** X5: [upload] sends the structure file it finds in the output directory: when
    the file of the name is there, it is left as it is and its text is what
    goes to the service, whatever the object of that name in PyMOL holds. *)
Theorem upload_sends_the_file_on_disk (parameters : dict) (self : job)
    (m m' : machine) (j : job) (files : dict) (name : string) (c : list token) :
  Job.upload parameters self m = (m', Ok j) ->
  dict_get parameters "files" = Some (VTable files) ->
  dict_get files "pdb" = Some (VStr name) ->
  lookup_path (fs m) (output_directory j ++ [name +:+ ".pdb"]) = Some (File c) ->
  pdb j = Some (output_directory j ++ [name +:+ ".pdb"])
  /\ input_pdb j = Some c
  /\ lookup_path (fs m') (output_directory j ++ [name +:+ ".pdb"]) = Some (File c).
Proof.
  intros Hup Hfiles Hpdb Hfile.
  apply upload_inv in Hup
    as (_ & _ & _ & _ & _ & files' & v & m1 & m2 & m3 & Hf & _ & _ & _ & H1 & H2 & H3 & H4).
  rewrite Hfiles in Hf. injection Hf as <-.
  unfold Job.upload_structure in H1. rewrite Hpdb in H1. cbn [as_str] in H1.
  unfold bind at 1, lift_result in H1. unfold bind in H1.
  rewrite (structure_file_present _ _ _ _ Hfile) in H1.
  unfold ret in H1. injection H1 as <- Hp. rewrite <- Hp in *.
  assert (Hfile2 : lookup_path (fs m2) (output_directory j ++ [name +:+ ".pdb"])
                   = Some (File c)).
  { replace m2 with (fst (Job.upload_structure files "ligand" (output_directory j)
                            (ligand self) m)) by by rewrite H2.
    by apply upload_structure_keeps_file. }
  unfold Job.upload_text at 1 in H3. unfold bind in H3.
  rewrite (add_pdb_present _ _ _ Hfile2) in H3. unfold ret in H3.
  injection H3 as <- Hi. split; [done|]. split; [done|].
  replace m' with (fst (Job.upload_text (ligand j) (input_pdb_ligand self) m2))
    by by rewrite H4.
  by rewrite upload_text_fs.
Qed.

Lemma upload_sends_the_file_on_disk_witness :
  exists m' j,
    Job.__init__ (form_parameters "x") stale_machine = (m', Ok j)
    /\ input_pdb j = Some [Text "ATOM old"]
    /\ objects m' !! "x" = Some "ATOM new".
Proof.
  eexists _, _. split; [vm_compute; reflexivity|]. split; [|reflexivity].
  eapply (upload_sends_the_file_on_disk (form_parameters "x")
            {| status := ""; pdb := None; ligand := None; output_directory := [];
               base_name := ""; id_added_manually := false; id := None;
               input_pdb := None; input_pdb_ligand := None; settings := [];
               output := None |}
            stale_machine _ _ _ "x").
  - vm_compute. reflexivity.
  - reflexivity.
  - reflexivity.
  - vm_compute. reflexivity.
Defined.

Lemma structure_file_absent (od : path) (name : string) (m : machine)
    (mo : gmap string node) :
  lookup_path (fs m) od = Some (Dir mo) ->
  mo !! (name +:+ ".pdb") = None ->
  objects m !! name = None ->
  Job.structure_file od name m = (m, Ok (od ++ [name +:+ ".pdb"])).
Proof.
  intros Hdir Hno Hobj.
  unfold Job.structure_file, bind, gets, ret, os.exists_.
  rewrite (lookup_path_snoc _ _ _ _ Hdir), Hno, Hobj.
  by rewrite bool_decide_eq_false_2 by (by intros [? ?]).
Qed.

Lemma upload_raises_without_structure (parameters : dict) (self : job) (m : machine)
    (files : dict) (st bn name : string) (od : path) (mo : gmap string node) :
  dict_get parameters "status" = Some (VStr st) ->
  dict_get parameters "files" = Some (VTable files) ->
  dict_get files "output" = Some (VPath od) ->
  dict_get files "base_name" = Some (VStr bn) ->
  dict_get files "pdb" = Some (VStr name) ->
  dict_get files "ligand" = None \/ dict_get files "ligand" = Some VNone ->
  lookup_path (fs m) od = Some (Dir mo) ->
  mo !! (name +:+ ".pdb") = None ->
  objects m !! name = None ->
  Job.upload parameters self m = (m, Raise FileNotFoundError).
Proof.
  intros Hst Hfiles Hod Hbn Hpdb Hlig Hdir Hno Hobj.
  unfold Job.upload.
  erewrite bind_ok; [|unfold lift_result, getitem; rewrite Hst; reflexivity].
  erewrite bind_ok; [|unfold lift_result, getitem; rewrite Hfiles; reflexivity].
  erewrite bind_ok; [|unfold lift_result, getitem; rewrite Hod; reflexivity].
  erewrite bind_ok; [|unfold lift_result, getitem; rewrite Hbn; reflexivity].
  erewrite bind_ok.
  2:{ unfold Job.upload_structure. rewrite Hpdb. cbn [as_str].
      unfold bind at 1, lift_result.
      erewrite bind_ok; [|by apply (structure_file_absent _ _ _ mo)]. reflexivity. }
  erewrite bind_ok.
  2:{ unfold Job.upload_structure. destruct Hlig as [-> | ->]; reflexivity. }
  erewrite bind_raise; [reflexivity|].
  unfold Job.upload_text, Job._add_pdb. erewrite bind_raise; [reflexivity|].
  unfold on_disk, os.read.
  by rewrite (lookup_path_snoc _ _ _ _ Hdir), Hno, set_fs_same.
Qed.

(** X6: [upload] raises [FileNotFoundError] and writes nothing when the structure
    it is given is neither a file of the output directory nor an object of
    PyMOL (here for a submission without ligand). *)
Theorem upload_without_the_structure (parameters : dict) (self : job) (m : machine)
    (files : dict) (st bn name : string) (od : path) (mo : gmap string node) :
  dict_get parameters "status" = Some (VStr st) ->
  dict_get parameters "files" = Some (VTable files) ->
  dict_get files "output" = Some (VPath od) ->
  dict_get files "base_name" = Some (VStr bn) ->
  dict_get files "pdb" = Some (VStr name) ->
  dict_get files "ligand" = None \/ dict_get files "ligand" = Some VNone ->
  lookup_path (fs m) od = Some (Dir mo) ->
  mo !! (name +:+ ".pdb") = None ->
  objects m !! name = None ->
  Job.upload parameters self m = (m, Raise FileNotFoundError).
Proof. apply upload_raises_without_structure. Qed.

Lemma upload_without_the_structure_witness :
  Job.__init__ (form_parameters "x") empty_machine
  = (empty_machine, Raise FileNotFoundError).
Proof.
  apply (upload_without_the_structure (form_parameters "x")
            {| status := ""; pdb := None; ligand := None; output_directory := [];
               base_name := ""; id_added_manually := false; id := None;
               input_pdb := None; input_pdb_ligand := None; settings := [];
               output := None |}
            empty_machine
            [("pdb", VStr "x"); ("output", VPath ["out"]); ("base_name", VStr "output")]
            "submitting" "output" "x" ["out"] ∅).
  - reflexivity.
  - reflexivity.
  - reflexivity.
  - reflexivity.
  - reflexivity.
  - by left.
  - reflexivity.
  - reflexivity.
  - reflexivity.
Defined.

(** X7: When the file is missing and the name is an object of PyMOL, [upload]
    saves the object into the output directory and sends that text. *)
Theorem upload_saves_the_object (parameters : dict) (self : job) (m m' : machine)
    (j : job) (files : dict) (name text : string) (mo : gmap string node) :
  Job.upload parameters self m = (m', Ok j) ->
  dict_get parameters "files" = Some (VTable files) ->
  dict_get files "pdb" = Some (VStr name) ->
  lookup_path (fs m) (output_directory j) = Some (Dir mo) ->
  mo !! (name +:+ ".pdb") = None ->
  objects m !! name = Some text ->
  pdb j = Some (output_directory j ++ [name +:+ ".pdb"])
  /\ input_pdb j = Some [Text text]
  /\ lookup_path (fs m') (output_directory j ++ [name +:+ ".pdb"])
     = Some (File [Text text]).
Proof.
  intros Hup Hfiles Hpdb Hdir Hno Hobj.
  apply upload_inv in Hup
    as (_ & _ & _ & _ & _ & files' & v & m1 & m2 & m3 & Hf & _ & _ & _ & H1 & H2 & H3 & H4).
  rewrite Hfiles in Hf. injection Hf as <-.
  assert (Hsf : Job.structure_file (output_directory j) name m
                = (set_fs m (put (fs m) (output_directory j)
                      (Dir (<[name +:+ ".pdb" := File [Text text]]> mo))),
                   Ok (output_directory j ++ [name +:+ ".pdb"]))).
  { unfold Job.structure_file, bind, gets, ret, os.exists_.
    rewrite (lookup_path_snoc _ _ _ _ Hdir), Hno, Hobj.
    rewrite bool_decide_eq_true_2 by eauto. simpl.
    unfold Job.cmd_save, bind, gets. rewrite Hobj. unfold on_disk.
    by rewrite (with_open_w_dir _ _ _ _ _ _ Hdir), Hno. }
  unfold Job.upload_structure in H1. rewrite Hpdb in H1. cbn [as_str] in H1.
  unfold bind at 1, lift_result in H1. unfold bind in H1. rewrite Hsf in H1.
  unfold ret in H1. injection H1 as <- Hp. rewrite <- Hp in *.
  assert (Hfile : lookup_path
            (fs (set_fs m (put (fs m) (output_directory j)
                   (Dir (<[name +:+ ".pdb" := File [Text text]]> mo)))))
            (output_directory j ++ [name +:+ ".pdb"]) = Some (File [Text text])).
  { cbn [fs set_fs].
    rewrite (lookup_path_snoc _ _ _ (<[name +:+ ".pdb" := File [Text text]]> mo))
      by (apply lookup_put; eauto).
    apply lookup_insert_eq. }
  assert (Hfile2 : lookup_path (fs m2) (output_directory j ++ [name +:+ ".pdb"])
                   = Some (File [Text text])).
  { match type of H2 with
    | ?c = _ => replace m2 with (fst c) by by rewrite H2
    end.
    by apply upload_structure_keeps_file. }
  unfold Job.upload_text at 1 in H3. unfold bind in H3.
  rewrite (add_pdb_present _ _ _ Hfile2) in H3. unfold ret in H3.
  injection H3 as <- Hi. split; [done|]. split; [done|].
  replace m' with (fst (Job.upload_text (ligand j) (input_pdb_ligand self) m2))
    by by rewrite H4.
  by rewrite upload_text_fs.
Qed.

Lemma upload_saves_the_object_witness :
  exists m' j,
    Job.__init__ (form_parameters "x") fresh_machine = (m', Ok j)
    /\ pdb j = Some (output_directory j ++ ["x" +:+ ".pdb"])
    /\ input_pdb j = Some [Text "ATOM x"]
    /\ lookup_path (fs m') (output_directory j ++ ["x" +:+ ".pdb"])
       = Some (File [Text "ATOM x"]).
Proof.
  eexists _, _. split; [vm_compute; reflexivity|].
  eapply (upload_saves_the_object (form_parameters "x")
            {| status := ""; pdb := None; ligand := None; output_directory := [];
               base_name := ""; id_added_manually := false; id := None;
               input_pdb := None; input_pdb_ligand := None; settings := [];
               output := None |}
            fresh_machine _ _ _ "x" "ATOM x" ∅).
  - vm_compute. reflexivity.
  - reflexivity.
  - reflexivity.
  - vm_compute. reflexivity.
  - reflexivity.
  - reflexivity.
Defined.

(** ** What [export] writes *)

Lemma on_disk_inv {A} (op : M node A) (m m' : machine) (r : result A) :
  on_disk op m = (m', r) -> exists fs', op (fs m) = (fs', r) /\ m' = set_fs m fs'.
Proof.
  unfold on_disk. destruct (op (fs m)) as [fs' r']. intros H. simplify_eq. eauto.
Qed.

Lemma on_disk_write_ok (p : path) (body : list token * result unit) (m m' : machine) :
  on_disk (os.with_open_w p body) m = (m', Ok tt) ->
  lookup_path (fs m') p = Some (File (fst body))
  /\ snd body = Ok tt
  /\ forall q c, lookup_path (fs m) q = Some (File c) -> p <> q ->
       lookup_path (fs m') q = Some (File c).
Proof.
  intros H. apply on_disk_inv in H as (fs' & Hw & ->). cbn [fs set_fs].
  destruct body as [toks r]. split; [|split].
  - apply (with_open_w_ok _ _ r (fs m)). cbn [fst].
    unfold os.with_open_w in *. apply bind_inv in Hw as ([] & fs1 & Hop & Hw).
    apply bind_inv in Hw as ([] & fs2 & Hcl & Hw).
    apply lift_result_inv in Hw as [Hr ->]. cbn [snd] in Hr. subst r.
    erewrite bind_ok by exact Hop. erewrite bind_ok by exact Hcl. done.
  - unfold os.with_open_w in Hw. apply bind_inv in Hw as ([] & fs1 & Hop & Hw).
    apply bind_inv in Hw as ([] & fs2 & Hcl & Hw).
    by apply lift_result_inv in Hw as [Hr _].
  - intros q c Hq Hne.
    pose proof (with_open_w_keeps_file p q (toks, r) (fs m) c Hq Hne) as Hk.
    by rewrite Hw in Hk.
Qed.

Lemma snoc_ne (d : path) (a b : string) : a <> b -> d ++ [a] <> d ++ [b].
Proof. intros Hne Heq. apply app_inv_head in Heq. congruence. Qed.

Lemma set_files_path_inv (report : dict) (key : string) (v : toml_value) (report' : dict) :
  Job.set_files_path report key v = Ok report' ->
  exists t,
    dict_get report "FILES_PATH" = Some (VTable t)
    /\ report' = dict_set report "FILES_PATH" (VTable (dict_set t key v)).
Proof.
  unfold Job.set_files_path. intros H.
  apply bind_result_inv in H as (fp & Hfp & H). apply getitem_inv in Hfp.
  apply bind_result_inv in H as (t & Ht & H). destruct fp; simpl in Ht; simplify_eq.
  eauto.
Qed.

(** The files of an [export] that completes. *)
Lemma export_ok_inv (self : job) (m m' : machine) :
  Job.export self m = (m', Ok tt) ->
  exists bd r o,
    Job.base_dir self = Ok bd
    /\ output self = Some r /\ reply_output r = Some o
    /\ lookup_path (fs m') (Job.cavity_fn bd self) = Some (File [Text (pdb_kv o)])
    /\ lookup_path (fs m') (Job.log_fn bd)
       = Some (File (List.concat (map (Job.log_line self) (split_lines (log o)))))
    /\ (exists rep fp,
          lookup_path (fs m') (Job.report_fn bd self)
          = Some (File [Comment "TOML results file for parKVFinder software"; Blank;
                        Dumped rep])
          /\ dict_get rep "FILES_PATH" = Some (VTable fp)
          /\ dict_get fp "INPUT" = Some (path_value (pdb self))
          /\ dict_get fp "LIGAND" = Some (path_value (ligand self))
          /\ dict_get fp "OUTPUT" = Some (VPath (Job.cavity_fn bd self)))
    /\ (id_added_manually self = false ->
        lookup_path (fs m') (Job.parameter_fn bd self)
        = Some (File (Job.parameters_file self))).
Proof.
  unfold Job.export. intros H.
  apply bind_inv in H as (bd & m0 & Hbd & H). apply lift_result_inv in Hbd as [Hbd ->].
  apply bind_inv in H as ([] & m1 & _ & H).
  unfold Job.export_files in H.
  apply bind_inv in H as ([] & m2 & Hcav & H).
  apply bind_inv in H as (text & m3 & Htext & H).
  apply lift_result_inv in Htext as [Htext ->].
  apply bind_inv in H as (rep0 & m3 & Hrep0 & H).
  apply lift_result_inv in Hrep0 as [Hrep0 ->].
  apply bind_inv in H as (rep1 & m3 & Hrep1 & H).
  apply lift_result_inv in Hrep1 as [Hrep1 ->].
  apply bind_inv in H as (rep2 & m3 & Hrep2 & H).
  apply lift_result_inv in Hrep2 as [Hrep2 ->].
  apply bind_inv in H as (rep & m3 & Hrep & H).
  apply lift_result_inv in Hrep as [Hrep ->].
  apply bind_inv in H as ([] & m3 & Hreport & H).
  apply bind_inv in H as ([] & m4 & Hlog & H).
  apply on_disk_write_ok in Hcav as (Hcav & Hcok & _).
  apply on_disk_write_ok in Hreport as (Hreport & _ & Hkeep3).
  apply on_disk_write_ok in Hlog as (Hlog & Hlok & Hkeep4).
  destruct (export_names_distinct (base_name self)) as (N1 & N2 & N3 & N4 & N5 & N6).
  unfold Job.cavity, Job.log in *.
  destruct (output self) as [r|] eqn:Hout; [|done].
  destruct (reply_output r) as [o|] eqn:Ho; [|done].
  cbn [fst snd] in *.
  assert (Hfinal : forall q c, lookup_path (fs m4) q = Some (File c) ->
            q <> Job.parameter_fn bd self -> lookup_path (fs m') q = Some (File c)).
  { intros q c Hq Hne. destruct (id_added_manually self); cbn [negb] in H.
    - unfold ret in H. by simplify_eq.
    - apply on_disk_write_ok in H as (_ & _ & Hk). by apply Hk. }
  exists bd, r, o. split; [done|]. split; [done|]. split; [done|].
  split; [|split; [|split]].
  - apply Hfinal; [|by apply snoc_ne]. apply Hkeep4; [|apply not_eq_sym; by apply snoc_ne].
    apply Hkeep3; [done|]. apply not_eq_sym. by apply snoc_ne.
  - apply Hfinal; [done|]. by apply snoc_ne.
  - apply set_files_path_inv in Hrep1 as (t0 & _ & ->).
    apply set_files_path_inv in Hrep2 as (t1 & Ht1 & ->).
    apply set_files_path_inv in Hrep as (t2 & Ht2 & ->).
    rewrite dict_get_set_eq in Ht1. injection Ht1 as <-.
    rewrite dict_get_set_eq in Ht2. injection Ht2 as <-.
    eexists _, _. split; [|split; [apply dict_get_set_eq|]].
    + apply Hfinal; [|by apply snoc_ne].
      apply Hkeep4; [exact Hreport|]. apply not_eq_sym. by apply snoc_ne.
    + repeat split;
        repeat first [ rewrite dict_get_set_eq | rewrite dict_get_set_ne by done ]; done.
  - intros Hman. rewrite Hman in H. cbn [negb] in H.
    by apply on_disk_write_ok in H as (Hp & _).
Qed.

(** X8: An [export] that completes has written the cavities as the service sent
    them, the log with its first line rewritten and the dictionary line left
    out, and the report of the service with the paths of the input, of the
    ligand and of the cavity file set in its table [FILES_PATH]. *)
Theorem export_writes_what_the_service_sent (self : job) (m m' : machine) :
  Job.export self m = (m', Ok tt) ->
  exists bd r o,
    Job.base_dir self = Ok bd
    /\ output self = Some r /\ reply_output r = Some o
    /\ lookup_path (fs m') (Job.cavity_fn bd self) = Some (File [Text (pdb_kv o)])
    /\ lookup_path (fs m') (Job.log_fn bd)
       = Some (File (List.concat (map (Job.log_line self) (split_lines (log o)))))
    /\ (exists rep fp,
          lookup_path (fs m') (Job.report_fn bd self)
          = Some (File [Comment "TOML results file for parKVFinder software"; Blank;
                        Dumped rep])
          /\ dict_get rep "FILES_PATH" = Some (VTable fp)
          /\ dict_get fp "INPUT" = Some (path_value (pdb self))
          /\ dict_get fp "LIGAND" = Some (path_value (ligand self))
          /\ dict_get fp "OUTPUT" = Some (VPath (Job.cavity_fn bd self)))
    /\ (id_added_manually self = false ->
        lookup_path (fs m') (Job.parameter_fn bd self)
        = Some (File (Job.parameters_file self))).
Proof. apply export_ok_inv. Qed.

Lemma export_writes_what_the_service_sent_witness :
  lookup_path
    (fs (fst (Job.export (set_output (example_job "completed") (Some example_completed))
                (example_machine "completed"))))
    ["out"; "A"; "output.KVFinder.output.pdb"]
  = Some (File [Text "ATOM"])
  /\ lookup_path
       (fs (fst (Job.export (set_output (example_job "completed") (Some example_completed))
                   (example_machine "completed"))))
       ["out"; "A"; "KVFinder.log"]
     = Some (File [Text ("Running parKVFinder for job ID: A" +:+ newline);
                   Text ("done" +:+ newline)]).
Proof.
  destruct (export_writes_what_the_service_sent
              (set_output (example_job "completed") (Some example_completed))
              (example_machine "completed")
              (fst (Job.export (set_output (example_job "completed") (Some example_completed))
                      (example_machine "completed"))))
    as (bd & r & o & Hbd & Hr & Ho & Hcav & Hlog & _).
  - vm_compute. reflexivity.
  - cbn in Hbd, Hr. injection Hbd as <-. injection Hr as <-. injection Ho as <-.
    split; [exact Hcav|exact Hlog].
Defined.

Lemma disk_only_on_disk {A} (op : M node A) : disk_only (on_disk op).
Proof. intros m. unfold on_disk. by destruct (op (fs m)). Qed.

Lemma disk_only_ret {A} (a : A) : disk_only (ret a).
Proof. done. Qed.

Lemma disk_only_lift_result {A} (r : result A) : disk_only (lift_result r).
Proof. done. Qed.

Lemma disk_only_gets {A} (f : machine -> A) : disk_only (gets f).
Proof. done. Qed.

Lemma disk_only_bind {A B} (c : M machine A) (k : A -> M machine B) :
  disk_only c -> (forall a, disk_only (k a)) -> disk_only (bind c k).
Proof.
  intros Hc Hk m. unfold bind. specialize (Hc m).
  destruct (c m) as [m1 [a|e]]; [|done].
  destruct (Hk a m1) as (-> & -> & ->). done.
Qed.

Lemma disk_only_pass (c : M machine unit) : disk_only c -> disk_only (pass_FileExistsError c).
Proof.
  intros Hc m. unfold pass_FileExistsError. specialize (Hc m).
  by destruct (c m) as [m1 [[]|[]]].
Qed.

Lemma disk_only_export (self : job) : disk_only (Job.export self).
Proof.
  unfold Job.export, Job.export_files.
  repeat first [ apply disk_only_bind; [|intros ?] | apply disk_only_on_disk
               | apply disk_only_lift_result | apply disk_only_pass | apply disk_only_ret ].
  destruct (negb _); [apply disk_only_on_disk | apply disk_only_ret].
Qed.

Lemma export_keeps_the_session (self : job) (m : machine) :
  stdout_open (fst (Job.export self m)) = stdout_open m.
Proof. apply disk_only_export. Qed.

(** X9: The worker finds what [export] wrote: after an [export] that completed,
    [_check_output_exists] answers [True] for a job with the same output
    directory, id, base name and origin, such as the job read from the record
    in a later pass (for a manually added job, when the standard output of
    the process is open); the job then counts as downloaded. *)
Theorem exported_job_is_found (self j : job) (m : machine) (s : state) :
  Job.export self m = (computer s, Ok tt) ->
  job_info s = Some j ->
  output_directory j = output_directory self -> id j = id self ->
  base_name j = base_name self -> id_added_manually j = id_added_manually self ->
  (id_added_manually self = true -> stdout_open m = true) ->
  Worker._check_output_exists s = (s, Ok true).
Proof.
  intros Hexp Hj Hod Hid Hbn Hman Hout.
  pose proof (export_keeps_the_session self m) as Hso. rewrite Hexp in Hso. cbn [fst] in Hso.
  apply export_ok_inv in Hexp
    as (bd & r & o & Hbd & _ & _ & Hcav & Hlog & (rep & fp & Hrep & _) & Hpar).
  unfold Worker._check_output_exists, Worker.the_job. unfold bind at 1. rewrite Hj.
  unfold bind at 1, lift_result.
  assert (Hbd' : Job.base_dir j = Ok bd).
  { unfold Job.base_dir in *. by rewrite Hid, Hod. }
  rewrite Hbd'.
  unfold Job.report_fn, Job.cavity_fn, Job.parameter_fn in *. rewrite Hman, Hbn.
  unfold bind, gets, ret, os_path_exists, os.exists_. rewrite Hlog, Hrep, Hcav.
  destruct (id_added_manually self); cbn [negb].
  - by rewrite Hso, Hout.
  - by rewrite Hpar.
Qed.

Lemma exported_job_is_found_witness :
  Worker._check_output_exists
    (set_job_info
       (started (fst (Job.export
                        (set_output (example_job "completed") (Some example_completed))
                        (example_machine "completed")))
          true)
       (Some (example_job "completed")))
  = (set_job_info
       (started (fst (Job.export
                        (set_output (example_job "completed") (Some example_completed))
                        (example_machine "completed")))
          true)
       (Some (example_job "completed")),
     Ok true).
Proof.
  apply (exported_job_is_found
           (set_output (example_job "completed") (Some example_completed))
           (example_job "completed")
           (example_machine "completed")); reflexivity.
Defined.

(** ** The files that [export], [save] and [upload] leave alone *)

Lemma keeps_files_ret {A} (ps : list path) (a : A) : keeps_files_but ps (ret a).
Proof. by intros m q t Hq _. Qed.

Lemma keeps_files_lift_result {A} (ps : list path) (r : result A) :
  keeps_files_but ps (lift_result r).
Proof. by intros m q t Hq _. Qed.

Lemma keeps_files_bind {A B} (ps : list path) (c : M machine A) (k : A -> M machine B) :
  keeps_files_but ps c -> (forall a, keeps_files_but ps (k a)) ->
  keeps_files_but ps (bind c k).
Proof.
  intros Hc Hk m q t Hq Hps. unfold bind. specialize (Hc m q t Hq Hps).
  destruct (c m) as [m1 [a|e]]; [|done]. by apply Hk.
Qed.

Lemma keeps_files_pass (ps : list path) (c : M machine unit) :
  keeps_files_but ps c -> keeps_files_but ps (pass_FileExistsError c).
Proof.
  intros Hc m q t Hq Hps. unfold pass_FileExistsError. specialize (Hc m q t Hq Hps).
  by destruct (c m) as [m1 [[]|[]]].
Qed.

Lemma keeps_files_write (ps : list path) (p : path) (body : list token * result unit) :
  p ∈ ps -> keeps_files_but ps (on_disk (os.with_open_w p body)).
Proof.
  intros Hp m q t Hq Hps. rewrite on_disk_fst.
  apply with_open_w_keeps_file; [done|]. by intros ->.
Qed.

Lemma keeps_files_mkdir (ps : list path) (p : path) :
  keeps_files_but ps (on_disk (os.mkdir p)).
Proof. intros m q t Hq _. rewrite on_disk_fst. by apply mkdir_keeps_file. Qed.

Lemma keeps_files_export (self : job) (bd : path) :
  Job.base_dir self = Ok bd ->
  keeps_files_but [Job.cavity_fn bd self; Job.report_fn bd self; Job.log_fn bd;
                   Job.parameter_fn bd self]
    (Job.export self).
Proof.
  intros Hbd m q t Hq Hps. unfold Job.export. rewrite Hbd.
  unfold bind at 1, lift_result.
  revert m q t Hq Hps.
  apply keeps_files_bind; [apply keeps_files_pass, keeps_files_mkdir|intros _].
  unfold Job.export_files.
  repeat first [ apply keeps_files_bind; [|intros ?]
               | apply keeps_files_lift_result
               | apply keeps_files_write; set_solver ].
  destruct (negb _); [apply keeps_files_write; set_solver | apply keeps_files_ret].
Qed.

(** X10: [export] leaves every file as it is but for its four artifacts; this
    holds also for an [export] that raises part-way. *)
Theorem export_keeps_the_other_files (self : job) (m : machine) (bd : path)
    (q : path) (t : list token) :
  Job.base_dir self = Ok bd ->
  lookup_path (fs m) q = Some (File t) ->
  q <> Job.cavity_fn bd self -> q <> Job.report_fn bd self ->
  q <> Job.log_fn bd -> q <> Job.parameter_fn bd self ->
  lookup_path (fs (fst (Job.export self m))) q = Some (File t).
Proof.
  intros Hbd Hq N1 N2 N3 N4. apply (keeps_files_export self bd Hbd); [done|].
  set_solver.
Qed.

Lemma export_keeps_the_other_files_witness :
  lookup_path
    (fs (fst (Job.export (set_output (example_job "completed") (Some example_completed))
                (example_machine "completed"))))
    ["home"; ".KVFinder-web"; "A"; "job.toml"]
  = Some (File (example_record "completed")).
Proof.
  apply (export_keeps_the_other_files
           (set_output (example_job "completed") (Some example_completed))
           (example_machine "completed") ["out"; "A"]); done.
Defined.

(** ** What the worker keeps while it runs *)

Section Along.

Context {B : Type} (f : state -> B) (Q : event -> Prop).
Hypothesis Hf : ignores_the_rest f.

Lemma along_refl (s : state) : along f Q s s.
Proof. split; [done|]. exists []. by rewrite app_nil_r. Qed.

Lemma along_trans (s1 s2 s3 : state) :
  along f Q s1 s2 -> along f Q s2 s3 -> along f Q s1 s3.
Proof.
  intros (Hf1 & n1 & Ht1 & Hn1) (Hf2 & n2 & Ht2 & Hn2).
  split; [congruence|]. exists (n1 ++ n2). split.
  - by rewrite Ht2, Ht1, app_assoc.
  - by apply Forall_app.
Qed.

Lemma goes_ret {A} (a : A) : goes_along f Q (ret a).
Proof. intros s. apply along_refl. Qed.

Lemma goes_raise {A} (e : exn) : goes_along f Q (@raise state A e).
Proof. intros s. apply along_refl. Qed.

Lemma goes_gets {A} (g : state -> A) : goes_along f Q (gets g).
Proof. intros s. apply along_refl. Qed.

Lemma goes_lift_result {A} (r : result A) : goes_along f Q (@lift_result state A r).
Proof. intros s. apply along_refl. Qed.

Lemma goes_bind {A C} (c : M state A) (k : A -> M state C) :
  goes_along f Q c -> (forall a, goes_along f Q (k a)) -> goes_along f Q (bind c k).
Proof.
  intros Hc Hk s. unfold bind. specialize (Hc s).
  destruct (c s) as [s1 [a|e]]; simpl in *; [|done].
  apply (along_trans _ s1); [done|]. apply Hk.
Qed.

Lemma goes_for_each {A} (l : list A) (body : A -> M state unit) :
  (forall x, goes_along f Q (body x)) -> goes_along f Q (for_each l body).
Proof.
  intros Hb. induction l as [|x l IH]; simpl; [apply goes_ret|].
  apply goes_bind; [apply Hb|intros _; apply IH].
Qed.

Lemma goes_except (c : M state unit) :
  goes_along f Q c -> goes_along f Q (except_Exception c).
Proof.
  intros Hc s. unfold except_Exception. specialize (Hc s).
  by destruct (c s) as [s1 [a|[]]].
Qed.

Lemma goes_on_machine {A} (op : M machine A) : goes_along f Q (on_machine op).
Proof.
  intros s. unfold on_machine. destruct (op (computer s)) as [m' r]. simpl.
  split; [apply Hf|]. exists []. by rewrite app_nil_r.
Qed.

Lemma goes_modify (g : state -> state) :
  (forall s, f (g s) = f s) -> (forall s, trace (g s) = trace s) ->
  goes_along f Q (modify g).
Proof.
  intros Hg Ht s. split; [apply Hg|]. exists []. simpl. by rewrite Ht, app_nil_r.
Qed.

Lemma goes_record (g : state -> state) (e : event) :
  Q e -> (forall s, f (g s) = f s) -> (forall s, trace (g s) = trace s) ->
  goes_along f Q (modify (fun s => record (g s) e)).
Proof.
  intros He Hg Ht s. split.
  - simpl. destruct Hf as (_ & _ & _ & _ & _ & _ & Hr). by rewrite Hr.
  - exists [e]. simpl. rewrite Ht. split; [done|]. by constructor.
Qed.

Lemma goes_emit (sig : signal) : Q (Emit sig) -> goes_along f Q (emit sig).
Proof. intros HQ. by apply (goes_record (fun s => s)). Qed.

Lemma goes_the_job : goes_along f Q Worker.the_job.
Proof. intros s. unfold Worker.the_job. destruct (job_info s); apply along_refl. Qed.

Lemma goes_the_id (j : job) : goes_along f Q (Worker.the_id j).
Proof. unfold Worker.the_id. destruct (id j); [apply goes_ret|apply goes_raise]. Qed.

Lemma goes_handle_get_response (r : network_reply) :
  (forall sig, Q (Emit sig)) -> Q (SetWait true) ->
  goes_along f Q (Worker._handle_get_response r).
Proof.
  intros Hsig Hw. destruct Hf as (Hc & Hwt & Hj & Hr & Hn & Hfl & Hrec).
  unfold Worker._handle_get_response. destruct (error r).
  - apply goes_bind; [apply goes_the_job|intros j].
    apply goes_bind; [by apply goes_modify|intros _].
    apply goes_bind; [apply goes_on_machine|intros _].
    apply goes_bind; [|intros _; by apply goes_emit].
    destruct (String.eqb _ _); [|apply goes_ret].
    apply goes_except, goes_on_machine.
  - apply goes_bind; [by apply goes_emit|intros _].
    apply goes_bind; [by apply (goes_record (fun s => set_wait s true))|intros _].
    apply goes_bind; [apply goes_the_job|intros j].
    apply goes_bind; [apply goes_the_id|intros i].
    apply goes_bind; [by apply goes_emit|intros _].
    apply goes_bind; [apply goes_gets|intros dn].
    apply goes_except.
    apply goes_bind; [apply goes_on_machine|intros _].
    apply goes_bind; [apply goes_on_machine|intros jobs].
    by apply goes_emit.
  - by apply goes_emit.
  - apply goes_ret.
  - apply goes_ret.
Qed.

Lemma goes_check_output_exists : goes_along f Q Worker._check_output_exists.
Proof.
  unfold Worker._check_output_exists.
  apply goes_bind; [apply goes_the_job|intros j].
  apply goes_bind; [apply goes_lift_result|intros bd].
  do 4 (apply goes_bind; [apply goes_gets|intros ?]).
  apply goes_ret.
Qed.

Lemma goes_get_results (E : environment) (job_id : string) :
  Q (Get job_id) -> goes_along f Q (Worker._get_results E job_id).
Proof.
  intros HQ. destruct Hf as (Hc & Hwt & Hj & Hr & Hn & Hfl & Hrec).
  unfold Worker._get_results.
  apply goes_bind; [by apply (goes_record (fun s => s))|intros _].
  by apply goes_modify.
Qed.

Lemma goes_event_loop (E : environment) (ms : nat) :
  (forall s t, f (set_clock s t) = f s) ->
  (forall sig, Q (Emit sig)) -> (forall b, Q (SetWait b)) -> Q (Sleep ms) ->
  goes_along f Q (Worker.event_loop E ms).
Proof.
  intros Hclock Hsig Hw Hs. destruct Hf as (Hc & Hwt & Hj & Hr & Hn & Hfl & Hrec).
  unfold Worker.event_loop.
  apply goes_bind; [apply goes_gets|intros r].
  apply goes_bind.
  { destruct r as [r|]; [|apply goes_ret].
    apply goes_bind; [by apply goes_modify|intros _].
    by apply goes_handle_get_response. }
  intros _. apply goes_bind; [apply goes_gets|intros t].
  apply goes_bind.
  { destruct (existsb _ _); [|apply goes_ret].
    by apply (goes_record (fun s => set_wait s false)). }
  intros _. apply (goes_record (fun s => set_clock s (clock s + ms))); [done| |done].
  intros s. apply Hclock.
Qed.

Lemma goes_handle_status (E : environment) (job_id status : string) :
  Q (Get job_id) -> Q (Forced job_id) -> Q (Skipped job_id) ->
  goes_along f Q (Worker.handle_status E job_id status).
Proof.
  intros Hg Hfo Hsk. pose proof Hf as (Hc & Hwt & Hj & Hr & Hn & Hfl & Hrec).
  unfold Worker.handle_status.
  destruct (_ || _); [by apply goes_get_results|].
  destruct (String.eqb status "completed"); [|apply goes_ret].
  apply goes_bind; [apply goes_check_output_exists|intros ex].
  destruct (negb ex); [by apply goes_get_results|].
  apply goes_bind; [apply goes_gets|intros c].
  apply goes_bind; [|intros _; by apply goes_modify].
  destruct (Nat.eqb _ _).
  - apply goes_bind; [by apply (goes_record (fun s => s))|intros _].
    apply goes_bind; [by apply goes_get_results|intros _].
    by apply goes_modify.
  - by apply (goes_record (fun s => s)).
Qed.

Lemma goes_check_job (E : environment) (jobs : list string) (job_id : string) :
  (forall s t, f (set_clock s t) = f s) ->
  (forall e, e <> Probe -> Q e) ->
  goes_along f Q (Worker.check_job E jobs job_id).
Proof.
  intros Hclock HQ. pose proof Hf as (Hc & Hwt & Hj & Hr & Hn & Hfl & Hrec).
  unfold Worker.check_job.
  apply goes_bind; [apply goes_gets|intros fn].
  apply goes_bind; [apply goes_on_machine|intros j].
  apply goes_bind; [by apply goes_modify|intros _].
  apply goes_bind; [apply goes_handle_status; by apply HQ|intros _].
  destruct (Nat.ltb _ _); [|apply goes_ret].
  apply goes_event_loop; try done; intros; by apply HQ.
Qed.

Lemma goes_check_jobs (E : environment) (jobs : list string) :
  (forall s t, f (set_clock s t) = f s) ->
  (forall e, e <> Probe -> Q e) ->
  goes_along f Q (Worker.check_jobs E jobs).
Proof.
  intros Hclock HQ. pose proof Hf as (Hc & Hwt & Hj & Hr & Hn & Hfl & Hrec).
  unfold Worker.check_jobs.
  apply goes_bind; [by apply goes_modify|intros _].
  apply goes_bind; [apply goes_for_each; intros x; by apply goes_check_job|intros _].
  apply goes_bind; [apply goes_gets|intros fl].
  apply goes_bind.
  { destruct fl; [|apply goes_ret]. apply goes_modify; [|done].
    intros s. by rewrite Hfl, Hn. }
  intros _. apply goes_event_loop; try done; intros; by apply HQ.
Qed.

End Along.

Lemma server_status_ignores_the_rest : ignores_the_rest server_status.
Proof. by repeat split. Qed.

Lemma clock_and_status_ignores_the_rest : ignores_the_rest clock_and_status.
Proof. by repeat split. Qed.

(** X11: In a pass over the jobs the worker never checks the service and never
    changes [self.server_status], whatever the replies to its requests are
    and however the pass ends. *)
Theorem pass_keeps_server_status (E : environment) (jobs : list string) (s : state) :
  server_status (fst (Worker.check_jobs E jobs s)) = server_status s
  /\ exists new,
       trace (fst (Worker.check_jobs E jobs s)) = trace s ++ new
       /\ count_probes new = 0.
Proof.
  destruct (goes_check_jobs server_status (fun e => e <> Probe)
              server_status_ignores_the_rest E jobs ltac:(done) ltac:(done) s)
    as (Hs & new & Ht & Hn).
  split; [done|]. exists new. split; [done|].
  unfold count_probes. clear Ht. induction Hn as [|e new He Hn IH]; [done|].
  by rewrite filter_cons_False.
Qed.

(** ** The pace of a pass *)

Lemma fetched_notices (new : list event) : Forall is_notice new -> fetched new = [].
Proof.
  induction 1 as [|e new He Hn IH]; [done|]. by destruct e.
Qed.

Lemma count_probes_app (tr1 tr2 : list event) :
  count_probes (tr1 ++ tr2) = count_probes tr1 + count_probes tr2.
Proof. unfold count_probes. by rewrite filter_app, length_app. Qed.

Lemma count_probes_notices (new : list event) : Forall is_notice new -> count_probes new = 0.
Proof.
  unfold count_probes. induction 1 as [|e new He Hn IH]; [done|].
  rewrite filter_cons_False; [done|]. by intros ->.
Qed.

(** A wait in the event loop that returns has taken its time; the reply
    handled in it has led to no request. *)
Lemma event_loop_ok (E : environment) (ms : nat) (s s' : state) :
  Worker.event_loop E ms s = (s', Ok tt) ->
  clock s' = clock s + ms /\ server_status s' = server_status s
  /\ exists new, trace s' = trace s ++ new /\ fetched new = [] /\ count_probes new = 0.
Proof.
  unfold Worker.event_loop. intros H.
  apply bind_inv in H as (r & s0 & Hr & H). unfold gets in Hr. injection Hr as <- <-.
  apply bind_inv in H as ([] & s1 & Hh & H).
  apply bind_inv in H as (t & s1' & Ht & H). unfold gets in Ht. injection Ht as <- <-.
  apply bind_inv in H as ([] & s2 & Hack & H).
  unfold modify in H. injection H as <-.
  assert (H1 : along clock_and_status is_notice s s1).
  { destruct (reply s) as [r|] eqn:Hrep.
    - apply bind_inv in Hh as ([] & s0 & Hm & Hh). unfold modify in Hm. injection Hm as <-.
      pose proof (goes_handle_get_response clock_and_status is_notice
                    clock_and_status_ignores_the_rest r ltac:(done) ltac:(done)
                    (set_reply s None)) as Hg.
      by rewrite Hh in Hg.
    - unfold ret in Hh. injection Hh as <-. apply along_refl. }
  destruct H1 as (Hcs & new & Htr & Hnew).
  injection Hcs as Hc Hs.
  assert (H2 : clock s2 = clock s1 /\ server_status s2 = server_status s1
               /\ exists n2, trace s2 = trace s1 ++ n2 /\ Forall is_notice n2).
  { destruct (existsb _ _).
    - unfold Worker.wait_status, modify in Hack. injection Hack as <-.
      repeat split. exists [SetWait false]. split; [done|]. by repeat constructor.
    - unfold ret in Hack. injection Hack as <-. repeat split. exists [].
      by rewrite app_nil_r. }
  destruct H2 as (Hc2 & Hs2 & n2 & Ht2 & Hn2).
  cbn [clock server_status reply trace record set_clock].
  split; [lia|]. split; [congruence|].
  exists (new ++ n2 ++ [Sleep ms]). split; [by rewrite Ht2, Htr, <- !app_assoc|].
  rewrite !fetched_app, !count_probes_app, !fetched_notices, !count_probes_notices by done.
  done.
Qed.

(** What is done for one job takes no time and makes one request at most. *)
Lemma handle_status_pace (E : environment) (job_id status : string) (s : state) :
  clock (fst (Worker.handle_status E job_id status s)) = clock s
  /\ exists new,
       trace (fst (Worker.handle_status E job_id status s)) = trace s ++ new
       /\ List.length (fetched new) <= 1 /\ count_probes new = 0.
Proof.
  assert (Hget : clock (fst (Worker._get_results E job_id s)) = clock s
                 /\ exists new,
                      trace (fst (Worker._get_results E job_id s)) = trace s ++ new
                      /\ List.length (fetched new) <= 1 /\ count_probes new = 0).
  { split; [reflexivity|]. exists [Get job_id]. split; [reflexivity|].
    split; [simpl; lia|done]. }
  unfold Worker.handle_status.
  destruct (_ || _); [done|].
  destruct (String.eqb status "completed").
  2:{ simpl. split; [done|]. exists []. split; [by rewrite app_nil_r|]. split; [simpl; lia|done]. }
  pose proof (check_output_exists_state s) as Hst.
  destruct (Worker._check_output_exists s) as [s1 [ex|e]] eqn:Hc; cbn [fst] in Hst; subst s1.
  2:{ rewrite (bind_raise _ _ _ _ _ Hc). simpl. split; [done|]. exists [].
      split; [by rewrite app_nil_r|]. split; [simpl; lia|done]. }
  rewrite (bind_ok _ _ _ _ _ Hc).
  destruct (negb ex); [done|].
  unfold bind, gets, modify. destruct (Nat.eqb _ _); simpl.
  - split; [done|]. exists [Forced job_id; Get job_id].
    rewrite <- !app_assoc. split; [done|]. split; [simpl; lia|done].
  - split; [done|]. exists [Skipped job_id]. split; [done|]. split; [simpl; lia|done].
Qed.

Lemma check_job_pace (E : environment) (jobs : list string) (job_id : string)
    (s s' : state) :
  Worker.check_job E jobs job_id s = (s', Ok tt) ->
  clock s' = clock s
             + (if Nat.ltb 1 (List.length jobs) then time_between_jobs else 0)
  /\ exists new,
       trace s' = trace s ++ new
       /\ List.length (fetched new) <= 1 /\ count_probes new = 0.
Proof.
  unfold Worker.check_job. intros H.
  apply bind_inv in H as (fn & s0 & Hfn & H). unfold gets in Hfn. injection Hfn as <- <-.
  apply bind_inv in H as (j & s1 & Hload & H).
  apply bind_inv in H as ([] & s2 & Hset & H). unfold modify in Hset. injection Hset as <-.
  apply bind_inv in H as ([] & s3 & Hhs & H).
  assert (H1 : clock s1 = clock s /\ trace s1 = trace s).
  { unfold on_machine in Hload. destruct (Job.load _ _) as [m' r].
    by injection Hload as <- _. }
  destruct H1 as [Hc1 Ht1].
  destruct (handle_status_pace E job_id (status j)
              (set_job_info s1 (Some (set_id j (Some job_id)))))
    as (Hc3 & n3 & Ht3 & Hf3 & Hp3).
  rewrite Hhs in Hc3, Ht3. cbn [fst clock trace set_job_info] in Hc3, Ht3.
  destruct (Nat.ltb _ _).
  - apply event_loop_ok in H as (Hc & _ & n4 & Ht & Hf & Hp).
    split; [lia|]. exists (n3 ++ n4). split; [by rewrite Ht, Ht3, Ht1, app_assoc|].
    rewrite fetched_app, count_probes_app, Hf, Hp, app_nil_r. lia.
  - unfold ret in H. injection H as <-. split; [lia|].
    exists n3. split; [congruence|done].
Qed.

Lemma for_each_check_job_pace (E : environment) (jobs : list string) (l : list string) :
  forall s s',
    for_each l (Worker.check_job E jobs) s = (s', Ok tt) ->
    clock s' = clock s
               + List.length l
                 * (if Nat.ltb 1 (List.length jobs) then time_between_jobs else 0)
    /\ exists new,
         trace s' = trace s ++ new
         /\ List.length (fetched new) <= List.length l /\ count_probes new = 0.
Proof.
  induction l as [|x l IH]; intros s s' H.
  - unfold for_each, ret in H. injection H as <-. split; [simpl; lia|].
    exists []. rewrite app_nil_r. split; [done|]. split; [simpl; lia|done].
  - cbn [for_each] in H. apply bind_inv in H as ([] & s1 & H1 & H).
    apply check_job_pace in H1 as (Hc1 & n1 & Ht1 & Hf1 & Hp1).
    apply IH in H as (Hc & n & Ht & Hf & Hp).
    split; [cbn [List.length]; lia|].
    exists (n1 ++ n). split; [by rewrite Ht, Ht1, app_assoc|].
    rewrite fetched_app, count_probes_app, length_app. cbn [List.length]. lia.
Qed.

(** X12: The pace of a pass: a pass over the jobs that comes to its end has made
    one request for each job at most, has waited [time_between_jobs] after
    each job when there are several, and [time_restart_job_checks] at the
    end. *)
Theorem pass_pacing (E : environment) (jobs : list string) (s s' : state) :
  Worker.check_jobs E jobs s = (s', Ok tt) ->
  clock s' = clock s
             + (if Nat.ltb 1 (List.length jobs)
                then List.length jobs * time_between_jobs else 0)
             + time_restart_job_checks
  /\ exists new,
       trace s' = trace s ++ new
       /\ List.length (fetched new) <= List.length jobs.
Proof.
  unfold Worker.check_jobs. intros H.
  apply bind_inv in H as ([] & s0 & Hm & H). unfold modify in Hm. injection Hm as <-.
  apply bind_inv in H as ([] & s1 & Hfor & H).
  apply bind_inv in H as (fl & s1' & Hfl & H). unfold gets in Hfl. injection Hfl as <- <-.
  apply bind_inv in H as ([] & s2 & Hinc & H).
  apply for_each_check_job_pace in Hfor as (Hc1 & n1 & Ht1 & Hf1 & _).
  cbn [clock trace set_flag] in Hc1, Ht1.
  assert (H2 : clock s2 = clock s1 /\ trace s2 = trace s1).
  { destruct (flag s1).
    - unfold modify in Hinc. by injection Hinc as <-.
    - unfold ret in Hinc. by injection Hinc as <-. }
  destruct H2 as [Hc2 Ht2].
  apply event_loop_ok in H as (Hc & _ & n & Ht & Hf & _).
  split.
  - rewrite Hc, Hc2, Hc1. destruct (Nat.ltb _ _); lia.
  - exists (n1 ++ n). split; [by rewrite Ht, Ht2, Ht1, app_assoc|].
    rewrite fetched_app, Hf, app_nil_r. done.
Qed.

Lemma pass_pacing_witness :
  clock (fst (Worker.check_jobs example_done ["A"; "B"]
                (started (example_machine "queued") true)))
  = 0 + (if Nat.ltb 1 2 then 2 * time_between_jobs else 0) + time_restart_job_checks
  /\ exists new,
       trace (fst (Worker.check_jobs example_done ["A"; "B"]
                     (started (example_machine "queued") true)))
       = [] ++ new
       /\ List.length (fetched new) <= 2.
Proof.
  apply (pass_pacing example_done ["A"; "B"] (started (example_machine "queued") true)).
  vm_compute. reflexivity.
Defined.

(** ** The check of the service *)

Lemma event_loop_idle_ok (E : environment) (ms : nat) (s : state) :
  reply s = None ->
  exists s' new,
    Worker.event_loop E ms s = (s', Ok tt)
    /\ reply s' = None /\ clock s' = clock s + ms
    /\ server_status s' = server_status s /\ computer s' = computer s
    /\ trace s' = trace s ++ new
    /\ fetched new = [] /\ count_probes new = 0.
Proof.
  intros Hr. rewrite (event_loop_idle E ms s Hr).
  destruct (existsb _ _).
  - eexists _, [SetWait false; Sleep ms]. split; [reflexivity|].
    cbn [reply clock server_status computer trace record set_clock set_wait].
    rewrite <- app_assoc. by repeat split.
  - eexists _, [Sleep ms]. split; [reflexivity|]. by repeat split.
Qed.

Lemma while_not_status_offline (E : environment) (fuel : nat) :
  forall s,
    reply s = None ->
    exists s' new,
      Worker.while_not_status E fuel false s = (s', Raise OutOfFuel)
      /\ reply s' = None /\ clock s' = clock s + fuel * time_server_down
      /\ server_status s' = server_status s /\ computer s' = computer s
      /\ trace s' = trace s ++ new
      /\ fetched new = [] /\ count_probes new = 0.
Proof.
  induction fuel as [|k IH]; intros s Hr.
  - exists s, []. rewrite app_nil_r. repeat split; try done; simpl; lia.
  - cbn [Worker.while_not_status negb].
    unfold bind at 1, emit, modify.
    destruct (event_loop_idle_ok E time_server_down
                (record s (Emit (server_status_signal false))) Hr)
      as (s1 & n1 & Hloop & Hr1 & Hc1 & Hs1 & Hm1 & Ht1 & Hf1 & Hp1).
    rewrite (bind_ok _ _ _ _ _ Hloop).
    destruct (IH s1 Hr1) as (s' & n & Hrun & Hr' & Hc' & Hs' & Hm' & Ht' & Hf' & Hp').
    exists s', (Emit (server_status_signal false) :: n1 ++ n).
    split; [done|]. split; [done|].
    cbn [clock server_status computer trace record] in *.
    split; [cbn [Nat.mul]; lia|]. split; [congruence|]. split; [congruence|].
    split; [by rewrite Ht', Ht1, <- !app_assoc|].
    change (Emit (server_status_signal false) :: n1 ++ n)
      with ([Emit (server_status_signal false)] ++ n1 ++ n).
    rewrite !fetched_app, !count_probes_app, Hf1, Hf', Hp1, Hp'. done.
Qed.

(** X13: A check of the service that fails is never repeated: [status] is not
    assigned in the loop [while not status], so however many turns of one
    minute the loop is given, it has not ended after them; in the meantime
    the worker makes no request and leaves [self.server_status] as it was. *)
Theorem failed_check_is_never_repeated (E : environment) (fuel : nat) (s : state) :
  reply s = None ->
  probe E (clock s) = false ->
  exists s' new,
    Worker.check_service E fuel s = (s', Raise OutOfFuel)
    /\ clock s' = clock s + fuel * time_server_down
    /\ server_status s' = server_status s
    /\ trace s' = trace s ++ Probe :: new
    /\ fetched new = [] /\ count_probes new = 0.
Proof.
  intros Hr Hp. unfold Worker.check_service, Worker._check_server_status.
  unfold bind at 1 2, modify, gets. cbn [clock record]. rewrite Hp.
  destruct (while_not_status_offline E fuel (record s Probe) Hr)
    as (s' & n & Hrun & _ & Hc & Hs & _ & Ht & Hf & Hpr).
  rewrite (bind_raise _ _ _ _ _ Hrun).
  exists s', n. split; [done|]. cbn [clock server_status trace record] in *.
  split; [done|]. split; [done|]. split; [by rewrite Ht, <- app_assoc|done].
Qed.

Lemma failed_check_is_never_repeated_witness :
  exists s' new,
    Worker.check_service
      {| service := service example_done; probe := fun _ => false;
         acknowledged := fun _ => false; dialog_closed := fun _ => false |}
      3 (started (example_machine "queued") false)
    = (s', Raise OutOfFuel)
    /\ clock s' = 0 + 3 * time_server_down
    /\ server_status s' = false
    /\ trace s' = [] ++ Probe :: new
    /\ fetched new = [] /\ count_probes new = 0.
Proof.
  apply (failed_check_is_never_repeated
           {| service := service example_done; probe := fun _ => false;
              acknowledged := fun _ => false; dialog_closed := fun _ => false |}
           3 (started (example_machine "queued") false)); reflexivity.
Defined.

(** X14: A turn of [run] that finds no job, or finds [self.server_status] unset,
    checks no job: when the check of the service succeeds it makes that one
    request, sets [self.server_status] and waits [time_no_jobs]. *)
Theorem turn_without_a_pass (E : environment) (fuel : nat) (s : state)
    (jobs : list string) :
  reply s = None ->
  _get_jobs (computer s) = (computer s, Ok jobs) ->
  jobs = [] \/ server_status s = false ->
  probe E (clock s) = true ->
  exists s' new,
    Worker.discover E (S fuel) s = (s', Ok tt)
    /\ server_status s' = true
    /\ clock s' = clock s + time_no_jobs
    /\ computer s' = computer s
    /\ trace s' = trace s ++ new
    /\ fetched new = [] /\ count_probes new = 1.
Proof.
  intros Hr Hjobs Hidle Hp. unfold Worker.discover.
  unfold bind at 1, on_machine. rewrite Hjobs, set_computer_same.
  unfold bind at 1, emit, modify. unfold bind at 1, gets.
  cbn [server_status record].
  assert (Hcond : (match jobs with [] => false | _ :: _ => true end) && server_status s
                  = false).
  { destruct Hidle as [-> | ->]; [done|]. by destruct jobs. }
  rewrite Hcond.
  unfold Worker.check_service, Worker._check_server_status.
  unfold bind at 1 2, modify, gets. cbn [clock record]. rewrite Hp.
  cbn [Worker.while_not_status negb]. unfold bind at 1, ret.
  unfold bind at 1, modify. unfold bind at 1, emit, modify.
  match goal with
  | |- context [Worker.event_loop E time_no_jobs ?s0] =>
      destruct (event_loop_idle_ok E time_no_jobs s0 Hr)
        as (s' & n & Hloop & _ & Hc & Hs & Hm & Ht & Hf & Hpr)
  end.
  rewrite Hloop. eexists _, _. split; [reflexivity|].
  cbn [clock server_status computer trace record set_server_status] in *.
  split; [done|]. split; [done|]. split; [done|].
  split; [by rewrite Ht, <- !app_assoc|].
  rewrite !fetched_app, !count_probes_app, Hf, Hpr. done.
Qed.

Lemma turn_without_a_pass_witness :
  exists s' new,
    Worker.discover example_done 1 (started (example_machine "queued") false)
    = (s', Ok tt)
    /\ server_status s' = true
    /\ clock s' = 0 + time_no_jobs
    /\ computer s' = example_machine "queued"
    /\ trace s' = [] ++ new
    /\ fetched new = [] /\ count_probes new = 1.
Proof.
  apply (turn_without_a_pass example_done 0 (started (example_machine "queued") false)
           ["A"; "B"]); try reflexivity.
  by right.
Defined.

(** ** A reply without error *)

Lemma ended_bind_result {A C} (r : result A) (k : A -> result C) :
  ended r -> (forall a, ended (k a)) -> ended (bind_result r k).
Proof.
  intros Hr Hk. destruct r as [a|e]; simpl; [apply Hk|].
  intros Heq. apply Hr. by simplify_eq.
Qed.

Lemma ended_getitem (d : dict) (k : string) : ended (getitem d k).
Proof. unfold getitem. by destruct (dict_get d k). Qed.

Lemma ended_as_table (v : toml_value) : ended (as_table v).
Proof. by destruct v. Qed.

Lemma ended_read_key (r : reader) (k : string) (v : toml_value) : ended (read_key r k v).
Proof.
  destruct r as [top [t|]]; simpl.
  - apply ended_bind_result; [apply ended_getitem|intros tv].
    apply ended_bind_result; [apply ended_as_table|intros es].
    by destruct (dict_has es k).
  - by destruct (dict_has top k).
Qed.

Lemma ended_read_table (r : reader) (name : string) (es : dict) :
  ended (read_table r name es).
Proof. destruct r as [top cur]; simpl. by destruct (dict_has top name). Qed.

Lemma ended_read_entries (es : dict) (tables : bool) :
  forall r, ended (read_entries r es tables).
Proof.
  induction es as [|[k v] es IH]; intros r; simpl; [done|].
  destruct (is_none v); [apply IH|].
  apply ended_bind_result; [|intros r'; apply IH].
  destruct (is_table v), tables; try done.
  - destruct (prune v); try done. apply ended_read_table.
  - apply ended_read_key.
Qed.

Lemma ended_read_tokens (ts : list token) : forall r, ended (read_tokens r ts).
Proof.
  induction ts as [|t ts IH]; intros r; simpl; [done|].
  apply ended_bind_result; [|intros r'; apply IH].
  destruct t; simpl; try done.
  - apply ended_read_key.
  - apply ended_read_table.
  - unfold read_dumped. apply ended_bind_result; [apply ended_read_entries|intros r'].
    apply ended_read_entries.
Qed.

Lemma ended_toml_load (ts : list token) : ended (toml.load ts).
Proof.
  unfold toml.load. apply ended_bind_result; [apply ended_read_tokens|done].
Qed.

Lemma ended_set_files_path (report : dict) (key : string) (v : toml_value) :
  ended (Job.set_files_path report key v).
Proof.
  unfold Job.set_files_path.
  apply ended_bind_result; [apply ended_getitem|intros fp].
  apply ended_bind_result; [apply ended_as_table|done].
Qed.

Lemma ends_ret {S A} (a : A) : ends (@ret S A a).
Proof. done. Qed.

Lemma ends_lift_result {S A} (r : result A) : ended r -> ends (@lift_result S A r).
Proof. by intros Hr s. Qed.

Lemma ends_bind {S A C} (c : M S A) (k : A -> M S C) :
  ends c -> (forall a, ends (k a)) -> ends (bind c k).
Proof.
  intros Hc Hk s. unfold bind. specialize (Hc s).
  destruct (c s) as [s1 [a|e]]; [apply Hk|].
  simpl in *. intros Heq. apply Hc. by simplify_eq.
Qed.

Lemma ends_pass {S} (c : M S unit) : ends c -> ends (pass_FileExistsError c).
Proof.
  intros Hc s. unfold pass_FileExistsError. specialize (Hc s).
  by destruct (c s) as [s1 [[]|[]]].
Qed.

Lemma ends_on_disk {A} (op : M node A) : ends op -> ends (on_disk op).
Proof.
  intros Hop m. unfold on_disk. specialize (Hop (fs m)). by destruct (op (fs m)).
Qed.

Lemma ended_parent fs (p : path) : ended (os.parent fs p).
Proof.
  unfold os.parent. destruct (split_last p) as [[d x]|]; [|done].
  by destruct (lookup_path fs d) as [[t|m]|].
Qed.

Lemma ends_mkdir (p : path) : ends (os.mkdir p).
Proof.
  intros fs. unfold os.mkdir. pose proof (ended_parent fs p) as Hp.
  destruct (os.parent fs p) as [[[d x] m]|e].
  - by destruct (m !! x).
  - by destruct e.
Qed.

Lemma ends_with_open_w (p : path) (body : list token * result unit) :
  ended (snd body) -> ends (os.with_open_w p body).
Proof.
  intros Hb. unfold os.with_open_w.
  apply ends_bind; [|intros _; apply ends_bind; [done|intros _; by apply ends_lift_result]].
  intros fs. unfold os.open_w. pose proof (ended_parent fs p) as Hp.
  destruct (os.parent fs p) as [[[d x] m]|e].
  - by destruct (m !! x) as [[t|md]|].
  - simpl. intros Heq. apply Hp. by simplify_eq.
Qed.

Lemma ends_export (self : job) : ends (Job.export self).
Proof.
  unfold Job.export.
  apply ends_bind.
  { apply ends_lift_result. unfold Job.base_dir. by destruct (id self). }
  intros bd. apply ends_bind; [apply ends_pass, ends_on_disk, ends_mkdir|intros _].
  unfold Job.export_files.
  apply ends_bind.
  { apply ends_on_disk, ends_with_open_w. unfold Job.cavity.
    destruct (output self) as [r|]; [|done]. by destruct (reply_output r). }
  intros _. apply ends_bind.
  { apply ends_lift_result. unfold Job.report.
    destruct (output self) as [r|]; [|done]. by destruct (reply_output r). }
  intros text. apply ends_bind.
  { apply ends_lift_result. destruct text; [apply ended_toml_load|done]. }
  intros rep0.
  do 3 (apply ends_bind; [apply ends_lift_result, ended_set_files_path|intros ?]).
  apply ends_bind; [by apply ends_on_disk, ends_with_open_w|intros _].
  apply ends_bind.
  { apply ends_on_disk, ends_with_open_w. unfold Job.log.
    destruct (output self) as [r|]; [|done]. by destruct (reply_output r). }
  intros _. destruct (negb _); [by apply ends_on_disk, ends_with_open_w|apply ends_ret].
Qed.

Lemma record_name_is_no_artifact (b suffix : string) :
  8 < String.length suffix -> "job.toml" <> b +:+ suffix.
Proof.
  intros Hlen Heq. apply (f_equal String.length) in Heq.
  rewrite string_app_length in Heq. simpl in Heq. lia.
Qed.

Lemma path_last_ne (d1 d2 : path) (a b : string) : a <> b -> d1 ++ [a] <> d2 ++ [b].
Proof. intros Hne Heq. apply app_inj_tail in Heq as [_ ?]. done. Qed.

(** X15: A reply without error is recorded whatever [export] does: the handler
    returns, the record file holds the job with the status and the output of
    the reply, and [server_up] is emitted once; [export] is tried only for
    the status [completed], after the record was saved, and an exception it
    raises is dropped. *)
Theorem reply_is_recorded (r : network_reply) (s : state) (j : job) (i : string)
    (m1 : machine) :
  error r = NoError ->
  job_info s = Some j ->
  id j = Some i ->
  Job.save (set_status (set_output j (Some (readAll r))) (reply_status (readAll r)))
    (Some i) (computer s) = (m1, Ok tt) ->
  exists s',
    Worker._handle_get_response r s = (s', Ok tt)
    /\ job_info s'
       = Some (set_status (set_output j (Some (readAll r))) (reply_status (readAll r)))
    /\ trace s' = trace s ++ [Emit server_up]
    /\ lookup_path (fs (computer s')) (Job.job_fn (computer s) i)
       = Some (File (Job.job_file
            (set_status (set_output j (Some (readAll r))) (reply_status (readAll r)))))
    /\ computer s'
       = (if String.eqb (reply_status (readAll r)) "completed"
          then fst (Job.export
                      (set_status (set_output j (Some (readAll r)))
                         (reply_status (readAll r))) m1)
          else m1).
Proof.
  intros He Hj Hi Hsave.
  set (j' := set_status (set_output j (Some (readAll r))) (reply_status (readAll r))) in *.
  pose proof (save_record_file _ _ _ _ Hsave) as Hfile. cbn [str_id] in Hfile.
  unfold Worker._handle_get_response. rewrite He.
  unfold Worker.the_job. unfold bind at 1. rewrite Hj.
  unfold bind at 1, modify. unfold bind at 1, on_machine.
  cbn [computer set_job_info id set_status set_output]. fold j'. rewrite Hi, Hsave.
  change (status j') with (reply_status (readAll r)).
  destruct (String.eqb (reply_status (readAll r)) "completed") eqn:Hst.
  - unfold bind at 1, except_Exception, on_machine.
    cbn [computer set_computer set_job_info].
    pose proof (ends_export j' m1) as Hend.
    assert (Hkeep : lookup_path (fs (fst (Job.export j' m1))) (Job.job_fn (computer s) i)
                    = Some (File (Job.job_file j'))).
    { apply (keeps_files_export j' (output_directory j ++ [i])); [|done|].
      - unfold Job.base_dir. cbn. by rewrite Hi.
      - unfold Job.job_fn, Job.cavity_fn, Job.report_fn, Job.log_fn, Job.parameter_fn.
        rewrite !elem_of_cons, elem_of_nil.
        intros [H|[H|[H|[H|[]]]]]; revert H; apply path_last_ne;
          try done; apply record_name_is_no_artifact; simpl; lia. }
    destruct (Job.export j' m1) as [m2 [[]|e]]; cbn [fst snd] in *.
    + eexists. split; [reflexivity|]. by repeat split.
    + destruct e; try done; (eexists; split; [reflexivity|]; by repeat split).
  - unfold bind at 1, ret. eexists. split; [reflexivity|]. by repeat split.
Qed.

Lemma reply_is_recorded_witness :
  exists s',
    Worker._handle_get_response {| error := NoError; readAll := example_completed |}
      (set_job_info (started (example_machine "queued") true) (Some (example_job "queued")))
    = (s', Ok tt)
    /\ job_info s'
       = Some (set_status (set_output (example_job "queued") (Some example_completed))
                 "completed")
    /\ trace s' = [] ++ [Emit server_up]
    /\ lookup_path (fs (computer s')) ["home"; ".KVFinder-web"; "A"; "job.toml"]
       = Some (File (Job.job_file
            (set_status (set_output (example_job "queued") (Some example_completed))
               "completed")))
    /\ computer s'
       = fst (Job.export
                (set_status (set_output (example_job "queued") (Some example_completed))
                   "completed")
                (fst (Job.save
                        (set_status (set_output (example_job "queued")
                                       (Some example_completed)) "completed")
                        (Some "A") (example_machine "queued")))).
Proof.
  apply (reply_is_recorded {| error := NoError; readAll := example_completed |}
           (set_job_info (started (example_machine "queued") true)
              (Some (example_job "queued")))
           (example_job "queued") "A"
           (fst (Job.save
                   (set_status (set_output (example_job "queued")
                                  (Some example_completed)) "completed")
                   (Some "A") (example_machine "queued")))); reflexivity.
Defined.

(** ** A directory without record file *)

Lemma for_each_app {S A} (l1 l2 : list A) (body : A -> M S unit) (s : S) :
  for_each (l1 ++ l2) body s
  = match for_each l1 body s with
    | (s1, Ok _) => for_each l2 body s1
    | (s1, Raise e) => (s1, Raise e)
    end.
Proof.
  revert s. induction l1 as [|x l1 IH]; intros s; simpl; [done|].
  unfold bind. destruct (body x s) as [s1 [[]|e]]; [apply IH|done].
Qed.

(** X16: A pass ends at the first id whose directory holds no [job.toml]: [load]
    raises [FileNotFoundError], nothing catches it in [run], and the ids
    that follow in the listing are not checked in that pass. *)
Theorem pass_ends_at_a_missing_record (E : environment) (jobs before after : list string)
    (job_id : string) (s s1 : state) (md : gmap string node) :
  jobs = before ++ job_id :: after ->
  for_each before (Worker.check_job E jobs) (set_flag s false) = (s1, Ok tt) ->
  lookup_path (fs (computer s1)) (Job.job_dn (computer s1) job_id) = Some (Dir md) ->
  md !! "job.toml" = None ->
  Worker.check_jobs E jobs s = (s1, Raise FileNotFoundError).
Proof.
  intros Hjobs Hbefore Hdir Hno.
  unfold Worker.check_jobs. unfold bind at 1, modify.
  assert (Hfor : for_each jobs (Worker.check_job E jobs) (set_flag s false)
                 = (s1, Raise FileNotFoundError)).
  { rewrite Hjobs at 1. rewrite for_each_app, Hbefore. cbn [for_each].
    apply bind_raise. unfold Worker.check_job. unfold bind at 1, gets.
    apply bind_raise. unfold on_machine, Job.load. unfold bind at 1, on_disk, os.read.
    unfold Job.job_fn. rewrite (lookup_path_snoc _ _ _ _ Hdir), Hno.
    by rewrite set_fs_same, set_computer_same. }
  by rewrite (bind_raise _ _ _ _ _ Hfor).
Qed.

Lemma pass_ends_at_a_missing_record_witness :
  snd (Worker.check_jobs example_refused ["A"; "B"] (started broken_machine true))
  = Raise FileNotFoundError.
Proof.
  rewrite (pass_ends_at_a_missing_record example_refused ["A"; "B"] ["A"] [] "B"
             (started broken_machine true)
             (fst (for_each ["A"] (Worker.check_job example_refused ["A"; "B"])
                     (set_flag (started broken_machine true) false)))
             ∅).
  - reflexivity.
  - reflexivity.
  - vm_compute. reflexivity.
  - vm_compute. reflexivity.
  - reflexivity.
Defined.

(** ** The log that [export] writes *)

Lemma is_prefix_app_char (p : string) (c : ascii) :
  Forall (fun a => a <> c) (list_ascii_of_string p) ->
  forall s, is_prefix p (s +:+ String c "") = is_prefix p s.
Proof.
  induction p as [|a p IH]; intros Hp s; [done|].
  apply Forall_cons in Hp as [Ha Hp].
  destruct s as [|b s]; simpl.
  - apply Ascii.eqb_neq in Ha. by rewrite Ha.
  - destruct (Ascii.eqb a b); [by apply IH|done].
Qed.

Lemma contains_app_char (p : string) (c : ascii) :
  Forall (fun a => a <> c) (list_ascii_of_string p) ->
  forall s, contains p (s +:+ String c "") = contains p s.
Proof.
  intros Hp. induction s as [|b s IH].
  - pose proof (is_prefix_app_char p c Hp "") as H0.
    change ("" +:+ String c "") with (String c "") in *.
    cbn [contains]. rewrite H0. by destruct (is_prefix p "").
  - change (String b s +:+ String c "") with (String b (s +:+ String c "")).
    cbn [contains]. rewrite IH.
    change (String b (s +:+ String c "")) with (String b s +:+ String c "").
    by rewrite (is_prefix_app_char p c Hp).
Qed.

Lemma string_app_assoc' (a b c : string) : a +:+ (b +:+ c) = (a +:+ b) +:+ c.
Proof.
  induction a as [|x a IH]; [done|].
  change (String x (a +:+ (b +:+ c)) = String x ((a +:+ b) +:+ c)). by f_equal.
Qed.

Lemma dictionary_has_no_newline :
  Forall (fun a => a <> "010"%char) (list_ascii_of_string "Dictionary: ").
Proof. repeat constructor; discriminate. Qed.

(** X17: No line of the log that [export] writes mentions the dictionary of the
    service: the lines with [Dictionary: ] are left out, and the line that is
    rewritten names the job id only. *)
Theorem exported_log_has_no_dictionary_line (self : job) (l t : string) :
  contains "Dictionary: " (str_id (id self)) = false ->
  In (Text t) (List.concat (map (Job.log_line self) (split_lines l))) ->
  contains "Dictionary: " t = false.
Proof.
  intros Hid Hin. apply in_concat in Hin as (toks & Htoks & Hin).
  apply in_map_iff in Htoks as (line & <- & _).
  unfold Job.log_line in Hin.
  destruct (contains "Running parKVFinder for: " line).
  - destruct Hin as [Heq|[]]. injection Heq as <-.
    unfold newline.
    rewrite string_app_assoc'.
    rewrite (contains_app_char _ _ dictionary_has_no_newline).
    simpl. exact Hid.
  - destruct (contains "Dictionary: " line) eqn:Hd; [done|].
    destruct Hin as [Heq|[]]. injection Heq as <-.
    unfold newline. by rewrite (contains_app_char _ _ dictionary_has_no_newline).
Qed.

Lemma exported_log_has_no_dictionary_line_witness :
  contains "Dictionary: " ("Dictionary: /jobs/A" +:+ newline) = true
  /\ forall t,
       In (Text t)
         (List.concat (map (Job.log_line (example_job "completed"))
            (split_lines ("Running parKVFinder for: job" +:+ newline
                          +:+ "Dictionary: /jobs/A" +:+ newline +:+ "done")))) ->
       contains "Dictionary: " t = false.
Proof.
  split; [reflexivity|]. intros t.
  apply (exported_log_has_no_dictionary_line (example_job "completed")). reflexivity.
Defined.

(** ** Adding a job by its id *)

Lemma disk_only_raise {A} (e : exn) : disk_only (@raise machine A e).
Proof. done. Qed.

Lemma disk_only_upload (parameters : dict) (self : job) :
  disk_only (Job.upload parameters self).
Proof.
  assert (Hs : forall files key od cur, disk_only (Job.upload_structure files key od cur)).
  { intros files key od cur. unfold Job.upload_structure.
    assert (Hgen : forall v, disk_only
              (let* name := lift_result (as_str v) in
               let* fn := Job.structure_file od name in ret (Some fn))).
    { intros v. apply disk_only_bind; [apply disk_only_lift_result|intros name].
      apply disk_only_bind; [|intros ?; apply disk_only_ret].
      unfold Job.structure_file.
      apply disk_only_bind; [apply disk_only_gets|intros present].
      apply disk_only_bind; [apply disk_only_gets|intros loaded].
      apply disk_only_bind; [|intros ?; apply disk_only_ret].
      destruct (negb present); [|apply disk_only_ret].
      destruct loaded; [|apply disk_only_ret].
      unfold Job.cmd_save. apply disk_only_bind; [apply disk_only_gets|intros [t|]].
      - apply disk_only_on_disk.
      - apply disk_only_raise. }
    destruct (dict_get files key) as [v|]; [|apply disk_only_ret].
    destruct v; try apply Hgen. apply disk_only_ret. }
  assert (Ht : forall fn cur, disk_only (Job.upload_text fn cur)).
  { intros [p|] cur; [|apply disk_only_ret].
    apply disk_only_bind; [apply disk_only_on_disk|intros ?; apply disk_only_ret]. }
  unfold Job.upload.
  repeat first [ apply disk_only_bind; [|intros ?] | apply disk_only_lift_result
               | apply Hs | apply Ht | apply disk_only_ret ].
Qed.

Lemma on_desktop_inv {A} (op : M machine A) (w w' : PyMOLKVFinderWebTools.window)
    (r : result A) :
  PyMOLKVFinderWebTools.on_desktop op w = (w', r) ->
  exists m', op (PyMOLKVFinderWebTools.desktop w) = (m', r)
             /\ w' = PyMOLKVFinderWebTools.set_desktop w m'.
Proof.
  unfold PyMOLKVFinderWebTools.on_desktop.
  destruct (op (PyMOLKVFinderWebTools.desktop w)) as [m' r']. intros H. simplify_eq. eauto.
Qed.

(** X18: A job added by its id is recorded as added manually: when the handler of
    the reply returns, the record file of the id holds a job with the status
    of the reply, marked [id_added_manually], with no settings; the id is
    appended to the jobs listed in the window and the data of the form are
    dropped. *)
Theorem added_job_is_recorded_as_manual (r : network_reply)
    (w w' : PyMOLKVFinderWebTools.window) (d : dict) (i : string) :
  error r = NoError ->
  PyMOLKVFinderWebTools.data w = Some d ->
  dict_get d "id" = Some (VStr i) ->
  PyMOLKVFinderWebTools._handle_get_response r w = (w', Ok tt) ->
  exists j,
    lookup_path (fs (PyMOLKVFinderWebTools.desktop w'))
      (Job.job_fn (PyMOLKVFinderWebTools.desktop w) i)
    = Some (File (Job.job_file j))
    /\ id_added_manually j = true
    /\ status j = reply_status (readAll r)
    /\ settings j = [("modes", VNone); ("step_size", VNone); ("probes", VNone);
                     ("cutoffs", VNone); ("visiblebox", VNone); ("internalbox", VNone)]
    /\ PyMOLKVFinderWebTools.available_jobs w'
       = PyMOLKVFinderWebTools.available_jobs w ++ [i]
    /\ PyMOLKVFinderWebTools.data w' = None.
Proof.
  intros He Hd Hi H. unfold PyMOLKVFinderWebTools._handle_get_response in H.
  rewrite He in H.
  apply bind_inv in H as ([] & w1 & H & Hclean).
  unfold modify in Hclean. injection Hclean as <-.
  apply bind_inv in H as (d0 & w0 & Hdata & H).
  unfold PyMOLKVFinderWebTools.the_data in Hdata. rewrite Hd in Hdata.
  injection Hdata as <- <-.
  apply bind_inv in H as (files0 & w0 & Hf0 & H). apply lift_result_inv in Hf0 as [_ ->].
  apply bind_inv in H as (files1 & w0 & Hf1 & H). apply lift_result_inv in Hf1 as [_ ->].
  apply bind_inv in H as ([] & w0 & Hm1 & H). unfold modify in Hm1. injection Hm1 as <-.
  apply bind_inv in H as (files2 & w0 & Hf2 & H). apply lift_result_inv in Hf2 as [_ ->].
  apply bind_inv in H as ([] & w0 & Hm2 & H). unfold modify in Hm2. injection Hm2 as <-.
  apply bind_inv in H as (job0 & w2 & Hinit & H).
  apply on_desktop_inv in Hinit as (m1 & Hinit & ->).
  apply bind_inv in H as (i' & w0 & Hid & H). apply lift_result_inv in Hid as [Hid ->].
  unfold getitem in Hid. rewrite Hi in Hid. cbn in Hid. injection Hid as <-.
  apply bind_inv in H as ([] & w3 & Hsave & H).
  apply on_desktop_inv in Hsave as (m2 & Hsave & ->).
  apply bind_inv in H as ([] & w0 & Hmsg & H). unfold modify in Hmsg. injection Hmsg as <-.
  apply bind_inv in H as ([] & w0 & Hadd & H). unfold modify in Hadd. injection Hadd as <-.
  cbn [PyMOLKVFinderWebTools.desktop PyMOLKVFinderWebTools.set_desktop
       PyMOLKVFinderWebTools.set_data PyMOLKVFinderWebTools.exec
       PyMOLKVFinderWebTools.addItem id status set_output set_status
       set_id_added_manually set_id] in *.
  set (j := set_output
              (set_status (set_id_added_manually (set_id job0 (Some i)) true)
                 (reply_status (readAll r)))
              (Some (readAll r))) in *.
  pose proof (save_record_file _ _ _ _ Hsave) as Hfile. cbn [str_id] in Hfile.
  assert (Hhome : Job.job_fn m1 i = Job.job_fn (PyMOLKVFinderWebTools.desktop w) i).
  { unfold Job.job_fn, Job.job_dn, jobs_dir. unfold Job.__init__ in Hinit.
    match type of Hinit with
    | Job.upload ?P ?self ?m = _ => destruct (disk_only_upload P self m) as (Hh & _)
    end.
    rewrite Hinit in Hh. cbn [fst] in Hh. by rewrite Hh. }
  rewrite Hhome in Hfile.
  unfold Job.__init__ in Hinit. apply upload_inv in Hinit as (_ & _ & Hset & _).
  destruct Hset as (v1 & v2 & v3 & v4 & v5 & v6 & G1 & G2 & G3 & G4 & G5 & G6 & Hset).
  cbn in G1, G2, G3, G4, G5, G6. simplify_eq.
  exists j.
  assert (Hfinal : lookup_path (fs (PyMOLKVFinderWebTools.desktop w1))
                     (Job.job_fn (PyMOLKVFinderWebTools.desktop w) i)
                   = Some (File (Job.job_file j))
                   /\ PyMOLKVFinderWebTools.available_jobs w1
                      = PyMOLKVFinderWebTools.available_jobs w ++ [i]).
  { destruct (String.eqb _ _).
    - unfold except_Exception in H.
      destruct (PyMOLKVFinderWebTools.on_desktop (Job.export j) _) as [w4 r4] eqn:Hexp.
      apply on_desktop_inv in Hexp as (m3 & Hexp & ->).
      cbn [PyMOLKVFinderWebTools.desktop PyMOLKVFinderWebTools.addItem
           PyMOLKVFinderWebTools.exec PyMOLKVFinderWebTools.set_desktop] in Hexp.
      assert (Hkeep : lookup_path (fs m3) (Job.job_fn (PyMOLKVFinderWebTools.desktop w) i)
                      = Some (File (Job.job_file j))).
      { replace m3 with (fst (Job.export j m2)) by by rewrite Hexp.
        apply (keeps_files_export j (output_directory job0 ++ [i])); [done|done|].
        unfold Job.job_fn, Job.cavity_fn, Job.report_fn, Job.log_fn, Job.parameter_fn.
        rewrite !elem_of_cons, elem_of_nil.
        intros [E1|[E1|[E1|[E1|[]]]]]; revert E1; apply path_last_ne;
          try done; apply record_name_is_no_artifact; simpl; lia. }
      destruct r4 as [[]|e]; [|destruct e]; by simplify_eq.
    - unfold ret in H. by simplify_eq. }
  destruct Hfinal as [Hrec Hjobs]. by repeat split.
Qed.

Lemma added_job_is_recorded_as_manual_witness :
  exists j,
    lookup_path
      (fs (PyMOLKVFinderWebTools.desktop
             (fst (PyMOLKVFinderWebTools._handle_get_response completed_reply
                     plain_request))))
      (Job.job_fn (PyMOLKVFinderWebTools.desktop plain_request) "J")
    = Some (File (Job.job_file j))
    /\ id_added_manually j = true
    /\ status j = "completed"
    /\ settings j = [("modes", VNone); ("step_size", VNone); ("probes", VNone);
                     ("cutoffs", VNone); ("visiblebox", VNone); ("internalbox", VNone)]
    /\ PyMOLKVFinderWebTools.available_jobs
         (fst (PyMOLKVFinderWebTools._handle_get_response completed_reply plain_request))
       = [] ++ ["J"]
    /\ PyMOLKVFinderWebTools.data
         (fst (PyMOLKVFinderWebTools._handle_get_response completed_reply plain_request))
       = None.
Proof.
  apply (added_job_is_recorded_as_manual completed_reply plain_request
           (fst (PyMOLKVFinderWebTools._handle_get_response completed_reply plain_request))
           (Form.get_data plain_form) "J").
  - reflexivity.
  - reflexivity.
  - reflexivity.
  - vm_compute. reflexivity.
Defined.

(** X19: The structure named in the form is looked for in the output directory
    only, under its base name: when no file of that name is there and PyMOL
    has no such object, the handler of the reply raises [FileNotFoundError]
    wherever the file named in the form is; nothing is written, no job is
    listed, and the data of the form stay. *)
Theorem added_job_needs_its_structure_in_the_output_directory
    (r : network_reply) (w : PyMOLKVFinderWebTools.window) (form : Form.form)
    (p od : path) (mo : gmap string node) :
  error r = NoError ->
  PyMOLKVFinderWebTools.data w = Some (Form.get_data form) ->
  Form.input_file form = Some p ->
  Form.ligand_file form = None ->
  Form.output_dir form = Some od ->
  lookup_path (fs (PyMOLKVFinderWebTools.desktop w)) od = Some (Dir mo) ->
  mo !! (str_replace ".pdb" "" (basename p) +:+ ".pdb") = None ->
  objects (PyMOLKVFinderWebTools.desktop w) !! str_replace ".pdb" "" (basename p) = None ->
  exists w',
    PyMOLKVFinderWebTools._handle_get_response r w = (w', Raise FileNotFoundError)
    /\ PyMOLKVFinderWebTools.desktop w' = PyMOLKVFinderWebTools.desktop w
    /\ PyMOLKVFinderWebTools.available_jobs w' = PyMOLKVFinderWebTools.available_jobs w
    /\ PyMOLKVFinderWebTools.shown w' = PyMOLKVFinderWebTools.shown w
    /\ PyMOLKVFinderWebTools.data w' <> None.
Proof.
  intros He Hd Hin Hlig Hout Hdir Hno Hobj.
  unfold PyMOLKVFinderWebTools._handle_get_response. rewrite He.
  unfold PyMOLKVFinderWebTools.the_data. unfold bind at 1. unfold bind at 1. rewrite Hd.
  unfold Form.get_data. rewrite Hin, Hlig, Hout.
  cbn [getitem dict_get String.eqb Ascii.eqb Bool.eqb bind_result as_table path_value
       text_value].
  unfold bind at 1, lift_result.
  unfold bind at 1. unfold PyMOLKVFinderWebTools.structure_name at 1.
  cbn [getitem dict_get dict_set String.eqb Ascii.eqb Bool.eqb bind_result as_path is_none].
  unfold bind at 1, modify. unfold bind at 1.
  unfold PyMOLKVFinderWebTools.structure_name at 1.
  cbn [getitem dict_get dict_set String.eqb Ascii.eqb Bool.eqb bind_result as_path is_none].
  unfold bind at 1, modify. unfold bind at 1, PyMOLKVFinderWebTools.on_desktop.
  cbn [PyMOLKVFinderWebTools.desktop PyMOLKVFinderWebTools.set_data].
  unfold Job.__init__.
  erewrite (upload_raises_without_structure _ _ _ _ _ _ _ od mo); try reflexivity; try done.
  - eexists. split; [reflexivity|]. by repeat split.
  - by right.
Qed.

Lemma added_job_needs_its_structure_in_the_output_directory_witness :
  lookup_path (fs elsewhere_machine) ["data"; "x.pdb"] = Some (File [Text "ATOM x"])
  /\ exists w',
       PyMOLKVFinderWebTools._handle_get_response completed_reply elsewhere_request
       = (w', Raise FileNotFoundError)
       /\ PyMOLKVFinderWebTools.desktop w' = elsewhere_machine
       /\ PyMOLKVFinderWebTools.available_jobs w' = []
       /\ PyMOLKVFinderWebTools.shown w' = []
       /\ PyMOLKVFinderWebTools.data w' <> None.
Proof.
  split; [reflexivity|].
  apply (added_job_needs_its_structure_in_the_output_directory
           completed_reply elsewhere_request
           elsewhere_form ["data"; "x.pdb"] ["out"] ∅); reflexivity.
Defined.

(** ** Erasing one job among others *)

(** X20: [erase_job_dir] removes the directory of one job and leaves what is in the
    directories of the other jobs as it was. *)
Theorem erase_job_dir_keeps_the_other_jobs
    fs (d : path) (x : string) (m mx : gmap string node) :
  lookup_path fs d = Some (Dir m) ->
  m !! x = Some (Dir mx) ->
  snd (erase_job_dir (d ++ [x]) fs) = Ok tt
  /\ forall (y : string) (q : path), y <> x ->
       lookup_path (fst (erase_job_dir (d ++ [x]) fs)) (d ++ y :: q)
       = lookup_path fs (d ++ y :: q).
Proof.
  intros Hd Hx. rewrite (erase_job_dir_ok _ _ _ _ _ Hd Hx). split; [done|].
  intros y q Hne. cbn [fst].
  rewrite (lookup_put_dir _ _ _ _ _ _ Hd), lookup_delete_ne by done.
  by rewrite lookup_path_app, Hd.
Qed.

Lemma erase_job_dir_keeps_the_other_jobs_witness :
  lookup_path
    (fst (erase_job_dir ["home"; ".KVFinder-web"; "A"] (Dir (example_root "queued"))))
    ["home"; ".KVFinder-web"; "B"; "job.toml"]
  = Some (File (example_record "queued")).
Proof.
  destruct (erase_job_dir_keeps_the_other_jobs (Dir (example_root "queued"))
              ["home"; ".KVFinder-web"] "A" (example_jobs "queued")
              {[ "job.toml" := File (example_record "queued") ]}) as [_ Hkeep].
  - reflexivity.
  - reflexivity.
  - change ["home"; ".KVFinder-web"; "A"] with (["home"; ".KVFinder-web"] ++ ["A"]).
    change ["home"; ".KVFinder-web"; "B"; "job.toml"]
      with (["home"; ".KVFinder-web"] ++ "B" :: ["job.toml"]).
    rewrite Hkeep by done. reflexivity.
Defined.

(** ** The round trip of a record *)

Lemma save_load_save_same_witness :
  exists j',
    Job.load (Job.job_fn (fst (Job.save queued_job (Some "42") form_machine)) "42")
      (fst (Job.save queued_job (Some "42") form_machine))
    = (fst (Job.save queued_job (Some "42") form_machine), Ok j')
    /\ Job.job_file j' = Job.job_file queued_job
    /\ Job.save j' (Some "42") (fst (Job.save queued_job (Some "42") form_machine))
       = (fst (Job.save queued_job (Some "42") form_machine), Ok tt).
Proof.
  apply (save_load_save_same queued_job "42" form_machine).
  - vm_compute. reflexivity.
  - vm_compute. reflexivity.
  - exists "x", [Text "ATOM x"]. repeat split; vm_compute; reflexivity.
  - exact I.
  - eexists _, _, _, _, _, _. split; [reflexivity|]. by repeat constructor.
Defined.

(** ** The re-validation of completed jobs *)

Lemma count_forced_app (tr1 tr2 : list event) :
  count_forced (tr1 ++ tr2) = count_forced tr1 + count_forced tr2.
Proof. unfold count_forced. by rewrite filter_app, length_app. Qed.

Lemma count_forced_quiet (q : list event) :
  Forall (fun e => is_forced e = false /\ is_skipped e = false) q -> count_forced q = 0.
Proof.
  unfold count_forced. induction 1 as [|e q [He _] _ IH]; [done|].
  rewrite filter_cons_False; [done|]. by rewrite He.
Qed.

Lemma quiet_keeps_one_forced {A} (s0 : state) (c : M state A) :
  keeps c -> keeps_one_forced s0 c.
Proof.
  intros Hc s (new & Ht & Hn).
  destruct (Hc s) as (Hc' & _ & q & Hq & Hmarks).
  exists (new ++ q). split; [by rewrite Hq, Ht, app_assoc|].
  rewrite count_forced_app, (count_forced_quiet q Hmarks), Nat.add_0_r, Hc'. done.
Qed.

Lemma one_forced_bind {A B} (s0 : state) (c : M state A) (k : A -> M state B) :
  keeps_one_forced s0 c -> (forall a, keeps_one_forced s0 (k a)) ->
  keeps_one_forced s0 (bind c k).
Proof.
  intros Hc Hk s Hs. unfold bind. specialize (Hc s Hs).
  destruct (c s) as [s1 [a|e]]; simpl in *; [|done]. by apply Hk.
Qed.

Lemma one_forced_for_each {A} (s0 : state) (l : list A) (body : A -> M state unit) :
  (forall x, keeps_one_forced s0 (body x)) -> keeps_one_forced s0 (for_each l body).
Proof.
  intros Hbody. induction l as [|x l IH]; simpl.
  - by intros s Hs.
  - apply one_forced_bind; [apply Hbody|]. by intros _.
Qed.

Lemma one_forced_handle_status (E : environment) (s0 : state) (job_id status : string) :
  keeps_one_forced s0 (Worker.handle_status E job_id status).
Proof.
  unfold Worker.handle_status.
  destruct (String.eqb status "queued" || String.eqb status "running").
  { apply quiet_keeps_one_forced, keeps_get_results. }
  destruct (String.eqb status "completed");
    [|apply quiet_keeps_one_forced, keeps_ret].
  intros s Hs.
  pose proof (check_output_exists_state s) as Hsame.
  destruct (Worker._check_output_exists s) as [s1 [ex|e]] eqn:Hc;
    cbn [fst] in Hsame; subst s1.
  2:{ by rewrite (bind_raise _ _ _ _ _ Hc). }
  rewrite (bind_ok _ _ _ _ _ Hc).
  destruct ex; cbn [negb];
    [|by apply (quiet_keeps_one_forced s0 _ (keeps_get_results E job_id))].
  destruct Hs as (new & Ht & Hn).
  unfold bind, gets, modify, Worker._get_results. simpl.
  destruct (Nat.eqb (counter s) times_job_completed_no_checked) eqn:Hint; simpl.
  - apply Nat.eqb_eq in Hint.
    exists (new ++ [Forced job_id; Get job_id]).
    cbn [trace counter set_flag set_counter set_reply record].
    split; [rewrite Ht, <- !app_assoc; reflexivity|].
    rewrite count_forced_app. right. split; [|done].
    destruct Hn as [->|[_ Hz]]; [done|].
    pose proof interval_not_zero. congruence.
  - exists (new ++ [Skipped job_id]).
    cbn [trace counter set_flag set_counter set_reply record].
    split; [by rewrite Ht, <- app_assoc|].
    rewrite count_forced_app. change (count_forced [Skipped job_id]) with 0.
    by rewrite Nat.add_0_r.
Qed.

Lemma one_forced_check_job (E : environment) (s0 : state)
    (jobs : list string) (job_id : string) :
  keeps_one_forced s0 (Worker.check_job E jobs job_id).
Proof.
  unfold Worker.check_job.
  apply one_forced_bind; [apply quiet_keeps_one_forced, keeps_gets|intros fn].
  apply one_forced_bind; [apply quiet_keeps_one_forced, keeps_on_machine|intros j].
  apply one_forced_bind.
  { apply quiet_keeps_one_forced, keeps_modify. intros s. by apply quiet_fields. }
  intros _. apply one_forced_bind; [apply one_forced_handle_status|intros _].
  destruct (Nat.ltb _ _); apply quiet_keeps_one_forced;
    [apply keeps_event_loop|apply keeps_ret].
Qed.

(** X22: In one pass at most one completed job with its results on disk is
    fetched again: the fetch sets the counter to zero, so the completed jobs
    that follow in the listing are left alone in that pass. *)
Theorem one_revalidation_in_a_pass (E : environment) (jobs : list string) (s : state) :
  exists new,
    trace (fst (Worker.check_jobs E jobs s)) = trace s ++ new
    /\ count_forced new <= 1.
Proof.
  unfold Worker.check_jobs. unfold bind at 1, modify.
  assert (Hfor : one_forced s
            (fst (for_each jobs (Worker.check_job E jobs) (set_flag s false)))).
  { apply one_forced_for_each; [intros x; apply one_forced_check_job|].
    exists []. split; [by rewrite app_nil_r|by left]. }
  unfold bind at 1.
  destruct (for_each jobs (Worker.check_job E jobs) (set_flag s false)) as [s2 [[]|e]];
    cbn [fst] in Hfor; destruct Hfor as (new & Ht & Hn).
  2:{ exists new. split; [done|]. destruct Hn as [->|[-> _]]; lia. }
  unfold bind at 1, gets. unfold bind at 1.
  assert (Hrest : forall s3, trace s3 = trace s2 ->
            exists new', trace (fst (Worker.event_loop E time_restart_job_checks s3))
                         = trace s ++ new' /\ count_forced new' <= 1).
  { intros s3 H3. destruct (keeps_event_loop E time_restart_job_checks s3)
      as (_ & _ & q & Hq & Hmarks).
    exists (new ++ q). split; [by rewrite Hq, H3, Ht, app_assoc|].
    rewrite count_forced_app, (count_forced_quiet q Hmarks).
    destruct Hn as [->|[-> _]]; lia. }
  destruct (flag s2); unfold modify, ret; by apply Hrest.
Qed.

(** With the jobs [A] and [B] completed and exported, the pass that starts
    with the counter at the interval fetches [A] again and leaves [B] alone. *)
Example revalidation_of_the_first_job_only :
  trace (fst (Worker.check_jobs example_done ["A"; "B"]
                (set_counter (started exported_machine true)
                   times_job_completed_no_checked)))
  = [Forced "A"; Get "A"; Emit server_up; Sleep 2000; Skipped "B"; Sleep 2000; Sleep 5000].
Proof. vm_compute. reflexivity. Qed.

(** ** Showing an exported job *)

Lemma set_desktop_same (w : PyMOLKVFinderWebTools.window) :
  PyMOLKVFinderWebTools.set_desktop w (PyMOLKVFinderWebTools.desktop w) = w.
Proof. by destruct w. Qed.

Lemma show_id_reads_the_record (load_results : M PyMOLKVFinderWebTools.window unit)
    (j : job) (w : PyMOLKVFinderWebTools.window) :
  settings_ok (id_added_manually j) (settings j) ->
  lookup_path (fs (PyMOLKVFinderWebTools.desktop w))
    (Job.job_fn (PyMOLKVFinderWebTools.desktop w) (PyMOLKVFinderWebTools.currentText w))
  = Some (File (Job.job_file j)) ->
  PyMOLKVFinderWebTools.show_id load_results w
  = load_results
      (PyMOLKVFinderWebTools.setCurrentIndex
         (PyMOLKVFinderWebTools.setText w
            (Some (Job.report_fn
                     (output_directory j ++ [PyMOLKVFinderWebTools.currentText w]) j)))
         1).
Proof.
  intros Hs Hfile. unfold PyMOLKVFinderWebTools.show_id.
  unfold bind at 1, gets. unfold bind at 1.
  unfold bind at 1, PyMOLKVFinderWebTools.on_desktop, on_disk, os.read.
  rewrite Hfile, set_fs_same, set_desktop_same.
  unfold bind at 1, lift_result. rewrite (load_job_file j Hs).
  destruct Hs as (v1 & v2 & v3 & v4 & v5 & v6 & Hset & _).
  destruct j as [st p l od bn man i ip il se o]. cbn [id_added_manually settings] in *.
  subst se. unfold Job.report_fn.
  cbn [status pdb ligand output_directory base_name id_added_manually].
  rewrite <- app_assoc.
  by destruct man, p, l.
Qed.

(** X23: [show_id] opens the report that [export] wrote: when the record of
    the selected job is on the disk, its strings are plain, so that
    [toml.load] reads them back as [save] wrote them, and [export] of that
    job has completed, [show_id] puts in the results entry the path of a file
    that exists, which is the report written by [export], selects the second
    tab and goes on with [load_results]. *)
Theorem show_id_opens_the_exported_report
    (load_results : M PyMOLKVFinderWebTools.window unit)
    (j : job) (m : machine) (w : PyMOLKVFinderWebTools.window) :
  plain_record j = true ->
  settings_ok (id_added_manually j) (settings j) ->
  id j = Some (PyMOLKVFinderWebTools.currentText w) ->
  lookup_path (fs m) (Job.job_fn m (PyMOLKVFinderWebTools.currentText w))
  = Some (File (Job.job_file j)) ->
  Job.export j m = (PyMOLKVFinderWebTools.desktop w, Ok tt) ->
  exists bd rep,
    Job.base_dir j = Ok bd
    /\ PyMOLKVFinderWebTools.show_id load_results w
       = load_results
           (PyMOLKVFinderWebTools.setCurrentIndex
              (PyMOLKVFinderWebTools.setText w (Some (Job.report_fn bd j))) 1)
    /\ lookup_path (fs (PyMOLKVFinderWebTools.desktop w)) (Job.report_fn bd j)
       = Some (File [Comment "TOML results file for parKVFinder software"; Blank;
                     Dumped rep]).
Proof.
  intros _ Hs Hi Hfile Hexp.
  set (i := PyMOLKVFinderWebTools.currentText w) in *.
  assert (Hbd : Job.base_dir j = Ok (output_directory j ++ [i])).
  { unfold Job.base_dir. by rewrite Hi. }
  assert (Hhome : home (PyMOLKVFinderWebTools.desktop w) = home m).
  { destruct (disk_only_export j m) as [H _]. by rewrite Hexp in H. }
  assert (Hkeep : lookup_path (fs (PyMOLKVFinderWebTools.desktop w)) (Job.job_fn m i)
                  = Some (File (Job.job_file j))).
  { pose proof (keeps_files_export j (output_directory j ++ [i]) Hbd m (Job.job_fn m i)
                  (Job.job_file j) Hfile) as H.
    rewrite Hexp in H. apply H.
    unfold Job.job_fn, Job.cavity_fn, Job.report_fn, Job.log_fn, Job.parameter_fn.
    rewrite !elem_of_cons, elem_of_nil.
    intros [G|[G|[G|[G|[]]]]]; revert G; apply path_last_ne;
      try done; apply record_name_is_no_artifact; simpl; lia. }
  apply export_ok_inv in Hexp
    as (bd & r & o & Hbd' & _ & _ & _ & _ & (rep & fp & Hrep & _) & _).
  rewrite Hbd in Hbd'. injection Hbd' as <-.
  exists (output_directory j ++ [i]), rep. split; [done|]. split; [|done].
  apply show_id_reads_the_record; [done|].
  fold i. unfold Job.job_fn, Job.job_dn, jobs_dir in *. by rewrite Hhome.
Qed.

Lemma show_id_opens_the_exported_report_witness :
  exists bd rep,
    Job.base_dir (set_output (example_job "completed") (Some example_completed)) = Ok bd
    /\ PyMOLKVFinderWebTools.show_id (ret tt)
         (selected (fst (Job.export (set_output (example_job "completed") (Some example_completed))
                           (example_machine "completed"))) ["A"; "B"] "A")
       = ret tt
           (PyMOLKVFinderWebTools.setCurrentIndex
              (PyMOLKVFinderWebTools.setText
                 (selected (fst (Job.export (set_output (example_job "completed") (Some example_completed))
                                   (example_machine "completed"))) ["A"; "B"] "A")
                 (Some (Job.report_fn bd (set_output (example_job "completed") (Some example_completed)))))
              1)
    /\ lookup_path
         (fs (fst (Job.export (set_output (example_job "completed") (Some example_completed))
                     (example_machine "completed"))))
         (Job.report_fn bd (set_output (example_job "completed") (Some example_completed)))
       = Some (File [Comment "TOML results file for parKVFinder software"; Blank;
                     Dumped rep]).
Proof.
  apply (show_id_opens_the_exported_report (ret tt)
           (set_output (example_job "completed") (Some example_completed))
           (example_machine "completed")
           (selected (fst (Job.export (set_output (example_job "completed") (Some example_completed))
                             (example_machine "completed"))) ["A"; "B"] "A")).
  - vm_compute. reflexivity.
  - exists VNone, VNone, VNone, VNone, VNone, VNone. split; [reflexivity|].
    repeat constructor.
  - reflexivity.
  - vm_compute. reflexivity.
  - vm_compute. reflexivity.
Defined.

(** ** The files that [upload] leaves alone *)

Lemma keeps_files_upload (parameters : dict) (self : job) :
  keeps_files_but [] (Job.upload parameters self).
Proof.
  unfold Job.upload.
  repeat first [ apply keeps_files_bind; [|intros ?]
               | apply keeps_files_lift_result
               | apply keeps_files_ret ].
  - intros m q t Hq _. by apply upload_structure_keeps_file.
  - intros m q t Hq _. by apply upload_structure_keeps_file.
  - intros m q t Hq _. by rewrite upload_text_fs.
  - intros m q t Hq _. by rewrite upload_text_fs.
Qed.

(** X24: [upload] overwrites nothing: a file that is on the disk before the
    call is there with the same content after it, whether [upload] returns
    or raises; the only file it can write, through [cmd.save], is one that
    was missing. *)
Theorem upload_overwrites_no_file (parameters : dict) (self : job) (m : machine)
    (q : path) (t : list token) :
  lookup_path (fs m) q = Some (File t) ->
  lookup_path (fs (fst (Job.upload parameters self m))) q = Some (File t).
Proof.
  intros Hq. apply (keeps_files_upload parameters self m q t Hq). apply not_elem_of_nil.
Qed.

Lemma upload_overwrites_no_file_witness :
  lookup_path (fs (fst (Job.upload (form_parameters "x") (example_job "queued")
                          stale_machine)))
    ["out"; "x.pdb"]
  = Some (File [Text "ATOM old"]).
Proof.
  apply (upload_overwrites_no_file (form_parameters "x") (example_job "queued")
           stale_machine ["out"; "x.pdb"] [Text "ATOM old"]).
  reflexivity.
Defined.
